(** * Brushable histogram: the domain/scale controller and the overview brush

    A shallow embedding of [src/Histogram.js] and
    [src/DensityChart/DensityChart.js].  The two React components are
    modelled by explicit state passing: a handler takes the component
    instance and the current d3 event and returns the new instance together
    with the calls it made to its collaborators (the upward callbacks, the
    zoom behaviour, the brush).  Module [Wired] puts the two behaviours of
    d3 in place of the recorded calls: moving the brush and transforming the
    zoom run the listeners before they return, as d3 does.

    JavaScript numbers are modelled in exact arithmetic: a number is a
    rational, one of the two infinities, or NaN.  Rounding and the sign of
    zero are not modelled; division by zero, the infinities and the
    comparison rules of NaN are. *)

From Stdlib Require Import QArith Lqa ZArith Lia Bool List String DecimalString.
From Stdlib Require Import Permutation.
From Equations Require Import Equations.
Import ListNotations.

Set Implicit Arguments.

Close Scope Q_scope.
Open Scope nat_scope.

(** ** JavaScript values *)

Module JS.

Inductive number : Type :=
| NaN
| NegInfinity
| Num (q : Q)
| Infinity.

Definition isFinite (a : number) : bool :=
  match a with Num _ => true | _ => false end.

(** A number used as a condition: zero and NaN count as false. *)
Definition truthy (a : number) : bool :=
  match a with
  | NaN => false
  | Num q => match (q ?= 0)%Q with Eq => false | _ => true end
  | _ => true
  end.

(** The sign of a finite number, as [Qcompare] against zero. *)
Definition sign (q : Q) : comparison := (q ?= 0)%Q.

Definition zero : number := Num 0%Q.
Definition one : number := Num 1%Q.

(** [a < b]; false as soon as one side is NaN. *)
Definition lt (a b : number) : bool :=
  match a, b with
  | NaN, _ | _, NaN => false
  | _, NegInfinity => false
  | NegInfinity, _ => true
  | Infinity, _ => false
  | Num _, Infinity => true
  | Num p, Num q => match (p ?= q)%Q with Lt => true | _ => false end
  end.

(** [a <= b]; false as soon as one side is NaN. *)
Definition le (a b : number) : bool :=
  match a, b with
  | NaN, _ | _, NaN => false
  | NegInfinity, _ => true
  | _, Infinity => true
  | _, NegInfinity => false
  | Infinity, _ => false
  | Num p, Num q => match (p ?= q)%Q with Gt => false | _ => true end
  end.

Definition gt (a b : number) : bool := lt b a.
Definition ge (a b : number) : bool := le b a.

(** [a === b] on numbers: NaN differs from everything, itself included. *)
Definition eq_num (a b : number) : bool :=
  match a, b with
  | NegInfinity, NegInfinity => true
  | Infinity, Infinity => true
  | Num p, Num q => Qeq_bool p q
  | _, _ => false
  end.

Definition neg (a : number) : number :=
  match a with
  | NaN => NaN
  | NegInfinity => Infinity
  | Infinity => NegInfinity
  | Num q => Num (- q)%Q
  end.

(** [a + b], exact: the sum JavaScript forms wherever it does not have to
    round, as on whole numbers up to 2^53. *)
Definition add (a b : number) : number :=
  match a, b with
  | NaN, _ | _, NaN => NaN
  | Infinity, NegInfinity | NegInfinity, Infinity => NaN
  | Infinity, _ | _, Infinity => Infinity
  | NegInfinity, _ | _, NegInfinity => NegInfinity
  | Num p, Num q => Num (p + q)%Q
  end.

Definition sub (a b : number) : number := add a (neg b).

(** An infinity of the sign of [c * d]; NaN when that product is zero. *)
Definition signed_infinity (c d : comparison) : number :=
  match c, d with
  | Eq, _ | _, Eq => NaN
  | Lt, Lt | Gt, Gt => Infinity
  | _, _ => NegInfinity
  end.

Definition sign_of (a : number) : comparison :=
  match a with
  | NaN => Eq
  | NegInfinity => Lt
  | Infinity => Gt
  | Num q => sign q
  end.

Definition mul (a b : number) : number :=
  match a, b with
  | NaN, _ | _, NaN => NaN
  | Num p, Num q => Num (p * q)%Q
  | _, _ => signed_infinity (sign_of a) (sign_of b)
  end.

(** [a / b].  A finite number divided by zero is an infinity of the sign
    of the numerator, and NaN when the numerator is zero too. *)
Definition div (a b : number) : number :=
  match a, b with
  | NaN, _ | _, NaN => NaN
  | Num p, Num q =>
      match sign q with
      | Eq => match sign p with
              | Eq => NaN
              | Lt => NegInfinity
              | Gt => Infinity
              end
      | _ => Num (p / q)%Q
      end
  | Num _, _ => zero
  | _, Num q =>
      match sign q with
      | Lt => neg a
      | _ => a
      end
  | _, _ => NaN
  end.

(** Two numbers denote the same number: the same constructor, and equal
    rationals for finite ones. *)
Definition same (a b : number) : Prop :=
  match a, b with
  | NaN, NaN => True
  | NegInfinity, NegInfinity => True
  | Infinity, Infinity => True
  | Num p, Num q => (p == q)%Q
  | _, _ => False
  end.

(** The identity of an object: one the caller made and handed in, or the
    n-th one the component made itself with [new]. *)
Inductive reference : Type :=
| given (n : nat)
| made (n : nat).

Definition same_reference (r s : reference) : bool :=
  match r, s with
  | given n, given m => Nat.eqb n m
  | made n, made m => Nat.eqb n m
  | _, _ => false
  end.

(** A [Date] object: its identity and its time value. *)
Record Date : Type := { ref : reference; getTime : number }.

Inductive value : Type :=
| Undefined
| VNum (n : number)
| VDate (d : Date).

(** Unary plus, the coercion the relational and arithmetic operators
    apply: a Date gives its time, [undefined] gives NaN. *)
Definition to_number (v : value) : number :=
  match v with
  | Undefined => NaN
  | VNum n => n
  | VDate d => getTime d
  end.

(** [v != null] *)
Definition not_null (v : value) : bool :=
  match v with Undefined => false | _ => true end.

(** [v === w]: numbers by value, objects by identity. *)
Definition strict_eq (v w : value) : bool :=
  match v, w with
  | Undefined, Undefined => true
  | VNum a, VNum b => eq_num a b
  | VDate d, VDate e => same_reference (ref d) (ref e)
  | _, _ => false
  end.

(** [v !== w] *)
Definition strict_neq (v w : value) : bool := negb (strict_eq v w).

Definition vlt (v w : value) : bool := lt (to_number v) (to_number w).
Definition vgt (v w : value) : bool := gt (to_number v) (to_number w).
Definition vle (v w : value) : bool := le (to_number v) (to_number w).
Definition vge (v w : value) : bool := ge (to_number v) (to_number w).

(** [v - w] *)
Definition vsub (v w : value) : number := sub (to_number v) (to_number w).

Inductive exn : Type :=
| Error (message : string)
| TypeError.

Inductive result (A : Type) : Type :=
| Ok (a : A)
| Throw (e : exn).
Arguments Ok {A} a.
Arguments Throw {A} e.

(** The decimal text of an integer, as a template literal prints it. *)
Definition string_of_Z (z : Z) : string := NilZero.string_of_int (Z.to_int z).

Definition of_Z (z : Z) : number := Num (inject_Z z).

End JS.

Import JS.

(** ** The parts of d3 the components call

    d3 is a dependency, not part of the sources.  The objects the components
    configure (a scale, a zoom behaviour, a transform) are records of what
    is set on them.  The extent functions and the histogram generator, on
    which the bars depend, are written out in the same exact arithmetic.
    What the scales compute (inverting a pixel, rescaling by a transform,
    rounding a time domain, placing ticks) is kept abstract. *)

Module D3.

Section Extent.
Variable P : Type.

(** Modelled from the spec: the inner loop of [min], over the values
    after the first comparable one. *)
Fixpoint min_rest (valueof : P -> value) (min : value) (values : list P) : value :=
  match values with
  | [] => min
  | p :: rest =>
      let v := valueof p in
      if not_null v && vgt min v then min_rest valueof v rest
      else min_rest valueof min rest
  end.

(** Modelled from the spec: [min(data, xAccessor)] of d3-array, which is
    not among the sources: the least accessor value, skipping
    [undefined] and NaN, and [undefined] when nothing is left. *)
Fixpoint min (values : list P) (valueof : P -> value) : value :=
  match values with
  | [] => Undefined
  | p :: rest =>
      let v := valueof p in
      if not_null v && vge v v then min_rest valueof v rest
      else min rest valueof
  end.

(** Modelled from the spec: the inner loop of [max]. *)
Fixpoint max_rest (valueof : P -> value) (max : value) (values : list P) : value :=
  match values with
  | [] => max
  | p :: rest =>
      let v := valueof p in
      if not_null v && vgt v max then max_rest valueof v rest
      else max_rest valueof max rest
  end.

(** Modelled from the spec: [max(data, xAccessor)] of d3-array, the
    counterpart of [min]. *)
Fixpoint max (values : list P) (valueof : P -> value) : value :=
  match values with
  | [] => Undefined
  | p :: rest =>
      let v := valueof p in
      if not_null v && vge v v then max_rest valueof v rest
      else max rest valueof
  end.
End Extent.

(** A continuous scale with a two-point domain and range.  A time scale
    keeps its domain as time values and hands out Date objects. *)
Record Scale : Type := { domain : number * number; range : number * number }.

(** A zoom transform [{k, x, y}]. *)
Record Transform : Type := { k : number; x : number; y : number }.

(** The zoom behaviour, as far as the component configures it. *)
Record Zoom : Type := {
  scaleExtent : number * number;
  translateExtent : (number * number) * (number * number);
  extent : (number * number) * (number * number)
}.

(** What the scales compute, on time values: [invert] is the time of
    [scale.invert(y)], [rescaleX] the domain of [transform.rescaleX(scale)],
    [nice] the domain after [scale.nice(count)] and [ticks] the times of
    [scale.ticks(count)]. *)
Class Scaling : Type := {
  invert : Scale -> number -> number;
  rescaleX : Transform -> Scale -> number * number;
  nice : number * number -> number -> number * number;
  ticks : number * number -> number -> list number
}.

(** Modelled from the spec: the bisection the generator uses to pick a
    bin, [bisectRight(a, x, lo, hi)] of d3-array with the ascending
    comparator. *)
Equations? bisect (a : list number) (x : number) (lo hi : nat) : nat
  by wf (hi - lo) Nat.lt :=
  bisect a x lo hi with le_lt_dec hi lo => {
    | left _ := lo
    | right _ :=
        let mid := Nat.div2 (lo + hi) in
        if gt (nth mid a NaN) x then bisect a x lo mid
        else bisect a x (S mid) hi }.
Proof.
  all: pose proof (Nat.div2_odd (lo + hi)) as E;
    destruct (Nat.odd (lo + hi)); cbn [Nat.b2n] in E; lia.
Qed.

Section Histogram.
Variable P : Type.

(** A bin: the array of its points with the bounds the generator
    attaches to it. *)
Record Bin : Type := { x0 : number; x1 : number; points : list P }.

(** The rest of a list after the leading elements that satisfy [f]. *)
Fixpoint drop_while (f : number -> bool) (l : list number) : list number :=
  match l with
  | [] => []
  | t :: rest => if f t then drop_while f rest else l
  end.

(** Modelled from the spec: thresholds outside the domain are removed,
    from the front while [tz[0] <= x0], from the back while
    [tz[m - 1] > x1]. *)
Definition trim (lo hi : number) (tz : list number) : list number :=
  rev (drop_while (fun t => gt t hi) (rev (drop_while (fun t => le t lo) tz))).

(** Modelled from the spec: the [m + 1] empty bins over thresholds [tz];
    bin [i] runs from [tz[i - 1]] (or the domain's start) to [tz[i]] (or
    its end). *)
Fixpoint init_bins (lo : number) (tz : list number) (hi : number) : list Bin :=
  match tz with
  | [] => [ {| x0 := lo; x1 := hi; points := [] |} ]
  | t :: rest => {| x0 := lo; x1 := t; points := [] |} :: init_bins t rest hi
  end.

(** [bins[i].push(p)]; there is nothing to push onto past the end. *)
Fixpoint push_at (i : nat) (p : P) (bins : list Bin) : option (list Bin) :=
  match bins, i with
  | [], _ => None
  | b :: rest, O =>
      Some ({| x0 := x0 b; x1 := x1 b; points := points b ++ [p] |} :: rest)
  | b :: rest, S j =>
      match push_at j p rest with
      | Some rest' => Some (b :: rest')
      | None => None
      end
  end.

(** Modelled from the spec: the assignment loop; a point inside the
    domain goes to the bin the bisection names, a point outside is
    skipped. *)
Fixpoint assign (valueof : P -> value) (lo hi : number) (tz : list number)
    (data : list P) (bins : list Bin) : result (list Bin) :=
  match data with
  | [] => Ok bins
  | p :: rest =>
      let v := to_number (valueof p) in
      if le lo v && le v hi then
        match push_at (bisect tz v 0 (List.length tz)) p bins with
        | Some bins' => assign valueof lo hi tz rest bins'
        | None => Throw TypeError
        end
      else assign valueof lo hi tz rest bins
  end.

(** All the points held by the bins, bin after bin. *)
Definition contents (bins : list Bin) : list P := List.concat (map points bins).

(** The bounds of the bins, in order. *)
Definition bounds (bins : list Bin) : list (number * number) :=
  map (fun b => (x0 b, x1 b)) bins.

(** Modelled from the spec: the histogram generator of d3-array, which
    is not among the sources, configured with a value accessor, a
    domain and explicit thresholds: every point is assigned to one bin
    by its coordinate and points outside the domain are dropped. *)
Definition histogram (valueof : P -> value) (dom : number * number)
    (thresholds : list number) (data : list P) : result (list Bin) :=
  let (lo, hi) := dom in
  let tz := trim lo hi thresholds in
  assign valueof lo hi tz data (init_bins lo tz hi).
End Histogram.

End D3.

(** ** utils.js *)

Module Utils.
Section Equal.
Variable P : Type.

(** Modelled from the spec: the point-by-point comparison of
    [isHistogramDataEqual]. *)
Fixpoint same_points (xAccessor yAccessor : P -> value) (a b : list P) : bool :=
  match a, b with
  | [], [] => true
  | p :: a', q :: b' =>
      strict_eq (xAccessor p) (xAccessor q)
      && strict_eq (yAccessor p) (yAccessor q)
      && same_points xAccessor yAccessor a' b'
  | _, _ => false
  end.

(** Modelled from the spec: [isHistogramDataEqual] lives in utils.js,
    which is not among the sources.  Two data sets are equal when they
    have the same length and agree point by point on what the two
    accessors return; data that was never stored equals nothing. *)
Definition isHistogramDataEqual (xAccessor yAccessor : P -> value)
    (data : list P) (previousData : option (list P)) : bool :=
  match previousData with
  | None => false
  | Some previous => same_points xAccessor yAccessor data previous
  end.
End Equal.
End Utils.

(** A d3 event as the handlers read it from [d3Event]: the event that caused
    it, if any, of which only the type is looked at, and the payload of the
    behaviour that emitted it. *)
Module Event.
Record SourceEvent : Type := { type : string }.

Record Zoom : Type := {
  zoom_sourceEvent : option SourceEvent;
  transform : D3.Transform
}.

Record Brush : Type := {
  brush_sourceEvent : option SourceEvent;
  selection : option (number * number)
}.

(** [sourceEvent && sourceEvent.type === name] *)
Definition caused_by (sourceEvent : option SourceEvent) (name : string) : bool :=
  match sourceEvent with
  | Some e => String.eqb (type e) name
  | None => false
  end.
End Event.

(** ** DensityChart.js *)

Module DensityChart.

Record Props : Type := {
  width : number;
  height : number;
  brushDomainMax : value;
  brushDomainMin : value;
  densityChartXScale : D3.Scale;
  renderPlayButton : bool
}.

(** What a handler asks of its collaborators: the brush behaviour and the
    parent's callback. *)
Inductive Call : Type :=
| _moveBrush (domain : number * number)
| onDomainChanged (brushSelection : number * number).

(** [componentDidMount]: once the brush is set up it is moved over the
    whole range of the overview scale.  (Drawing the points is in
    [DensityChartView].) *)
Definition componentDidMount (props : Props) : list Call :=
  [_moveBrush (D3.range (densityChartXScale props))].

(** [_onResizeBrush]: the listener of the brush's "brush" and "end"
    events. *)
Definition _onResizeBrush (props : Props) (d3Event : Event.Brush) : list Call :=
  if Event.caused_by (Event.brush_sourceEvent d3Event) "zoom" then []
  else
    match Event.selection d3Event with
    | Some brushSelection => [onDomainChanged brushSelection]
    | None =>
        let brushSelection := D3.range (densityChartXScale props) in
        [_moveBrush brushSelection; onDomainChanged brushSelection]
    end.

End DensityChart.

(** ** Histogram.js *)

Module Histogram.

(** Actions that may throw are sequenced with [x <- e ;; k]. *)
Definition bind {A B : Type} (e : result A) (k : A -> result B) : result B :=
  match e with
  | Ok a => k a
  | Throw err => Throw err
  end.

Notation "x <- e ;; k" := (bind e (fun x => k))
  (at level 61, e at next level, right associativity).

Definition X_AXIS_HEIGHT : number := of_Z 18.
Definition X_AXIS_PADDING : number := Num (2 # 100).
Definition BUTTON_PADDING : number := of_Z 20.
Definition MIN_ZOOM_VALUE : number := of_Z 1.
Definition DENSITY_CHART_HEIGHT_PX : number := of_Z 35.
Definition MIN_TOTAL_HEIGHT : Z := 150.
Definition PADDING : number := of_Z 10.

(** [histogramChartDimensions]: its [width] and [height] are [hc_width] and
    [hc_height] here, those of [densityChartDimensions] [dc_width] and
    [dc_height]. *)
Record HistogramChartDimensions : Type := {
  hc_width : number;
  hc_height : number;
  heightForBars : number
}.

Record DensityChartDimensions : Type := {
  dc_width : number;
  dc_height : number
}.

(** The brush domain; each bound is whatever the accessor returned (a
    number or a Date) or a Date the scales produced. *)
Record Domain : Type := { min : value; max : value }.

(** What the component asks of its collaborators: the zoom behaviour,
    handed [d3ZoomIdentity.scale(scale).translate(x, y)], and the caller's
    callback. *)
Inductive Call : Type :=
| zoom_transform (scale : number) (x y : number)
| onIntervalChange (interval : number * number) (isFullDomain : bool).

Section Component.
Context {P : Type} {calendar : D3.Scaling}.

(** The props the component reads; [size_width] is [props.size.width]. *)
Record Props : Type := {
  data : list P;
  size_width : number;
  height : number;
  defaultBarCount : number;
  xAccessor : P -> value;
  yAccessor : P -> number;
  spaceBetweenCharts : number;
  minZoomUnit : number;
  renderPlayButton : bool
}.

(** A histogram bar: the bin with its accumulated [yValue]. *)
Record Bar : Type := { x0 : number; x1 : number; points : list P; yValue : number }.

(** The state of a constructed component; [state_data] is [state.data].
    The hover fields ([selectedBarPosition], [currentBar]) play no part
    here. *)
Record State : Type := {
  timeHistogramBars : list Bar;
  showHistogramBarTooltip : bool;
  histogramChartDimensions : HistogramChartDimensions;
  densityChartDimensions : DensityChartDimensions;
  state_data : option (list P);
  brushDomain : Domain
}.

(** The object [calculateWidthsAndDomain] returns: the two layout keys
    always, [data] and [brushDomain] only when it sets them. *)
Record NextState : Type := {
  next_histogramChartDimensions : HistogramChartDimensions;
  next_densityChartDimensions : DensityChartDimensions;
  next_data : option (list P);
  next_brushDomain : option Domain
}.

Definition _calculateChartsPositionsAndSizing (props : Props)
    : HistogramChartDimensions * DensityChartDimensions :=
  let width := size_width props in
  let playButtonPadding :=
    if renderPlayButton props
    then (if gt width (add PADDING PADDING) then BUTTON_PADDING else zero)
    else zero in
  let histogramHeight :=
    sub (sub (height props) DENSITY_CHART_HEIGHT_PX) (spaceBetweenCharts props) in
  ({| hc_width := sub width PADDING;
      hc_height := histogramHeight;
      heightForBars := sub histogramHeight X_AXIS_HEIGHT |},
   {| dc_width := sub (sub width (mul PADDING (of_Z 4))) playButtonPadding;
      dc_height := DENSITY_CHART_HEIGHT_PX |}).

Definition calculateWidthsAndDomain (props : Props)
    (previousData : option (list P)) (previousBrushDomain : Domain) : NextState :=
  let (histogramChartDimensions, densityChartDimensions) :=
    _calculateChartsPositionsAndSizing props in
  let hasDataChanged :=
    negb (Utils.isHistogramDataEqual (xAccessor props)
            (fun p => VNum (yAccessor props p)) (data props) previousData) in
  if hasDataChanged then
    let min' := D3.min (data props) (xAccessor props) in
    let max' := D3.max (data props) (xAccessor props) in
    if vgt (min previousBrushDomain) min' || vlt (max previousBrushDomain) max' then
      {| next_histogramChartDimensions := histogramChartDimensions;
         next_densityChartDimensions := densityChartDimensions;
         next_data := Some (data props);
         next_brushDomain := Some {| min := min'; max := max' |} |}
    else
      {| next_histogramChartDimensions := histogramChartDimensions;
         next_densityChartDimensions := densityChartDimensions;
         next_data := Some (data props);
         next_brushDomain := None |}
  else
    {| next_histogramChartDimensions := histogramChartDimensions;
       next_densityChartDimensions := densityChartDimensions;
       next_data := None;
       next_brushDomain := None |}.

(** [Object.keys(nextState).length] *)
Definition keys_length (nextState : NextState) : nat :=
  2 + match next_data nextState with Some _ => 1 | None => 0 end
    + match next_brushDomain nextState with Some _ => 1 | None => 0 end.

Definition getDerivedStateFromProps (props : Props) (state : State)
    : result (option NextState) :=
  if lt (height props) (of_Z MIN_TOTAL_HEIGHT) then
    Throw (Error ("The minimum height is " ++ string_of_Z MIN_TOTAL_HEIGHT ++ "px."))
  else
    let nextState :=
      calculateWidthsAndDomain props (state_data state) (brushDomain state) in
    Ok (if 0 <? keys_length nextState then Some nextState else None).

(** How React folds the keys of a returned object into the state. *)
Definition merge (state : State) (nextState : NextState) : State :=
  {| timeHistogramBars := timeHistogramBars state;
     showHistogramBarTooltip := showHistogramBarTooltip state;
     histogramChartDimensions := next_histogramChartDimensions nextState;
     densityChartDimensions := next_densityChartDimensions nextState;
     state_data := match next_data nextState with
                   | Some d => Some d
                   | None => state_data state
                   end;
     brushDomain := match next_brushDomain nextState with
                    | Some d => d
                    | None => brushDomain state
                    end |}.

(** The component instance: [this].  [made_dates] counts the Date
    objects made so far among those that can reach the state, so that
    each has an identity of its own. *)
Record Instance : Type := {
  props : Props;
  state : State;
  densityChartXScale : D3.Scale;
  zoom : D3.Zoom;
  histogramChartXScale : option D3.Scale;
  histogramChartYScale : option D3.Scale;
  made_dates : nat
}.

(** [new Date(time)] *)
Definition new_Date (time : number) (this : Instance) : Date * Instance :=
  ({| ref := made (made_dates this); getTime := time |},
   {| props := props this;
      state := state this;
      densityChartXScale := densityChartXScale this;
      zoom := zoom this;
      histogramChartXScale := histogramChartXScale this;
      histogramChartYScale := histogramChartYScale this;
      made_dates := S (made_dates this) |}).

Definition setState (f : State -> State) (this : Instance) : Instance :=
  {| props := props this;
     state := f (state this);
     densityChartXScale := densityChartXScale this;
     zoom := zoom this;
     histogramChartXScale := histogramChartXScale this;
     histogramChartYScale := histogramChartYScale this;
     made_dates := made_dates this |}.

(** [_createScaleAndZoom]: the two fields it assigns,
    [this.densityChartXScale] and [this.zoom]. *)
Definition _createScaleAndZoom (props : Props) (state : State) : D3.Scale * D3.Zoom :=
  let densityChartXScale :=
    {| D3.domain := (to_number (min (brushDomain state)),
                     to_number (max (brushDomain state)));
       D3.range := (zero, dc_width (densityChartDimensions state)) |} in
  let MAX_ZOOM_VALUE :=
    div (vsub (max (brushDomain state)) (min (brushDomain state)))
        (minZoomUnit props) in
  let corner := (hc_width (histogramChartDimensions state),
                 hc_height (histogramChartDimensions state)) in
  (densityChartXScale,
   {| D3.scaleExtent := (MIN_ZOOM_VALUE, MAX_ZOOM_VALUE);
      D3.translateExtent := ((zero, zero), corner);
      D3.extent := ((zero, zero), corner) |}).

(** The constructor.  When [calculateWidthsAndDomain] returns no
    [brushDomain] the state has none, and [_createScaleAndZoom] reading
    [this.state.brushDomain.min] is a TypeError. *)
Definition constructor (props : Props) : result Instance :=
  let nextState :=
    calculateWidthsAndDomain props (Some [])
      {| max := VNum NegInfinity; min := VNum Infinity |} in
  match next_brushDomain nextState with
  | None => Throw TypeError
  | Some domain =>
      let state :=
        {| timeHistogramBars := [];
           showHistogramBarTooltip := false;
           histogramChartDimensions := next_histogramChartDimensions nextState;
           densityChartDimensions := next_densityChartDimensions nextState;
           state_data := next_data nextState;
           brushDomain := domain |} in
      let (scale, zoom) := _createScaleAndZoom props state in
      Ok {| props := props;
            state := state;
            densityChartXScale := scale;
            zoom := zoom;
            histogramChartXScale := None;
            histogramChartYScale := None;
            made_dates := 0 |}
  end.

(** [_updateHistogramChartScales]: the histogram's x scale over the
    brush domain, the bars with their [yValue], the y scale.  Drawing
    the axes, which the [setState] callback does, is left out. *)
Definition _updateHistogramChartScales (this : Instance) : result Instance :=
  let width := hc_width (histogramChartDimensions (state this)) in
  let domain :=
    D3.nice (to_number (min (brushDomain (state this))),
             to_number (max (brushDomain (state this))))
            (defaultBarCount (props this)) in
  let xScale :=
    {| D3.domain := domain;
       D3.range := (mul width X_AXIS_PADDING, mul width (sub one X_AXIS_PADDING)) |} in
  bins <- D3.histogram (xAccessor (props this)) domain
            (D3.ticks domain (defaultBarCount (props this))) (data (props this)) ;;
  let timeHistogramBars :=
    map (fun bar =>
           let yValue :=
             fold_left (fun sum curr => add sum (yAccessor (props this) curr))
                       (D3.points bar) zero in
           {| x0 := D3.x0 bar; x1 := D3.x1 bar; points := D3.points bar;
              yValue := yValue |}) bins in
  let yScale :=
    {| D3.domain := (zero, to_number (D3.max timeHistogramBars
                                        (fun bin => VNum (yValue bin))));
       D3.range := (heightForBars (histogramChartDimensions (state this)), zero) |} in
  Ok {| props := props this;
        state := {| timeHistogramBars := timeHistogramBars;
                    showHistogramBarTooltip := showHistogramBarTooltip (state this);
                    histogramChartDimensions := histogramChartDimensions (state this);
                    densityChartDimensions := densityChartDimensions (state this);
                    state_data := state_data (state this);
                    brushDomain := brushDomain (state this) |};
        densityChartXScale := densityChartXScale this;
        zoom := zoom this;
        histogramChartXScale := Some xScale;
        histogramChartYScale := Some yScale;
        made_dates := made_dates this |}.

(** [_updateBrushedDomainAndReRenderTheHistogramPlot].  The state update
    is applied at once, as React does for calls made outside its own
    event handlers, and its callback runs before the caller is
    notified. *)
Definition _updateBrushedDomainAndReRenderTheHistogramPlot (this : Instance)
    (brushedDomain : Date * Date) : result (Instance * list Call) :=
  let (brushed0, brushed1) := brushedDomain in
  if strict_neq (VDate brushed0) (min (brushDomain (state this)))
     && strict_neq (VDate brushed1) (max (brushDomain (state this))) then
    let this :=
      setState (fun st =>
        {| timeHistogramBars := timeHistogramBars st;
           showHistogramBarTooltip := false;
           histogramChartDimensions := histogramChartDimensions st;
           densityChartDimensions := densityChartDimensions st;
           state_data := state_data st;
           brushDomain := {| min := VDate brushed0; max := VDate brushed1 |} |}) this in
    this <- _updateHistogramChartScales this ;;
    let fullDomain := D3.domain (densityChartXScale this) in
    let isFullDomain :=
      eq_num (fst fullDomain) (getTime brushed0)
      && eq_num (snd fullDomain) (getTime brushed1) in
    Ok (this, [onIntervalChange (getTime brushed0, getTime brushed1) isFullDomain])
  else Ok (this, []).

(** [_onDensityChartDomainChanged]: the brush selection, in pixels,
    becomes a zoom transform and a new brush domain. *)
Definition _onDensityChartDomainChanged (this : Instance)
    (brushSelection : number * number) : result (Instance * list Call) :=
  let (brushSelectionMin, brushSelectionMax) := brushSelection in
  let (brushed0, this) :=
    new_Date (D3.invert (densityChartXScale this) brushSelectionMin) this in
  let (brushed1, this) :=
    new_Date (D3.invert (densityChartXScale this) brushSelectionMax) this in
  let transform :=
    zoom_transform
      (div (dc_width (densityChartDimensions (state this)))
           (sub brushSelectionMax brushSelectionMin))
      (neg brushSelectionMin) zero in
  r <- _updateBrushedDomainAndReRenderTheHistogramPlot this (brushed0, brushed1) ;;
  Ok (fst r, transform :: snd r).

(** [_onResizeZoom]: the listener of the zoom behaviour's "zoom"
    event. *)
Definition _onResizeZoom (this : Instance) (d3Event : Event.Zoom)
    : result (Instance * list Call) :=
  if Event.caused_by (Event.zoom_sourceEvent d3Event) "brush" then Ok (this, [])
  else
    let brushedTimes := D3.rescaleX (Event.transform d3Event) (densityChartXScale this) in
    let (brushed0, this) := new_Date (fst brushedTimes) this in
    let (brushed1, this) := new_Date (snd brushedTimes) this in
    _updateBrushedDomainAndReRenderTheHistogramPlot this (brushed0, brushed1).

(** [_setUpZoomAndChartScales]: attaching the zoom to the chart element
    has no effect on the instance. *)
Definition _setUpZoomAndChartScales (this : Instance) : result Instance :=
  _updateHistogramChartScales this.

Definition componentDidMount (this : Instance) : result Instance :=
  _setUpZoomAndChartScales this.

Definition componentDidUpdate (prevProps : Props) (this : Instance) : result Instance :=
  let hasWidthChanged :=
    negb (eq_num (size_width prevProps) (size_width (props this))) in
  let hasDataChanged :=
    negb (Nat.eqb (List.length (data prevProps)) (List.length (data (props this))))
    || negb (Utils.isHistogramDataEqual (xAccessor (props this))
               (fun p => VNum (yAccessor (props this) p))
               (data prevProps) (Some (data (props this)))) in
  if hasWidthChanged || hasDataChanged then
    let (scale, zoom) := _createScaleAndZoom (props this) (state this) in
    _setUpZoomAndChartScales
      {| props := props this;
         state := state this;
         densityChartXScale := scale;
         zoom := zoom;
         histogramChartXScale := histogramChartXScale this;
         histogramChartYScale := histogramChartYScale this;
         made_dates := made_dates this |}
  else Ok this.

(** An update with new props, in React's order: the derived state is
    merged in, the props replaced, then [componentDidUpdate] runs. *)
Definition receive (nextProps : Props) (this : Instance) : result Instance :=
  derived <- getDerivedStateFromProps nextProps (state this) ;;
  let state' := match derived with
                | Some nextState => merge (state this) nextState
                | None => state this
                end in
  componentDidUpdate (props this)
    {| props := nextProps;
       state := state';
       densityChartXScale := densityChartXScale this;
       zoom := zoom this;
       histogramChartXScale := histogramChartXScale this;
       histogramChartYScale := histogramChartYScale this;
       made_dates := made_dates this |}.

(** The props [render] hands to the density chart. *)
Definition render_DensityChart (this : Instance) : DensityChart.Props :=
  {| DensityChart.width := dc_width (densityChartDimensions (state this));
     DensityChart.height := dc_height (densityChartDimensions (state this));
     DensityChart.brushDomainMax := max (brushDomain (state this));
     DensityChart.brushDomainMin := min (brushDomain (state this));
     DensityChart.densityChartXScale := densityChartXScale this;
     DensityChart.renderPlayButton :=
       renderPlayButton (props this) && (0 <? List.length (data (props this))) |}.

End Component.

Arguments Props : clear implicits.
Arguments Bar : clear implicits.
Arguments State : clear implicits.
Arguments NextState : clear implicits.
Arguments Instance : clear implicits.

End Histogram.

(** ** The specification's formulas, for comparison with the code *)

Module Spec.

(** [max(a, b)] on numbers. *)
Definition max_num (a b : number) : number :=
  match a, b with
  | NaN, _ | _, NaN => NaN
  | _, _ => if lt a b then b else a
  end.

(** The zoom's scale extent as the specification words it:
    [[1, max(1, (domain.max - domain.min) / minZoomUnit)]]. *)
Definition scaleExtent (domain : Histogram.Domain) (minZoomUnit : number)
    : number * number :=
  (one, max_num one (div (vsub (Histogram.max domain) (Histogram.min domain))
                         minZoomUnit)).

(** A domain that only widens: the new one reaches at least as far as
    the old one on both sides. *)
Definition widens (before after : Histogram.Domain) : bool :=
  vle (Histogram.min after) (Histogram.min before)
  && vge (Histogram.max after) (Histogram.max before).

(** The domain invariant [min <= max]. *)
Definition ordered (domain : Histogram.Domain) : bool :=
  vle (Histogram.min domain) (Histogram.max domain).

(** The sum of the weights of a list of points. *)
Fixpoint total {P : Type} (yAccessor : P -> number) (points : list P) : number :=
  match points with
  | [] => zero
  | p :: rest => add (yAccessor p) (total yAccessor rest)
  end.

(** A point's coordinate lies within [[lo, hi]]. *)
Definition within {P : Type} (xAccessor : P -> value) (lo hi : number) (p : P) : bool :=
  le lo (to_number (xAccessor p)) && le (to_number (xAccessor p)) hi.

(** Intervals that follow one another without gap or overlap, from [lo]
    to [hi]: each starts where the one before ends. *)
Fixpoint contiguous (lo : number) (intervals : list (number * number))
    (hi : number) : Prop :=
  match intervals with
  | [] => lo = hi
  | (a, b) :: rest => a = lo /\ contiguous b rest hi
  end.

(** The intervals of the bars, in order. *)
Definition intervals {P : Type} (bars : list (Histogram.Bar P)) : list (number * number) :=
  map (fun bar => (Histogram.x0 bar, Histogram.x1 bar)) bars.

(** The points of the bars, bar after bar. *)
Definition counted {P : Type} (bars : list (Histogram.Bar P)) : list P :=
  List.concat (map (@Histogram.points P) bars).

(** Thresholds in ascending order, none of them NaN. *)
Fixpoint ascending (thresholds : list number) : bool :=
  match thresholds with
  | [] => true
  | t :: rest => le t t && forallb (le t) rest && ascending rest
  end.

(** Every bin holds points of its own interval only. *)
Definition placed {P : Type} (valueof : P -> value) (bins : list (D3.Bin P)) : Prop :=
  Forall (fun bin => forallb (within valueof (D3.x0 bin) (D3.x1 bin)) (D3.points bin) = true)
         bins.

(** Every bar holds points of its own interval only. *)
Definition bars_placed {P : Type} (valueof : P -> value) (bars : list (Histogram.Bar P))
    : Prop :=
  Forall (fun bar =>
            forallb (within valueof (Histogram.x0 bar) (Histogram.x1 bar))
                    (Histogram.points bar) = true)
         bars.

(** The histogram's domain: the brush domain after the rounding pass. *)
Definition niced {P : Type} {calendar : D3.Scaling} (this : Histogram.Instance P)
    : number * number :=
  D3.nice (to_number (Histogram.min (Histogram.brushDomain (Histogram.state this))),
           to_number (Histogram.max (Histogram.brushDomain (Histogram.state this))))
          (Histogram.defaultBarCount (Histogram.props this)).

End Spec.

(** ** A small concrete setting

    Points are pairs of a timestamp and a weight; the scales are linear, do
    no rounding and tick the middle of the domain only. *)

Module Sample.

Definition Point : Type := (Z * Z)%type.

(** A linear scale's [invert]. *)
Definition invert (s : D3.Scale) (y : number) : number :=
  let (d0, d1) := D3.domain s in
  let (r0, r1) := D3.range s in
  let b := sub r1 r0 in
  let t := if truthy b then div (sub y r0) b else b in
  add d0 (mul (sub d1 d0) t).

(** [transform.invertX(x)] *)
Definition invertX (t : D3.Transform) (px : number) : number :=
  div (sub px (D3.x t)) (D3.k t).

(** The domain of the scale rescaled by a transform: the scale's range,
    taken back through the transform and then through the scale. *)
Definition rescaleX (t : D3.Transform) (s : D3.Scale) : number * number :=
  let (r0, r1) := D3.range s in
  (invert s (invertX t r0), invert s (invertX t r1)).

#[export] Instance calendar : D3.Scaling :=
  {| D3.invert := invert;
     D3.rescaleX := rescaleX;
     D3.nice := fun domain _ => domain;
     D3.ticks := fun domain _ => [div (add (fst domain) (snd domain)) (of_Z 2)] |}.

Definition props (data : list Point) (height : Z) : Histogram.Props Point :=
  {| Histogram.data := data;
     Histogram.size_width := of_Z 500;
     Histogram.height := of_Z height;
     Histogram.defaultBarCount := of_Z 18;
     Histogram.xAccessor := fun p => VNum (of_Z (fst p));
     Histogram.yAccessor := fun p => of_Z (snd p);
     Histogram.spaceBetweenCharts := of_Z 10;
     Histogram.minZoomUnit := of_Z 1000;
     Histogram.renderPlayButton := true |}.

Definition data0 : list Point := [(0, 1); (10, 1)]%Z.

(** The component the constructor builds over data whose timestamps run
    from [lo] to [hi]. *)
Definition instance (data : list Point) (lo hi : Z) : Histogram.Instance Point :=
  let props := props data 150 in
  let state :=
    {| Histogram.timeHistogramBars := [];
       Histogram.showHistogramBarTooltip := false;
       Histogram.histogramChartDimensions :=
         fst (Histogram._calculateChartsPositionsAndSizing props);
       Histogram.densityChartDimensions :=
         snd (Histogram._calculateChartsPositionsAndSizing props);
       Histogram.state_data := Some data;
       Histogram.brushDomain := {| Histogram.min := VNum (of_Z lo);
                                   Histogram.max := VNum (of_Z hi) |} |} in
  {| Histogram.props := props;
     Histogram.state := state;
     Histogram.densityChartXScale := fst (Histogram._createScaleAndZoom props state);
     Histogram.zoom := snd (Histogram._createScaleAndZoom props state);
     Histogram.histogramChartXScale := None;
     Histogram.histogramChartYScale := None;
     Histogram.made_dates := 0 |}.

Definition this0 : Histogram.Instance Point := instance data0 0 10.

(** The component over the single timestamp 5. *)
Definition single : Histogram.Instance Point := instance [(5, 1)]%Z 5 5.

Definition identity : D3.Transform := {| D3.k := one; D3.x := zero; D3.y := zero |}.

(** The instance an action leaves, or the one it started from when it
    threw. *)
Definition after {A : Type} (this : Histogram.Instance Point)
    (outcome : result (Histogram.Instance Point * A)) : Histogram.Instance Point :=
  match outcome with
  | Ok (this', _) => this'
  | Throw _ => this
  end.

Definition zoom_event (source : option string) (transform : D3.Transform) : Event.Zoom :=
  {| Event.zoom_sourceEvent := option_map (fun t => {| Event.type := t |}) source;
     Event.transform := transform |}.


End Sample.

(** ** The two components with d3's behaviours in place

    d3-zoom and d3-brush are dependencies, not part of the sources.  Both
    call their listeners before they return: [zoom.transform] emits a
    "zoom" event, [brush.move] a "brush" and then an "end" event (and a
    "start" event each, to which nothing listens here).  An emitted event
    carries as its [sourceEvent] the event that was being handled when it
    was emitted.  The handlers of the two components therefore run inside
    one another. *)

Module Wired.

(** The DOM events behind the gestures of the two behaviours; of a source
    event the handlers read the [type] only. *)
Inductive Native : Type :=
| mousedown
| mousemove
| mouseup
| wheel
| dblclick
| touchstart
| touchmove
| touchend.

Definition dom_type (native : Native) : string :=
  match native with
  | mousedown => "mousedown"
  | mousemove => "mousemove"
  | mouseup => "mouseup"
  | wheel => "wheel"
  | dblclick => "dblclick"
  | touchstart => "touchstart"
  | touchmove => "touchmove"
  | touchend => "touchend"
  end.

(** What the user does: a zoom gesture on the histogram, which arrives as
    a "zoom" event with the transform d3 computed; dragging the brush, a
    "brush" event with the selection; letting go of the brush, an "end"
    event, without selection when the brush was cleared. *)
Inductive Gesture : Type :=
| zoomed (native : Native) (transform : D3.Transform)
| brushed (native : Native) (selection : number * number)
| brush_ended (native : Native) (selection : option (number * number)).

(** Modelled from the spec: [d3ZoomIdentity.scale(k).translate(x, y)] of
    d3-zoom, which is not among the sources: the transform that translates
    by [(x, y)] and then scales by [k].  The identity scaled by [k] is
    [{k, 0, 0}]; translating it by nothing returns it as it is, and by
    [(x, y)] gives [{k, 0 + k x, 0 + k y}]. *)
Definition scale_translate (k x y : number) : D3.Transform :=
  if eq_num x zero && eq_num y zero
  then {| D3.k := k; D3.x := zero; D3.y := zero |}
  else {| D3.k := k; D3.x := add zero (mul k x); D3.y := add zero (mul k y) |}.

(** Modelled from the spec: the selection the events of [brush.move]
    carry, d3-brush not being among the sources.  A selection whose two
    ends differ is carried as it is; what becomes of an empty one (kept, or
    turned into no selection) differs between the versions of d3-brush and
    is left open. *)
Class Brushing : Type := {
  moved_selection : number * number -> option (number * number);
  moved_selection_wide :
    forall selection : number * number,
      eq_num (fst selection) (snd selection) = false ->
      moved_selection selection = Some selection
}.

Section Dispatch.
Context {P : Type} {calendar : D3.Scaling} {brush : Brushing}.

(** What running a handler comes to: it returns or throws, or, [None], it
    is still running at the depth of nesting allowed. *)
Definition Outcome : Type :=
  option (result (Histogram.Instance P * list Histogram.Call)).

(** One action after the other, with the calls of both in order. *)
Definition and_then (first : Outcome) (next : Histogram.Instance P -> Outcome)
    : Outcome :=
  match first with
  | Some (Ok (this, calls)) =>
      match next this with
      | Some (Ok (this', calls')) => Some (Ok (this', calls ++ calls'))
      | Some (Throw e) => Some (Throw e)
      | None => None
      end
  | Some (Throw e) => Some (Throw e)
  | None => None
  end.

(** Modelled from the spec: [zoom.transform] of d3-zoom.  The "zoom"
    event it emits goes to [_onResizeZoom], the listener
    [_createScaleAndZoom] sets, with the given transform and, as source,
    the event being handled when [zoom.transform] is called. *)
Definition zoom_transform (this : Histogram.Instance P)
    (current : option Event.SourceEvent) (transform : D3.Transform)
    : result (Histogram.Instance P * list Histogram.Call) :=
  Histogram._onResizeZoom this
    {| Event.zoom_sourceEvent := current; Event.transform := transform |}.

(** [_onDensityChartDomainChanged] with the zoom behaviour in place: the
    two Dates are made, the zoom is transformed, which runs the zoom
    listener, and then the window-change path is taken. *)
Definition _onDensityChartDomainChanged (this : Histogram.Instance P)
    (current : option Event.SourceEvent) (brushSelection : number * number)
    : result (Histogram.Instance P * list Histogram.Call) :=
  let (brushSelectionMin, brushSelectionMax) := brushSelection in
  let (brushed0, this) :=
    Histogram.new_Date (D3.invert (Histogram.densityChartXScale this) brushSelectionMin)
                       this in
  let (brushed1, this) :=
    Histogram.new_Date (D3.invert (Histogram.densityChartXScale this) brushSelectionMax)
                       this in
  let scale :=
    div (Histogram.dc_width (Histogram.densityChartDimensions (Histogram.state this)))
        (sub brushSelectionMax brushSelectionMin) in
  Histogram.bind
    (zoom_transform this current (scale_translate scale (neg brushSelectionMin) zero))
    (fun zoomed =>
  Histogram.bind
    (Histogram._updateBrushedDomainAndReRenderTheHistogramPlot (fst zoomed)
       (brushed0, brushed1))
    (fun updated =>
  Ok (fst updated,
      Histogram.zoom_transform scale (neg brushSelectionMin) zero
        :: snd zoomed ++ snd updated))).

(** The density chart's calls carried out one after the other, while the
    event [current] is being handled: [onDomainChanged] is the histogram's
    [_onDensityChartDomainChanged], and [_moveBrush] goes to the brush. *)
Fixpoint serve
    (move : Histogram.Instance P -> option Event.SourceEvent -> number * number -> Outcome)
    (current : option Event.SourceEvent) (this : Histogram.Instance P)
    (calls : list DensityChart.Call) : Outcome :=
  match calls with
  | [] => Some (Ok (this, []))
  | call :: rest =>
      and_then
        match call with
        | DensityChart._moveBrush domain => move this current domain
        | DensityChart.onDomainChanged brushSelection =>
            Some (_onDensityChartDomainChanged this current brushSelection)
        end
        (fun this => serve move current this rest)
  end.

(** Modelled from the spec: [brush.move] of d3-brush, called while the
    event [current] is being handled.  It emits a "brush" and then an
    "end" event with the new selection; each goes to the density chart's
    [_onResizeBrush], the listener of both, whose calls are carried out at
    once.  [depth] bounds how deep the listeners may move the brush
    again. *)
Fixpoint _moveBrush (depth : nat) (this : Histogram.Instance P)
    (current : option Event.SourceEvent) (domain : number * number) : Outcome :=
  match depth with
  | O => None
  | S depth =>
      let d3Event :=
        {| Event.brush_sourceEvent := current;
           Event.selection := moved_selection domain |} in
      let listener (type : string) (this : Histogram.Instance P) : Outcome :=
        serve (_moveBrush depth) (Some {| Event.type := type |}) this
          (DensityChart._onResizeBrush (Histogram.render_DensityChart this) d3Event) in
      and_then (listener "brush"%string this) (listener "end"%string)
  end.

(** A brush event of the given type ("brush" or "end") arriving at the
    density chart. *)
Definition _onResizeBrush (depth : nat) (this : Histogram.Instance P)
    (type : string) (d3Event : Event.Brush) : Outcome :=
  serve (_moveBrush depth) (Some {| Event.type := type |}) this
    (DensityChart._onResizeBrush (Histogram.render_DensityChart this) d3Event).

(** A gesture of the user arriving at the mounted components. *)
Definition deliver (depth : nat) (this : Histogram.Instance P) (gesture : Gesture)
    : Outcome :=
  let source (native : Native) := Some {| Event.type := dom_type native |} in
  match gesture with
  | zoomed native transform =>
      Some (Histogram._onResizeZoom this
              {| Event.zoom_sourceEvent := source native;
                 Event.transform := transform |})
  | brushed native selection =>
      _onResizeBrush depth this "brush"
        {| Event.brush_sourceEvent := source native;
           Event.selection := Some selection |}
  | brush_ended native selection =>
      _onResizeBrush depth this "end"
        {| Event.brush_sourceEvent := source native;
           Event.selection := selection |}
  end.


End Dispatch.
End Wired.

(** ** The life of a mounted component *)

Module Lifecycle.
Section Run.
Context {P : Type} {calendar : D3.Scaling} {brush : Wired.Brushing}.


(** What reaches a mounted component: new props from the parent, or a
    gesture of the user. *)
Inductive Input : Type :=
| update (nextProps : Histogram.Props P)
| gesture (g : Wired.Gesture).

Definition step (depth : nat) (this : Histogram.Instance P) (input : Input)
    : Wired.Outcome :=
  match input with
  | update nextProps =>
      Some (Histogram.bind (Histogram.receive nextProps this)
              (fun this' => Ok (this', [])))
  | gesture g => Wired.deliver depth this g
  end.

(** The inputs handled one after the other, with all the calls made. *)
Fixpoint run (depth : nat) (this : Histogram.Instance P) (inputs : list Input)
    : Wired.Outcome :=
  match inputs with
  | [] => Some (Ok (this, []))
  | input :: rest =>
      Wired.and_then (step depth this input) (fun this => run depth this rest)
  end.

Definition is_update (input : Input) : bool :=
  match input with
  | update _ => true
  | _ => false
  end.

(** The test of [componentDidUpdate]: the width or the data changed. *)
Definition rebuilds (prevProps nextProps : Histogram.Props P) : bool :=
  negb (eq_num (Histogram.size_width prevProps) (Histogram.size_width nextProps))
  || (negb (Nat.eqb (List.length (Histogram.data prevProps))
                    (List.length (Histogram.data nextProps)))
      || negb (Utils.isHistogramDataEqual (Histogram.xAccessor nextProps)
                 (fun p => VNum (Histogram.yAccessor nextProps p))
                 (Histogram.data prevProps) (Some (Histogram.data nextProps)))).
End Run.

(** A value the component did not make itself: anything but a Date of its
    own making. *)
Definition external (v : value) : bool :=
  match v with
  | VDate d => match ref d with
               | made _ => false
               | given _ => true
               end
  | _ => true
  end.

(** An input the component takes without throwing and whose coordinates
    come from outside: a gesture, or new props with an accepted height,
    external coordinates and a layout that leaves the density chart a
    width other than zero. *)
Definition acceptable {P : Type} (input : Input (P := P)) : bool :=
  match input with
  | update nextProps =>
      negb (lt (Histogram.height nextProps) (of_Z 150))
      && forallb (fun p => external (Histogram.xAccessor nextProps p))
                 (Histogram.data nextProps)
      && negb (eq_num zero
                 (Histogram.dc_width
                    (snd (Histogram._calculateChartsPositionsAndSizing nextProps))))
  | gesture _ => true
  end.

(** The range of the overview scale is not empty: its two ends differ. *)
Definition wide {P : Type} (this : Histogram.Instance P) : bool :=
  negb (eq_num (fst (D3.range (Histogram.densityChartXScale this)))
               (snd (D3.range (Histogram.densityChartXScale this)))).

(** How often the caller is notified on an input: never on an update,
    once on a zoom gesture and while the brush is dragged, twice when the
    brush is let go with a selection, five times when it was cleared. *)
Definition notifications {P : Type} (input : Input (P := P)) : nat :=
  match input with
  | update _ => 0
  | gesture (Wired.zoomed _ _) => 1
  | gesture (Wired.brushed _ _) => 1
  | gesture (Wired.brush_ended _ (Some _)) => 2
  | gesture (Wired.brush_ended _ None) => 5
  end.

(** How often the zoom is transformed on an input. *)
Definition transforms {P : Type} (input : Input (P := P)) : nat :=
  match input with
  | update _ => 0
  | gesture (Wired.zoomed _ _) => 0
  | gesture (Wired.brushed _ _) => 1
  | gesture (Wired.brush_ended _ (Some _)) => 1
  | gesture (Wired.brush_ended _ None) => 3
  end.

(** What a gesture leaves as it was: the props, the overview scale, the
    zoom and the layout of the density chart. *)
Definition same_settings {P : Type} (this this' : Histogram.Instance P) : Prop :=
  Histogram.props this' = Histogram.props this
  /\ Histogram.densityChartXScale this' = Histogram.densityChartXScale this
  /\ Histogram.zoom this' = Histogram.zoom this
  /\ Histogram.densityChartDimensions (Histogram.state this')
     = Histogram.densityChartDimensions (Histogram.state this).

(** The stored window: the brush domain holds two Dates, the [n]-th and
    the next the component made, with the given times. *)
Definition window_of {P : Type} (this : Histogram.Instance P) (n : nat)
    (times : number * number) : Prop :=
  Histogram.brushDomain (Histogram.state this)
  = {| Histogram.min := VDate {| ref := made n; getTime := fst times |};
       Histogram.max := VDate {| ref := made (S n); getTime := snd times |} |}.

(** The flag the caller is given with a window: its times are those of
    the overview scale's domain. *)
Definition is_full (scale : D3.Scale) (times : number * number) : bool :=
  eq_num (fst (D3.domain scale)) (fst times)
  && eq_num (snd (D3.domain scale)) (snd times).

(** Two pairs of times that denote the same numbers. *)
Definition same_times (a b : number * number) : Prop :=
  same (fst a) (fst b) /\ same (snd a) (snd b).

(** [|a|] *)
Definition magnitude (a : number) : number := if lt a zero then neg a else a.

(** A whole number. *)
Definition whole (a : number) : bool :=
  match a with
  | Num q => Pos.eqb (Qden (Qred q)) 1
  | _ => false
  end.

(** Weights on which the sums the code forms are exact: whole numbers
    whose magnitudes add up to 2^53 at most. *)
Definition exact_weights {P : Type} (yAccessor : P -> number) (data : list P) : bool :=
  forallb (fun p => whole (yAccessor p)) data
  && le (Spec.total (fun p => magnitude (yAccessor p)) data) (of_Z (2 ^ 53)).

Definition is_notification (call : Histogram.Call) : bool :=
  match call with
  | Histogram.onIntervalChange _ _ => true
  | _ => false
  end.

Definition is_zoom_transform (call : Histogram.Call) : bool :=
  match call with
  | Histogram.zoom_transform _ _ _ => true
  | _ => false
  end.

(** A value that is not a Date the component made after its [n] first
    ones. *)
Definition older (n : nat) (v : value) : bool :=
  match v with
  | VDate d => match ref d with
               | made m => m <? n
               | given _ => true
               end
  | _ => true
  end.

(** The bounds of the stored brush domain are older than any Date the
    component is still to make. *)
Definition dates_older {P : Type} (this : Histogram.Instance P) : bool :=
  older (Histogram.made_dates this)
        (Histogram.min (Histogram.brushDomain (Histogram.state this)))
  && older (Histogram.made_dates this)
           (Histogram.max (Histogram.brushDomain (Histogram.state this))).

(** A value that can be compared: a number other than NaN, or a Date with
    such a time. *)
Definition comparable (v : value) : bool := vle v v.

(** The sum of the [yValue]s of the bars. *)
Fixpoint bars_total {P : Type} (bars : list (Histogram.Bar P)) : number :=
  match bars with
  | [] => zero
  | bar :: rest => add (Histogram.yValue bar) (bars_total rest)
  end.
End Lifecycle.

(** A scale used as a function: [scale(x)], the pixel of a coordinate.
    Like the other computations of the scales it is kept abstract. *)
Module Pixels.
Class Mapping : Type := { apply : D3.Scale -> number -> number }.
End Pixels.

(** ** Histogram.js: what is drawn *)

Module HistogramView.

(** Magical value so that the tooltip is positioned correctly vertically *)
Definition BAR_TOOLTIP_ARROW_HEIGHT : number := of_Z 25.

(** The box [getBoundingClientRect] returns, which is also the shape of
    [selectedBarPosition]. *)
Record Box : Type := {
  top : number;
  right : number;
  bottom : number;
  left : number;
  box_width : number;
  box_height : number
}.

(** A rendered [rect].  [key] is the time in [histogram-bin-<time>];
    [dataindex] is kept as the index itself, its passage through the DOM as
    text is left out; [onMouseEnter] and [onMouseLeave] tell whether the
    handler is attached. *)
Record Rect : Type := {
  key : number;
  dataindex : nat;
  x : number;
  y : number;
  width : number;
  height : number;
  onMouseEnter : bool;
  onMouseLeave : bool
}.

(** A mouse event on a rect, as the handler reads it: the attribute of
    the target and its bounding box. *)
Record MouseEvent : Type := {
  target_dataindex : nat;
  target_box : Box
}.

Section View.
Context {P E : Type} {mapping : Pixels.Mapping}.

(** The props the drawing reads beside those of [Histogram.Props]:
    [barOptions.margin] and [tooltipBarCustomization], absent when it is
    not a function.  [E] is the type of the elements it returns. *)
Record Display : Type := {
  margin : number;
  tooltipBarCustomization : option (option (Histogram.Bar P) -> E)
}.

(** The hover part of the state, set by [_onMouseEnterHistogramBar];
    [currentBar] is [undefined] when the index is past the bars. *)
Record Hover : Type := {
  currentBar : option (Histogram.Bar P);
  selectedBarPosition : Box
}.

(** The rendered tooltip: its fixed position and its content. *)
Record Tooltip : Type := {
  tooltip_left : number;
  tooltip_top : number;
  tooltipElement : E
}.

(** The body of the [map] callback of [_renderHistogramBars]. *)
Definition render_bar (xScale yScale : D3.Scale) (heightForBars : number)
    (display : Display) (bar : Histogram.Bar P) (index : nat) : option Rect :=
  let barWidth :=
    sub (sub (Pixels.apply xScale (Histogram.x1 bar))
             (Pixels.apply xScale (Histogram.x0 bar)))
        (margin display) in
  let barHeight := sub heightForBars (Pixels.apply yScale (Histogram.yValue bar)) in
  if le barWidth zero then None
  else
    let barX := add (Pixels.apply xScale (Histogram.x0 bar))
                    (div (margin display) (of_Z 2)) in
    let barY := Pixels.apply yScale (Histogram.yValue bar) in
    let attached := match tooltipBarCustomization display with
                    | Some _ => true
                    | None => false
                    end in
    Some {| key := Histogram.x0 bar;
            dataindex := index;
            x := barX;
            y := barY;
            width := barWidth;
            height := barHeight;
            onMouseEnter := attached;
            onMouseLeave := attached |}.

(** [bars.map((bar, index) => ...)] from index [index] on. *)
Fixpoint render_from (xScale yScale : D3.Scale) (heightForBars : number)
    (display : Display) (index : nat) (bars : list (Histogram.Bar P))
    : list (option Rect) :=
  match bars with
  | [] => []
  | bar :: rest =>
      render_bar xScale yScale heightForBars display bar index
      :: render_from xScale yScale heightForBars display (S index) rest
  end.

(** [_renderHistogramBars].  With no bars the callback never runs; with
    bars, calling a scale that was never set is a TypeError. *)
Definition _renderHistogramBars (this : Histogram.Instance P) (display : Display)
    (timeHistogramBars : list (Histogram.Bar P)) : result (list (option Rect)) :=
  match timeHistogramBars with
  | [] => Ok []
  | _ =>
      match Histogram.histogramChartXScale this, Histogram.histogramChartYScale this with
      | Some xScale, Some yScale =>
          Ok (render_from xScale yScale
                (Histogram.heightForBars
                   (Histogram.histogramChartDimensions (Histogram.state this)))
                display 0 timeHistogramBars)
      | _, _ => Throw TypeError
      end
  end.

(** [this.setState({ showHistogramBarTooltip: ... })] *)
Definition show_tooltip (shown : bool) (this : Histogram.Instance P) : Histogram.Instance P :=
  Histogram.setState
    (fun st =>
       {| Histogram.timeHistogramBars := Histogram.timeHistogramBars st;
          Histogram.showHistogramBarTooltip := shown;
          Histogram.histogramChartDimensions := Histogram.histogramChartDimensions st;
          Histogram.densityChartDimensions := Histogram.densityChartDimensions st;
          Histogram.state_data := Histogram.state_data st;
          Histogram.brushDomain := Histogram.brushDomain st |})
    this.

(** [_onMouseEnterHistogramBar] *)
Definition _onMouseEnterHistogramBar (this : Histogram.Instance P) (evt : MouseEvent)
    : Histogram.Instance P * Hover :=
  let index := target_dataindex evt in
  let bar := nth_error (Histogram.timeHistogramBars (Histogram.state this)) index in
  let barBoundingBox := target_box evt in
  let selectedBarPosition :=
    {| top := top barBoundingBox;
       right := right barBoundingBox;
       bottom := bottom barBoundingBox;
       left := left barBoundingBox;
       box_width := box_width barBoundingBox;
       box_height := box_height barBoundingBox |} in
  (show_tooltip true this,
   {| currentBar := bar; selectedBarPosition := selectedBarPosition |}).

(** [_onMouseLeaveHistogramBar] *)
Definition _onMouseLeaveHistogramBar (this : Histogram.Instance P) : Histogram.Instance P :=
  show_tooltip false this.

(** [_renderBarTooltip] *)
Definition _renderBarTooltip (display : Display) (hover : Hover) : option Tooltip :=
  match tooltipBarCustomization display with
  | None => None
  | Some customization =>
      Some {| tooltip_left := add (left (selectedBarPosition hover))
                                  (div (box_width (selectedBarPosition hover)) (of_Z 2));
              tooltip_top := sub (top (selectedBarPosition hover)) BAR_TOOLTIP_ARROW_HEIGHT;
              tooltipElement := customization (currentBar hover) |}
  end.

(** What [render] shows of the histogram: the tooltip, when one is to be
    shown, and the bars. *)
Definition render (this : Histogram.Instance P) (display : Display) (hover : Hover)
    : result (option Tooltip * list (option Rect)) :=
  let tooltip :=
    if Histogram.showHistogramBarTooltip (Histogram.state this)
    then _renderBarTooltip display hover
    else None in
  Histogram.bind
    (_renderHistogramBars this display
       (Histogram.timeHistogramBars (Histogram.state this)))
    (fun bars => Ok (tooltip, bars)).
End View.

Arguments Display : clear implicits.
Arguments Hover : clear implicits.
Arguments Tooltip : clear implicits.
End HistogramView.

(** ** DensityChart.js: what is drawn *)

Module DensityChartView.

(** The calls on the canvas; [clearCanvas] and [drawRect] are those of
    utils.js, recorded with their arguments. *)
Inductive Draw : Type :=
| clearCanvas (width height : number)
| drawRect (x y width height : number) (fillStyle : string).

(** Where [render] puts the canvas: the [left] and [top] of its style. *)
Record Canvas : Type := {
  canvas_left : number;
  canvas_top : number;
  canvas_width : number;
  canvas_height : number
}.

Section View.
Context {P : Type} {mapping : Pixels.Mapping}.

(** The props the drawing reads beside those of [DensityChart.Props]. *)
Record Rest : Type := {
  data : list P;
  xAccessor : P -> value;
  padding : number;
  spaceBetweenCharts : number;
  brushDensityChartColor : string;
  brushDensityChartFadedColor : string
}.

(** [x >= brushDomainMin && x < brushDomainMax] *)
Definition isInsideOfBrushDomain (props : DensityChart.Props) (x : value) : bool :=
  vge x (DensityChart.brushDomainMin props) && vlt x (DensityChart.brushDomainMax props).

(** [_renderDensityChart]: the canvas is cleared, then every point gets
    its mark. *)
Definition _renderDensityChart (props : DensityChart.Props) (rest : Rest) : list Draw :=
  clearCanvas (DensityChart.width props) (DensityChart.height props)
  :: map (fun p =>
            let x := xAccessor rest p in
            drawRect
              (Pixels.apply (DensityChart.densityChartXScale props) (to_number x))
              zero
              (of_Z 2)
              (DensityChart.height props)
              (if isInsideOfBrushDomain props x
               then brushDensityChartColor rest
               else brushDensityChartFadedColor rest))
         (data rest).

(** The canvas of [render]: pushed right by twice the padding when there
    is no play button. *)
Definition render_canvas (props : DensityChart.Props) (rest : Rest) : Canvas :=
  let leftPadding :=
    if negb (DensityChart.renderPlayButton props)
    then mul (padding rest) (of_Z 2)
    else zero in
  {| canvas_left := leftPadding;
     canvas_top := spaceBetweenCharts rest;
     canvas_width := DensityChart.width props;
     canvas_height := DensityChart.height props |}.
End View.

Arguments Rest : clear implicits.
End DensityChartView.

(** The rest of the density chart's props, as the histogram's [render]
    passes them. *)
Definition render_DensityChart_rest {P : Type} (this : Histogram.Instance P)
    (brushDensityChartColor brushDensityChartFadedColor : string)
    : DensityChartView.Rest P :=
  {| DensityChartView.data := Histogram.data (Histogram.props this);
     DensityChartView.xAccessor := Histogram.xAccessor (Histogram.props this);
     DensityChartView.padding := Histogram.PADDING;
     DensityChartView.spaceBetweenCharts :=
       Histogram.spaceBetweenCharts (Histogram.props this);
     DensityChartView.brushDensityChartColor := brushDensityChartColor;
     DensityChartView.brushDensityChartFadedColor := brushDensityChartFadedColor |}.

(** ** More of the concrete setting: linear pixels and a few inputs *)

Module Scene.

(** A linear scale applied to a coordinate. *)
Definition linear (s : D3.Scale) (v : number) : number :=
  let (d0, d1) := D3.domain s in
  let (r0, r1) := D3.range s in
  add r0 (mul (sub r1 r0) (div (sub v d0) (sub d1 d0))).

#[export] Instance pixels : Pixels.Mapping := {| Pixels.apply := linear |}.

(** [this0] after the histogram's [componentDidMount]: with its bars and
    the two scales of the histogram. *)
Definition mounted : Histogram.Instance Sample.Point :=
  match Histogram.componentDidMount (calendar := Sample.calendar) Sample.this0 with
  | Ok this => this
  | Throw _ => Sample.this0
  end.

Definition display : HistogramView.Display Sample.Point string :=
  {| HistogramView.margin := of_Z 1;
     HistogramView.tooltipBarCustomization := Some (fun _ => "tooltip"%string) |}.

Definition box : HistogramView.Box :=
  {| HistogramView.top := of_Z 100;
     HistogramView.right := of_Z 60;
     HistogramView.bottom := of_Z 150;
     HistogramView.left := of_Z 40;
     HistogramView.box_width := of_Z 20;
     HistogramView.box_height := of_Z 50 |}.

Definition double : D3.Transform := {| D3.k := of_Z 2; D3.x := zero; D3.y := zero |}.

(** A brush that turns an empty selection into none, as the early
    versions of d3-brush do. *)
#[export] Instance brushing : Wired.Brushing :=
  {| Wired.moved_selection := fun selection =>
       if eq_num (fst selection) (snd selection) then None else Some selection;
     Wired.moved_selection_wide :=
       fun (selection : number * number)
           (wide : eq_num (fst selection) (snd selection) = false) =>
         @eq_ind_r bool false
           (fun empty : bool => (if empty then None else Some selection) = Some selection)
           eq_refl (eq_num (fst selection) (snd selection)) wide |}.

(** The right half of the overview of [this0], in pixels. *)
Definition right_half : number * number := (of_Z 220, of_Z 440).

(** [this0] zoomed into the left half of its domain. *)
Definition zoomed_in : Histogram.Instance Sample.Point :=
  Sample.after Sample.this0
    (Histogram._onResizeZoom (calendar := Sample.calendar) Sample.this0
       (Sample.zoom_event (Some "wheel"%string) double)).

(** The props of [this0] at another width. *)
Definition resized : Histogram.Props Sample.Point :=
  {| Histogram.data := Sample.data0;
     Histogram.size_width := of_Z 600;
     Histogram.height := of_Z 150;
     Histogram.defaultBarCount := of_Z 18;
     Histogram.xAccessor := fun p => VNum (of_Z (fst p));
     Histogram.yAccessor := fun p => of_Z (snd p);
     Histogram.spaceBetweenCharts := of_Z 10;
     Histogram.minZoomUnit := of_Z 1000;
     Histogram.renderPlayButton := true |}.

(** A zoom, a drag of the brush, letting go of it, and clearing it. *)
Definition gestures : list (Lifecycle.Input (P := Sample.Point)) :=
  [Lifecycle.gesture (Wired.zoomed Wired.wheel double);
   Lifecycle.gesture (Wired.brushed Wired.mousemove right_half);
   Lifecycle.gesture (Wired.brush_ended Wired.mouseup (Some right_half));
   Lifecycle.gesture (Wired.brush_ended Wired.mouseup None)].

(** Two updates: data that moves the domain, then no data at all. *)
Definition updates : list (Lifecycle.Input (P := Sample.Point)) :=
  [Lifecycle.update (Sample.props [(5, 1); (20, 1)]%Z 150);
   Lifecycle.update (Sample.props [] 150)].

(** [this0] after these two updates. *)
Definition updated : Histogram.Instance Sample.Point :=
  match Lifecycle.run (calendar := Sample.calendar) (brush := brushing) 0
          Sample.this0 updates with
  | Some (Ok (this, _)) => this
  | _ => Sample.this0
  end.

End Scene.

(** * Properties *)

(** ** Numbers *)

Lemma le_lt_false (a b : number) : le a b = true -> lt b a = false.
Proof.
  destruct a as [| |p|], b as [| |q|]; cbn; try congruence.
  rewrite <- (Qcompare_antisym p q).
  destruct (p ?= q)%Q; cbn; congruence.
Qed.

Lemma lt_le (a b : number) : lt a b = true -> le a b = true.
Proof.
  destruct a as [| |p|], b as [| |q|]; cbn; try congruence.
  destruct (p ?= q)%Q; congruence.
Qed.

Lemma le_trans (a b c : number) : le a b = true -> le b c = true -> le a c = true.
Proof.
  destruct a as [| |p|], b as [| |q|], c as [| |r|]; cbn; try congruence.
  destruct (Qcompare_spec p q), (Qcompare_spec q r), (Qcompare_spec p r);
    try congruence; intros _ _; exfalso; lra.
Qed.

Lemma le_refl_comparable (a b : number) : le a b = true -> le a a = true.
Proof.
  destruct a as [| |p|], b; cbn; try congruence;
    intros _; destruct (Qcompare_spec p p); try reflexivity; exfalso; lra.
Qed.

Lemma le_refl_comparable_r (a b : number) : le a b = true -> le b b = true.
Proof.
  destruct a as [| |p|], b as [| |q|]; cbn; try congruence;
    intros _; destruct (Qcompare_spec q q); try reflexivity; exfalso; lra.
Qed.

Lemma add_same_assoc (a b c : number) : same (add (add a b) c) (add a (add b c)).
Proof.
  destruct a as [| |p|], b as [| |q|], c as [| |r|]; cbn; try exact I.
  ring.
Qed.

Lemma same_refl (a : number) : same a a.
Proof. destruct a; cbn; try exact I. reflexivity. Qed.

Lemma same_sym (a b : number) : same a b -> same b a.
Proof. destruct a, b; cbn; try tauto. intros H. symmetry. exact H. Qed.

Lemma same_trans (a b c : number) : same a b -> same b c -> same a c.
Proof.
  destruct a, b, c; cbn; try tauto. intros H1 H2. rewrite H1. exact H2.
Qed.

Lemma add_same_compat (a b c d : number) :
  same a b -> same c d -> same (add a c) (add b d).
Proof.
  destruct a, b; cbn; try tauto; destruct c, d; cbn; try tauto.
  intros H1 H2. rewrite H1, H2. reflexivity.
Qed.

Lemma add_zero_l (a : number) : same (add zero a) a.
Proof. destruct a; cbn; try exact I. ring. Qed.

Lemma add_zero_r (a : number) : same (add a zero) a.
Proof. destruct a; cbn; try exact I. ring. Qed.

Lemma same_reference_refl (r : reference) : same_reference r r = true.
Proof. destruct r; cbn; apply Nat.eqb_refl. Qed.

Lemma strict_neq_same_date (d : Date) : strict_neq (VDate d) (VDate d) = false.
Proof. unfold strict_neq. cbn. rewrite same_reference_refl. reflexivity. Qed.

(** ** The extent functions *)

Section ExtentFacts.
Variables (P : Type) (valueof : P -> value).

Lemma min_rest_below (values : list P) : forall seed,
  vle seed seed = true -> vle (D3.min_rest valueof seed values) seed = true.
Proof.
  induction values as [|p rest IH]; intros seed Hseed; cbn.
  - exact Hseed.
  - destruct (not_null (valueof p) && vgt seed (valueof p)) eqn:E.
    + apply andb_true_iff in E as [_ E]. apply lt_le in E.
      apply le_trans with (b := to_number (valueof p)); [|exact E].
      apply IH. exact (le_refl_comparable _ _ E).
    + apply IH. exact Hseed.
Qed.

Lemma max_rest_above (values : list P) : forall seed,
  vle seed seed = true -> vle seed (D3.max_rest valueof seed values) = true.
Proof.
  induction values as [|p rest IH]; intros seed Hseed; cbn.
  - exact Hseed.
  - destruct (not_null (valueof p) && vgt (valueof p) seed) eqn:E.
    + apply andb_true_iff in E as [_ E]. apply lt_le in E.
      apply le_trans with (b := to_number (valueof p)); [exact E|].
      apply IH. exact (le_refl_comparable_r _ _ E).
    + apply IH. exact Hseed.
Qed.

(** Either the data has no comparable coordinate, and both ends of the
    extent are NaN as numbers, or the least is below the greatest. *)
Lemma extent_ordered (values : list P) :
  (to_number (D3.min values valueof) = NaN /\ to_number (D3.max values valueof) = NaN)
  \/ vle (D3.min values valueof) (D3.max values valueof) = true.
Proof.
  induction values as [|p rest IH]; cbn.
  - left. split; reflexivity.
  - destruct (not_null (valueof p) && vge (valueof p) (valueof p)) eqn:E.
    + right. apply andb_true_iff in E as [_ E].
      apply le_trans with (b := to_number (valueof p)).
      * apply min_rest_below. exact E.
      * apply max_rest_above. exact E.
    + exact IH.
Qed.
End ExtentFacts.

(** ** The histogram generator *)

Lemma bisect_bounds (a : list number) (x : number) (lo hi : nat) :
  lo <= hi -> lo <= D3.bisect a x lo hi <= hi.
Proof.
  funelim (D3.bisect a x lo hi); intros Hle.
  - lia.
  - pose proof (Nat.div2_odd (lo + hi)) as E.
    destruct (Nat.odd (lo + hi)); cbn [Nat.b2n] in E;
      destruct (gt (nth (Nat.div2 (lo + hi)) a NaN) x);
      match goal with
      | IH : _ -> _ <= D3.bisect a x lo _ <= _ |- _ <= D3.bisect a x lo _ <= _ =>
          assert (lo <= Nat.div2 (lo + hi)) as Hm by lia; specialize (IH Hm); lia
      | IH : _ -> _ <= D3.bisect a x (S _) hi <= _ |- _ <= D3.bisect a x (S _) hi <= _ =>
          assert (S (Nat.div2 (lo + hi)) <= hi) as Hm by lia; specialize (IH Hm); lia
      end.
Qed.

Section HistogramFacts.
Variables (P : Type) (valueof : P -> value).

Lemma push_at_inside (p : P) (bins : list (D3.Bin P)) : forall i,
  i < List.length bins ->
  exists bins',
    D3.push_at i p bins = Some bins'
    /\ List.length bins' = List.length bins
    /\ D3.bounds bins' = D3.bounds bins
    /\ Permutation (D3.contents bins') (p :: D3.contents bins).
Proof.
  induction bins as [|b rest IH]; intros i Hi; cbn in Hi; [lia|].
  destruct i as [|j]; cbn.
  - eexists. split; [reflexivity|]. repeat split.
    unfold D3.contents; cbn. rewrite <- app_assoc.
    apply Permutation_sym, Permutation_cons_app, Permutation_refl.
  - destruct (IH j) as [rest' [E [Hlen [Hb Hp]]]]; [lia|].
    rewrite E. eexists. split; [reflexivity|]. repeat split.
    + cbn. congruence.
    + unfold D3.bounds in *. cbn. congruence.
    + unfold D3.contents in *; cbn.
      apply Permutation_trans with (l' := D3.points b ++ p :: List.concat (map (@D3.points P) rest)).
      * apply Permutation_app_head. exact Hp.
      * apply Permutation_sym, Permutation_middle.
Qed.

Lemma init_bins_length (tz : list number) : forall lo hi,
  List.length (D3.init_bins P lo tz hi) = S (List.length tz).
Proof. induction tz as [|t rest IH]; intros; cbn; [|rewrite IH]; reflexivity. Qed.

Lemma init_bins_empty (tz : list number) : forall lo hi,
  D3.contents (D3.init_bins P lo tz hi) = [].
Proof.
  induction tz as [|t rest IH]; intros; [reflexivity|].
  unfold D3.contents in *; cbn. apply IH.
Qed.

(** The assignment loop never pushes past the last bin, and leaves every
    point of the domain in the bins, once. *)
Lemma assign_total (lo hi : number) (tz : list number) (data : list P) :
  forall bins,
    List.length bins = S (List.length tz) ->
    exists bins',
      D3.assign valueof lo hi tz data bins = Ok bins'
      /\ List.length bins' = List.length bins
      /\ D3.bounds bins' = D3.bounds bins
      /\ Permutation (D3.contents bins')
                     (D3.contents bins ++ filter (Spec.within valueof lo hi) data).
Proof.
  induction data as [|p rest IH]; intros bins Hlen; cbn.
  - exists bins. repeat split. rewrite app_nil_r. apply Permutation_refl.
  - unfold Spec.within at 1.
    destruct (le lo (to_number (valueof p)) && le (to_number (valueof p)) hi).
    + destruct (push_at_inside p bins
                  (i := D3.bisect tz (to_number (valueof p)) 0 (List.length tz)))
        as [bins1 [E [Hlen1 [Hb1 Hp1]]]].
      { pose proof (bisect_bounds tz (to_number (valueof p)) (lo := 0)
                      (hi := List.length tz)). lia. }
      rewrite E.
      destruct (IH bins1) as [bins2 [E2 [Hlen2 [Hb2 Hp2]]]]; [congruence|].
      exists bins2. repeat split; try congruence.
      apply Permutation_trans with (1 := Hp2).
      apply Permutation_trans
        with (l' := (p :: D3.contents bins) ++ filter (Spec.within valueof lo hi) rest).
      * apply Permutation_app_tail. exact Hp1.
      * cbn. apply Permutation_middle.
    + apply IH. exact Hlen.
Qed.

(** The generator returns, and its bins hold the points of the domain,
    each once. *)
Lemma histogram_partition (domain : number * number) (thresholds : list number)
    (data : list P) :
  exists bins,
    D3.histogram valueof domain thresholds data = Ok bins
    /\ D3.bounds bins
       = D3.bounds (D3.init_bins P (fst domain)
                   (D3.trim (fst domain) (snd domain) thresholds) (snd domain))
    /\ Permutation (D3.contents bins)
                   (filter (Spec.within valueof (fst domain) (snd domain)) data).
Proof.
  destruct domain as [lo hi]. unfold D3.histogram. cbn [fst snd].
  destruct (assign_total lo hi (D3.trim lo hi thresholds) data
              (D3.init_bins P lo (D3.trim lo hi thresholds) hi))
    as [bins [E [_ [Hb Hp]]]].
  - apply init_bins_length.
  - exists bins. repeat split; try assumption.
    rewrite init_bins_empty in Hp. exact Hp.
Qed.
End HistogramFacts.

Lemma init_bins_contiguous (P : Type) (tz : list number) : forall lo hi,
  Spec.contiguous lo (D3.bounds (D3.init_bins P lo tz hi)) hi.
Proof.
  induction tz as [|t rest IH]; intros lo hi; cbn.
  - split; reflexivity.
  - split; [reflexivity|]. apply IH.
Qed.

(** *** Placement: with ascending thresholds every point lands in the bin
    whose interval contains it *)

Lemma lt_le_trans (a b c : number) : lt a b = true -> le b c = true -> lt a c = true.
Proof.
  destruct a as [| |p|], b as [| |q|], c as [| |r|]; cbn; try congruence.
  destruct (Qcompare_spec p q), (Qcompare_spec q r), (Qcompare_spec p r);
    try congruence; intros _ _; exfalso; lra.
Qed.

Lemma le_total (a b : number) :
  le a a = true -> le b b = true -> lt b a = false -> le a b = true.
Proof.
  destruct a as [| |p|], b as [| |q|]; cbn; try congruence.
  intros _ _. rewrite <- (Qcompare_antisym p q).
  destruct (p ?= q)%Q; cbn; congruence.
Qed.

Lemma ascending_app (a b : list number) :
  Spec.ascending (a ++ b) = true -> Spec.ascending a = true /\ Spec.ascending b = true.
Proof.
  induction a as [|t a IH]; cbn; [tauto|].
  intros H. apply andb_true_iff in H as [H Hrest].
  apply andb_true_iff in H as [Ht Hall].
  rewrite forallb_app in Hall. apply andb_true_iff in Hall as [Ha _].
  destruct (IH Hrest) as [IHa IHb]. rewrite Ht, Ha, IHa. tauto.
Qed.

Lemma ascending_rev_rev (a b : list number) :
  Spec.ascending (rev (a ++ b)) = true -> Spec.ascending (rev b) = true.
Proof. rewrite rev_app_distr. intros H. apply ascending_app in H. tauto. Qed.

Lemma drop_while_suffix (f : number -> bool) (l : list number) :
  exists dropped, l = dropped ++ D3.drop_while f l.
Proof.
  induction l as [|t l [dropped IH]]; cbn.
  - exists []. reflexivity.
  - destruct (f t).
    + exists (t :: dropped). cbn. congruence.
    + exists []. reflexivity.
Qed.

Lemma trim_ascending (lo hi : number) (thresholds : list number) :
  Spec.ascending thresholds = true -> Spec.ascending (D3.trim lo hi thresholds) = true.
Proof.
  intros H. unfold D3.trim.
  destruct (drop_while_suffix (fun t => le t lo) thresholds) as [front Hfront].
  rewrite Hfront in H. apply ascending_app in H as [_ H].
  destruct (drop_while_suffix (fun t => gt t hi)
              (rev (D3.drop_while (fun t => le t lo) thresholds))) as [back Hback].
  rewrite <- (rev_involutive (D3.drop_while (fun t => le t lo) thresholds)) in H.
  rewrite Hback in H. exact (ascending_rev_rev _ _ H).
Qed.

Lemma ascending_nth (l : list number) : forall j k,
  Spec.ascending l = true -> j <= k < List.length l ->
  le (nth j l NaN) (nth k l NaN) = true.
Proof.
  induction l as [|t l IH]; intros j k H Hjk; cbn in Hjk; [lia|].
  cbn in H. apply andb_true_iff in H as [H Hrest].
  apply andb_true_iff in H as [Ht Hall].
  destruct j as [|j], k as [|k]; cbn; try lia.
  - exact Ht.
  - rewrite forallb_forall in Hall. apply Hall. apply nth_In. lia.
  - apply IH; [exact Hrest | lia].
Qed.

(** What the bisection returns over ascending thresholds: the thresholds
    before it are not above [x], those from it on are. *)
Lemma bisect_splits (a : list number) (x : number) (lo hi : nat) :
  Spec.ascending a = true ->
  lo <= hi <= List.length a ->
  (forall j, j < lo -> gt (nth j a NaN) x = false) ->
  (forall j, hi <= j < List.length a -> gt (nth j a NaN) x = true) ->
  (forall j, j < D3.bisect a x lo hi -> gt (nth j a NaN) x = false)
  /\ (forall j, D3.bisect a x lo hi <= j < List.length a -> gt (nth j a NaN) x = true).
Proof.
  funelim (D3.bisect a x lo hi); intros Hasc Hle Hbelow Habove.
  - split; [exact Hbelow|]. intros j Hj. apply Habove. lia.
  - pose proof (Nat.div2_odd (lo + hi)) as E.
    assert (lo <= Nat.div2 (lo + hi) < hi) as Hmid
      by (destruct (Nat.odd (lo + hi)); cbn [Nat.b2n] in E; lia).
    clear E. cbv zeta.
    destruct (gt (nth (Nat.div2 (lo + hi)) a NaN) x) eqn:G.
    + match goal with
      | IH : _ -> _ -> _ -> _ -> _ /\ (forall j, D3.bisect a x lo _ <= j < _ -> _) |- _ =>
          apply IH; try assumption; [lia|]
      end.
      intros j Hj. unfold gt in *.
      apply lt_le_trans with (b := nth (Nat.div2 (lo + hi)) a NaN); [exact G|].
      apply ascending_nth; [exact Hasc | lia].
    + match goal with
      | IH : _ -> _ -> _ -> _ -> _ /\ (forall j, D3.bisect a x (S _) hi <= j < _ -> _) |- _ =>
          apply IH; try assumption; [lia|]
      end.
      intros j Hj. unfold gt in *.
      destruct (lt x (nth j a NaN)) eqn:L; [|reflexivity].
      rewrite <- G. symmetry.
      apply lt_le_trans with (b := nth j a NaN); [exact L|].
      apply ascending_nth; [exact Hasc | lia].
Qed.

Lemma init_bins_interval (P : Type) (tz : list number) : forall lo hi i a b,
  nth_error (D3.bounds (D3.init_bins P lo tz hi)) i = Some (a, b) ->
  a = nth i (lo :: tz) NaN /\ b = nth i (tz ++ [hi]) NaN.
Proof.
  induction tz as [|t rest IH]; intros lo hi i a b H.
  - destruct i as [|[|i]]; cbn in H; try discriminate.
    injection H as <- <-. split; reflexivity.
  - destruct i as [|i]; cbn in H.
    + injection H as <- <-. split; reflexivity.
    + apply IH in H. exact H.
Qed.

Section PlacementFacts.
Variables (P : Type) (valueof : P -> value).

Lemma push_at_placed (p : P) (bins : list (D3.Bin P)) : forall i bins',
  D3.push_at i p bins = Some bins' ->
  Spec.placed valueof bins ->
  (forall a b, nth_error (D3.bounds bins) i = Some (a, b) ->
               Spec.within valueof a b p = true) ->
  Spec.placed valueof bins'.
Proof.
  induction bins as [|bin rest IH]; intros i bins' E Hplaced Hp;
    [destruct i; discriminate|].
  inversion Hplaced as [|? ? Hbin Hrest]; subst.
  destruct i as [|j]; cbn in E.
  - injection E as <-. constructor; [|exact Hrest]. cbn.
    rewrite forallb_app, Hbin. cbn. rewrite (Hp _ _ eq_refl). reflexivity.
  - destruct (D3.push_at j p rest) as [rest'|] eqn:E'; [|discriminate].
    injection E as <-. constructor; [exact Hbin|].
    apply (IH j); assumption.
Qed.

Lemma assign_placed (lo hi : number) (tz : list number) (data : list P) :
  Spec.ascending tz = true ->
  forall bins bins',
    D3.assign valueof lo hi tz data bins = Ok bins' ->
    D3.bounds bins = D3.bounds (D3.init_bins P lo tz hi) ->
    List.length bins = S (List.length tz) ->
    Spec.placed valueof bins ->
    Spec.placed valueof bins'.
Proof.
  intros Hasc. induction data as [|p rest IH]; intros bins bins' E Hb Hlen Hplaced; cbn in E.
  - injection E as <-. exact Hplaced.
  - destruct (le lo (to_number (valueof p)) && le (to_number (valueof p)) hi) eqn:In;
      [|exact (IH _ _ E Hb Hlen Hplaced)].
    apply andb_true_iff in In as [Hlo Hhi].
    set (v := to_number (valueof p)) in *.
    set (i := D3.bisect tz v 0 (List.length tz)) in *.
    destruct (push_at_inside p bins (i := i)) as [bins1 [E1 [Hlen1 [Hb1 _]]]].
    { pose proof (bisect_bounds tz v (lo := 0) (hi := List.length tz)). lia. }
    rewrite E1 in E.
    apply (IH _ _ E); try congruence.
    eapply push_at_placed; [exact E1 | exact Hplaced |].
    intros a b Hnth. rewrite Hb in Hnth. apply init_bins_interval in Hnth as [-> ->].
    destruct (bisect_splits tz v (lo := 0) (hi := List.length tz) Hasc) as [Hbelow Habove];
      [lia | intros j Hj; lia | intros j Hj; lia |].
    fold i in Hbelow, Habove.
    pose proof (bisect_bounds tz v (lo := 0) (hi := List.length tz)) as Hi. fold i in Hi.
    unfold Spec.within. fold v. apply andb_true_iff. split.
    + destruct i as [|j] eqn:Ei; cbn; [exact Hlo|].
      apply le_total.
      * apply (ascending_nth tz (j := j) (k := j) Hasc). lia.
      * exact (le_refl_comparable_r _ _ Hlo).
      * apply Hbelow. lia.
    + destruct (Nat.eq_dec i (List.length tz)) as [Elast|Hin].
      * rewrite Elast, nth_middle. exact Hhi.
      * rewrite app_nth1 by lia. apply lt_le. apply Habove. lia.
Qed.

Lemma init_bins_placed (tz : list number) : forall lo hi,
  Spec.placed valueof (D3.init_bins P lo tz hi).
Proof.
  induction tz as [|t rest IH]; intros lo hi; cbn.
  - constructor; [reflexivity|constructor].
  - constructor; [reflexivity|apply IH].
Qed.

(** Over ascending thresholds the generator puts every point in a bin
    whose interval contains it. *)
Lemma histogram_placed (domain : number * number) (thresholds : list number)
    (data : list P) (bins : list (D3.Bin P)) :
  Spec.ascending thresholds = true ->
  D3.histogram valueof domain thresholds data = Ok bins ->
  Spec.placed valueof bins.
Proof.
  destruct domain as [lo hi]. unfold D3.histogram. intros Hasc E.
  eapply assign_placed; [apply trim_ascending; exact Hasc | exact E | | |].
  - reflexivity.
  - apply init_bins_length.
  - apply init_bins_placed.
Qed.
End PlacementFacts.

(** ** The bars *)

Section BarFacts.
Context {P : Type} {calendar : D3.Scaling}.

Lemma reduce_is_total (yAccessor : P -> number) (points : list P) : forall sum,
  same (fold_left (fun sum curr => add sum (yAccessor curr)) points sum)
       (add sum (Spec.total yAccessor points)).
Proof.
  induction points as [|p rest IH]; intros sum; cbn.
  - apply same_sym, add_zero_r.
  - eapply same_trans; [apply IH|]. apply add_same_assoc.
Qed.

(** Recomputing the bars never throws, touches nothing but the bars and
    the two histogram scales, and yields bars that sum their points and
    share out the points of the rounded domain. *)
Lemma update_scales_total (this : Histogram.Instance P) :
  exists this',
    Histogram._updateHistogramChartScales this = Ok this'
    /\ Histogram.props this' = Histogram.props this
    /\ Histogram.brushDomain (Histogram.state this')
       = Histogram.brushDomain (Histogram.state this)
    /\ Histogram.showHistogramBarTooltip (Histogram.state this')
       = Histogram.showHistogramBarTooltip (Histogram.state this)
    /\ Histogram.densityChartXScale this' = Histogram.densityChartXScale this
    /\ Histogram.zoom this' = Histogram.zoom this
    /\ Histogram.made_dates this' = Histogram.made_dates this
    /\ Forall (fun bar =>
                 same (Histogram.yValue bar)
                      (Spec.total (Histogram.yAccessor (Histogram.props this))
                                  (Histogram.points bar)))
              (Histogram.timeHistogramBars (Histogram.state this'))
    /\ Spec.contiguous (fst (Spec.niced this))
         (Spec.intervals (Histogram.timeHistogramBars (Histogram.state this')))
         (snd (Spec.niced this))
    /\ Permutation
         (Spec.counted (Histogram.timeHistogramBars (Histogram.state this')))
         (filter (Spec.within (Histogram.xAccessor (Histogram.props this))
                              (fst (Spec.niced this)) (snd (Spec.niced this)))
                 (Histogram.data (Histogram.props this))).
Proof.
  unfold Histogram._updateHistogramChartScales. fold (Spec.niced this).
  destruct (histogram_partition (Histogram.xAccessor (Histogram.props this))
              (Spec.niced this)
              (D3.ticks (Spec.niced this) (Histogram.defaultBarCount (Histogram.props this)))
              (Histogram.data (Histogram.props this)))
    as [bins [E [Hb Hp]]].
  rewrite E. cbn [Histogram.bind].
  eexists. split; [reflexivity|]. cbn.
  repeat (split; [reflexivity|]).
  split; [|split].
  - apply Forall_forall. intros bar Hin.
    apply in_map_iff in Hin as [bin [<- _]]. cbn.
    eapply same_trans; [apply reduce_is_total|]. apply add_zero_l.
  - unfold Spec.intervals. rewrite map_map. cbn.
    change (map (fun b => (D3.x0 b, D3.x1 b)) bins) with (D3.bounds bins).
    rewrite Hb. apply init_bins_contiguous.
  - unfold Spec.counted. rewrite map_map. cbn. exact Hp.
Qed.
(** Over ascending ticks every bar holds points of its own interval. *)
Lemma update_scales_placed (this this' : Histogram.Instance P) :
  Histogram._updateHistogramChartScales this = Ok this' ->
  Spec.ascending (D3.ticks (Spec.niced this)
                    (Histogram.defaultBarCount (Histogram.props this))) = true ->
  Spec.bars_placed (Histogram.xAccessor (Histogram.props this))
    (Histogram.timeHistogramBars (Histogram.state this')).
Proof.
  unfold Histogram._updateHistogramChartScales. fold (Spec.niced this).
  destruct (D3.histogram _ _ _ _) as [bins|] eqn:E; [|discriminate].
  cbn [Histogram.bind]. intros [= <-] Hasc. cbn.
  apply (histogram_placed _ _ _ _ Hasc) in E.
  unfold Spec.bars_placed. apply Forall_map. cbn. exact E.
Qed.
End BarFacts.

(** ** Lists *)

Lemma Permutation_filter (A : Type) (f : A -> bool) (l l' : list A) :
  Permutation l l' -> Permutation (filter f l) (filter f l').
Proof.
  induction 1 as [|a l l' _ IH|a b l|l l' l'' _ IH1 _ IH2]; cbn.
  - constructor.
  - destruct (f a); [constructor|]; exact IH.
  - destruct (f a), (f b); try apply Permutation_refl. constructor.
  - eapply Permutation_trans; eassumption.
Qed.

Lemma filter_filter_inside (A : Type) (f g : A -> bool) (l : list A) :
  (forall a, f a = true -> g a = true) -> filter f (filter g l) = filter f l.
Proof.
  intros Hsub. induction l as [|a l IH]; cbn; [reflexivity|].
  destruct (g a) eqn:G; cbn.
  - rewrite IH. reflexivity.
  - destruct (f a) eqn:F; [|exact IH]. apply Hsub in F. congruence.
Qed.

(** ** The bars of the histogram *)

(** C8: recomputing the bars returns; each bar's yValue is the sum of the
    weights of its points; the bars follow one another without gap or
    overlap across the rounded domain, which contains the visible window
    whenever the rounding pass only widens; and then the points of the
    data that lie within the visible window are, counted with their
    multiplicity, exactly those the bars hold there: each is in one bar,
    once.  When the ticks are ascending, the bar a point is in is one whose
    interval contains its coordinate. *)
Theorem bars_sum_and_share_the_window
    (P : Type) (calendar : D3.Scaling) (this : Histogram.Instance P) :
  let window := Histogram.brushDomain (Histogram.state this) in
  let inside := Spec.within (Histogram.xAccessor (Histogram.props this))
                  (to_number (Histogram.min window)) (to_number (Histogram.max window)) in
  le (fst (Spec.niced this)) (to_number (Histogram.min window)) = true ->
  le (to_number (Histogram.max window)) (snd (Spec.niced this)) = true ->
  exists this',
    Histogram._updateHistogramChartScales this = Ok this'
    /\ Forall (fun bar =>
                 same (Histogram.yValue bar)
                      (Spec.total (Histogram.yAccessor (Histogram.props this))
                                  (Histogram.points bar)))
              (Histogram.timeHistogramBars (Histogram.state this'))
    /\ Spec.contiguous (fst (Spec.niced this))
         (Spec.intervals (Histogram.timeHistogramBars (Histogram.state this')))
         (snd (Spec.niced this))
    /\ Permutation
         (filter inside (Spec.counted (Histogram.timeHistogramBars (Histogram.state this'))))
         (filter inside (Histogram.data (Histogram.props this)))
    /\ (Spec.ascending (D3.ticks (Spec.niced this)
                          (Histogram.defaultBarCount (Histogram.props this))) = true ->
        Spec.bars_placed (Histogram.xAccessor (Histogram.props this))
          (Histogram.timeHistogramBars (Histogram.state this'))).
Proof.
  intros window inside Hlo Hhi.
  destruct (update_scales_total this)
    as [this' [E [_ [_ [_ [_ [_ [_ [Hsum [Hcont Hperm]]]]]]]]]].
  exists this'. repeat split; try assumption.
  - apply Permutation_filter with (f := inside) in Hperm.
    rewrite filter_filter_inside in Hperm; [exact Hperm|].
    intros p Hp. unfold inside, Spec.within in *.
    apply andb_true_iff in Hp as [H1 H2]. apply andb_true_iff. split.
    + exact (le_trans _ _ _ Hlo H1).
    + exact (le_trans _ _ _ H2 Hhi).
  - exact (update_scales_placed _ E).
Qed.

Lemma bars_sum_and_share_the_window_witness :
  let this := Sample.this0 in
  let window := Histogram.brushDomain (Histogram.state this) in
  let inside := Spec.within (Histogram.xAccessor (Histogram.props this))
                  (to_number (Histogram.min window)) (to_number (Histogram.max window)) in
  le (fst (Spec.niced (calendar := Sample.calendar) this))
     (to_number (Histogram.min window)) = true
  /\ le (to_number (Histogram.max window))
        (snd (Spec.niced (calendar := Sample.calendar) this)) = true
  /\ Spec.ascending (D3.ticks (Scaling := Sample.calendar)
                       (Spec.niced (calendar := Sample.calendar) this)
                       (Histogram.defaultBarCount (Histogram.props this))) = true
  /\ exists this',
       Histogram._updateHistogramChartScales (calendar := Sample.calendar) this = Ok this'
       /\ Permutation
            (filter inside
               (Spec.counted (Histogram.timeHistogramBars (Histogram.state this'))))
            (filter inside (Histogram.data (Histogram.props this)))
       /\ Spec.bars_placed (Histogram.xAccessor (Histogram.props this))
            (Histogram.timeHistogramBars (Histogram.state this')).
Proof.
  split; [reflexivity|]. split; [reflexivity|]. split; [reflexivity|].
  destruct (@bars_sum_and_share_the_window _ Sample.calendar Sample.this0
              eq_refl eq_refl) as [this' [E [_ [_ [Hperm Hplaced]]]]].
  exists this'. split; [exact E|]. split; [exact Hperm|].
  apply Hplaced. reflexivity.
Defined.

(** ** The brush domain across data updates *)

Lemma this0_constructed :
  Histogram.constructor (Sample.props Sample.data0 150) = Ok Sample.this0.
Proof. reflexivity. Qed.

Section DomainFacts.
Context {P : Type}.

(** A domain that [calculateWidthsAndDomain] sets is the extent of the
    new data, and that extent reaches beyond the previous domain on one
    side at least. *)
Lemma calculated_domain (props : Histogram.Props P) (previousData : option (list P))
    (previous domain : Histogram.Domain) :
  Histogram.next_brushDomain
    (Histogram.calculateWidthsAndDomain props previousData previous) = Some domain ->
  domain = {| Histogram.min := D3.min (Histogram.data props) (Histogram.xAccessor props);
              Histogram.max := D3.max (Histogram.data props) (Histogram.xAccessor props) |}
  /\ (vlt (Histogram.min domain) (Histogram.min previous) = true
      \/ vgt (Histogram.max domain) (Histogram.max previous) = true).
Proof.
  unfold Histogram.calculateWidthsAndDomain.
  destruct (Histogram._calculateChartsPositionsAndSizing props) as [hist dens].
  destruct (negb _); [|discriminate].
  destruct (vgt _ _ || vlt _ _) eqn:G; [|discriminate].
  cbn. intros [= <-]. split; [reflexivity|].
  apply orb_true_iff in G. exact G.
Qed.

(** A domain that [calculateWidthsAndDomain] sets has its bounds in
    order. *)
Lemma calculated_domain_ordered (props : Histogram.Props P)
    (previousData : option (list P)) (previous domain : Histogram.Domain) :
  Histogram.next_brushDomain
    (Histogram.calculateWidthsAndDomain props previousData previous) = Some domain ->
  Spec.ordered domain = true.
Proof.
  intros H. apply calculated_domain in H as [-> G]. cbn in G. unfold Spec.ordered; cbn.
  destruct (extent_ordered (Histogram.xAccessor props) (Histogram.data props))
    as [[Hmin Hmax]|Hle]; [|exact Hle].
  unfold vlt, vgt, gt in G. rewrite Hmin, Hmax in G.
  destruct G as [G|G]; cbn in G; [discriminate|].
  destruct (to_number (Histogram.max previous)); discriminate.
Qed.

(** Data updates keep the bounds in order. *)
Lemma update_keeps_order (props : Histogram.Props P) (state : Histogram.State P) :
  Spec.ordered (Histogram.brushDomain state) = true ->
  Spec.ordered
    (Histogram.brushDomain
       (Histogram.merge state
          (Histogram.calculateWidthsAndDomain props (Histogram.state_data state)
             (Histogram.brushDomain state)))) = true.
Proof.
  intros H. cbn.
  destruct (Histogram.next_brushDomain _) as [domain|] eqn:E; [|exact H].
  exact (calculated_domain_ordered _ _ _ E).
Qed.

(** A constructed component has its bounds in order. *)
Lemma constructed_in_order (props : Histogram.Props P) (this : Histogram.Instance P) :
  Histogram.constructor props = Ok this ->
  Spec.ordered (Histogram.brushDomain (Histogram.state this)) = true.
Proof.
  unfold Histogram.constructor.
  destruct (Histogram.next_brushDomain _) as [domain|] eqn:E; [|discriminate].
  intros [= <-]. cbn. exact (calculated_domain_ordered _ _ _ E).
Qed.
End DomainFacts.

(** C1, as the code has it: a data update either leaves the domain as it
    was or replaces it by the extent of the new data, and it replaces it
    only when that extent reaches beyond the previous domain on one side at
    least, where the domain then widens; new data whose extent lies within
    the previous domain leaves the domain unchanged, so a narrower data set
    does not shrink it. *)
Theorem domain_kept_or_replaced_by_extent
    (P : Type) (props : Histogram.Props P) (state : Histogram.State P) :
  let before := Histogram.brushDomain state in
  let extent :=
    {| Histogram.min := D3.min (Histogram.data props) (Histogram.xAccessor props);
       Histogram.max := D3.max (Histogram.data props) (Histogram.xAccessor props) |} in
  let after :=
    Histogram.brushDomain
      (Histogram.merge state
         (Histogram.calculateWidthsAndDomain props (Histogram.state_data state) before)) in
  (after = before
   \/ (after = extent
       /\ (vlt (Histogram.min after) (Histogram.min before) = true
           \/ vgt (Histogram.max after) (Histogram.max before) = true)))
  /\ (vle (Histogram.min before) (Histogram.min extent) = true ->
      vle (Histogram.max extent) (Histogram.max before) = true ->
      after = before).
Proof.
  intros before extent after. subst after. cbn [Histogram.merge Histogram.brushDomain].
  destruct (Histogram.next_brushDomain _) as [domain|] eqn:E.
  - apply calculated_domain in E as [-> G]. fold extent. fold extent in G. split.
    + right. split; [reflexivity|exact G].
    + intros Hmin Hmax. exfalso. unfold vlt, vgt, gt, vle in *.
      apply le_lt_false in Hmin. apply le_lt_false in Hmax.
      destruct G as [G|G]; congruence.
  - split; [left; reflexivity|]. intros _ _. reflexivity.
Qed.

Lemma domain_kept_or_replaced_by_extent_witness :
  let props := Sample.props [(2, 1); (8, 1)]%Z 150 in
  let state := Histogram.state Sample.this0 in
  let before := Histogram.brushDomain state in
  let extent :=
    {| Histogram.min := D3.min (Histogram.data props) (Histogram.xAccessor props);
       Histogram.max := D3.max (Histogram.data props) (Histogram.xAccessor props) |} in
  vle (Histogram.min before) (Histogram.min extent) = true
  /\ vle (Histogram.max extent) (Histogram.max before) = true
  /\ Histogram.brushDomain
       (Histogram.merge state
          (Histogram.calculateWidthsAndDomain props (Histogram.state_data state) before))
     = before.
Proof.
  split; [reflexivity|]. split; [reflexivity|].
  apply (proj2 (domain_kept_or_replaced_by_extent
                  (Sample.props [(2, 1); (8, 1)]%Z 150) (Histogram.state Sample.this0)));
    reflexivity.
Defined.

(** C1 as stated fails: the component built over the timestamps 0 and 10
    and then given data over 5 and 20 ends with the domain from 5 to 20,
    whose lower bound went up. *)
Lemma domain_lower_bound_can_rise :
  let state := Histogram.state Sample.this0 in
  exists nextState,
    Histogram.constructor (Sample.props [(0, 1); (10, 1)]%Z 150) = Ok Sample.this0
    /\ Histogram.getDerivedStateFromProps (Sample.props [(5, 1); (20, 1)]%Z 150) state
       = Ok (Some nextState)
    /\ Histogram.brushDomain state
       = {| Histogram.min := VNum (of_Z 0); Histogram.max := VNum (of_Z 10) |}
    /\ Histogram.brushDomain (Histogram.merge state nextState)
       = {| Histogram.min := VNum (of_Z 5); Histogram.max := VNum (of_Z 20) |}
    /\ Spec.widens (Histogram.brushDomain state)
         (Histogram.brushDomain (Histogram.merge state nextState)) = false.
Proof.
  eexists. split; [reflexivity|]. split; [reflexivity|]. repeat split.
Qed.

(** Empty data never yields a domain, whatever the previous data and
    domain were: the extent of no points is undefined, and nothing compares
    with it. *)
Lemma no_domain_from_empty_data (P : Type) (props : Histogram.Props P)
    (previousData : option (list P)) (previous : Histogram.Domain) :
  Histogram.data props = [] ->
  Histogram.next_brushDomain
    (Histogram.calculateWidthsAndDomain props previousData previous) = None.
Proof.
  intros Hdata. unfold Histogram.calculateWidthsAndDomain. rewrite Hdata.
  destruct (Histogram._calculateChartsPositionsAndSizing props) as [hist dens].
  destruct (negb _); [|reflexivity].
  cbn. unfold vgt, vlt, gt. cbn.
  destruct (to_number (Histogram.min previous)), (to_number (Histogram.max previous));
    reflexivity.
Qed.

(** C9 fails where the data is empty: the constructor gets no brush domain
    from [calculateWidthsAndDomain], so the state it assigns has none, and
    building the scale from it throws; no initial state with an ordered
    domain is produced. *)
Theorem constructor_without_data_throws (P : Type) (props : Histogram.Props P) :
  Histogram.data props = [] -> Histogram.constructor props = Throw TypeError.
Proof.
  intros Hdata. unfold Histogram.constructor.
  rewrite no_domain_from_empty_data by exact Hdata. reflexivity.
Qed.

Lemma constructor_without_data_throws_witness :
  Histogram.data (Sample.props [] 150) = []
  /\ Histogram.constructor (Sample.props [] 150) = Throw TypeError.
Proof.
  split; [reflexivity|].
  apply (constructor_without_data_throws (Sample.props [] 150)). reflexivity.
Defined.

(** ** The zoom's scale extent *)

(** C3, as the code has it: for finite domain bounds and a finite
    non-zero minZoomUnit the scale extent is [1, (max - min) / minZoomUnit],
    the plain ratio with no lower clamp; when max equals min the upper
    bound is 0, below the lower bound. *)
Theorem scale_extent_is_the_plain_ratio
    (P : Type) (props : Histogram.Props P) (state : Histogram.State P) (lo hi unit : Q) :
  to_number (Histogram.min (Histogram.brushDomain state)) = Num lo ->
  to_number (Histogram.max (Histogram.brushDomain state)) = Num hi ->
  Histogram.minZoomUnit props = Num unit ->
  ~ (unit == 0)%Q ->
  let extent := D3.scaleExtent (snd (Histogram._createScaleAndZoom props state)) in
  extent = (one, Num ((hi + - lo) / unit))
  /\ ((hi == lo)%Q -> same (snd extent) zero /\ lt (snd extent) (fst extent) = true).
Proof.
  intros Hlo Hhi Hunit Hnz extent. subst extent.
  unfold Histogram._createScaleAndZoom; cbn [snd D3.scaleExtent].
  unfold vsub, sub. rewrite Hlo, Hhi, Hunit. cbn [neg add div].
  assert (sign unit <> Eq) as Hs.
  { unfold sign. intros E. apply Qeq_alt in E. contradiction. }
  assert (match sign unit with
          | Eq => match sign (hi + - lo) with
                  | Eq => NaN | Lt => NegInfinity | Gt => Infinity
                  end
          | _ => Num ((hi + - lo) / unit)
          end = Num ((hi + - lo) / unit)) as ->.
  { destruct (sign unit); try reflexivity. congruence. }
  split; [reflexivity|].
  intros Heq. cbn [fst snd]. assert ((hi + - lo) / unit == 0)%Q as Hz.
  { rewrite Heq. unfold Qdiv. setoid_replace (lo + - lo)%Q with 0%Q by ring. ring. }
  split.
  - exact Hz.
  - cbn. change (inject_Z 1) with 1%Q.
    destruct (Qcompare_spec ((hi + - lo) / unit) 1) as [E|E|E];
      try reflexivity; exfalso; rewrite Hz in E; clear - E; lra.
Qed.

Lemma scale_extent_is_the_plain_ratio_witness :
  let props := Histogram.props Sample.single in
  let state := Histogram.state Sample.single in
  let extent := D3.scaleExtent (snd (Histogram._createScaleAndZoom props state)) in
  to_number (Histogram.min (Histogram.brushDomain state)) = Num (inject_Z 5)
  /\ to_number (Histogram.max (Histogram.brushDomain state)) = Num (inject_Z 5)
  /\ Histogram.minZoomUnit props = Num (inject_Z 1000)
  /\ ~ (inject_Z 1000 == 0)%Q
  /\ (inject_Z 5 == inject_Z 5)%Q
  /\ same (snd extent) zero
  /\ lt (snd extent) (fst extent) = true.
Proof.
  repeat (split; [first [reflexivity | discriminate]|]).
  apply (proj2 (@scale_extent_is_the_plain_ratio _ (Histogram.props Sample.single)
                  (Histogram.state Sample.single)
                  (inject_Z 5) (inject_Z 5) (inject_Z 1000)
                  eq_refl eq_refl eq_refl ltac:(discriminate))).
  reflexivity.
Defined.

Lemma single_constructed :
  Histogram.constructor (Sample.props [(5, 1)]%Z 150) = Ok Sample.single.
Proof. reflexivity. Qed.

(** C3 as stated fails: over a single point at time 5, with minZoomUnit
    1000, the constructor succeeds and sets the scale extent to [1, 0],
    where the specification's formula gives [1, 1]. *)
Lemma scale_extent_upper_bound_below_one :
  let props := Sample.props [(5, 1)]%Z 150 in
  Histogram.constructor props = Ok Sample.single
  /\ Histogram.brushDomain (Histogram.state Sample.single)
     = {| Histogram.min := VNum (of_Z 5); Histogram.max := VNum (of_Z 5) |}
  /\ fst (D3.scaleExtent (Histogram.zoom Sample.single)) = one
  /\ same (snd (D3.scaleExtent (Histogram.zoom Sample.single))) zero
  /\ same (snd (Spec.scaleExtent (Histogram.brushDomain (Histogram.state Sample.single))
                  (Histogram.minZoomUnit props))) one
  /\ ~ same (snd (D3.scaleExtent (Histogram.zoom Sample.single)))
            (snd (Spec.scaleExtent (Histogram.brushDomain (Histogram.state Sample.single))
                    (Histogram.minZoomUnit props))).
Proof.
  cbn. repeat (split; [reflexivity|]). discriminate.
Qed.

(** ** The window-change path *)

Section WindowFacts.
Context {P : Type} {calendar : D3.Scaling}.

(** The two outcomes of the window-change path.  When both bounds
    differ from the stored ones the window is stored and the caller is
    notified once; otherwise nothing happens at all. *)
Lemma window_change_cases (this : Histogram.Instance P) (window : Date * Date) :
  let stored := Histogram.brushDomain (Histogram.state this) in
  let full := D3.domain (Histogram.densityChartXScale this) in
  exists this' calls,
    Histogram._updateBrushedDomainAndReRenderTheHistogramPlot this window
    = Ok (this', calls)
    /\ if strict_neq (VDate (fst window)) (Histogram.min stored)
          && strict_neq (VDate (snd window)) (Histogram.max stored)
       then
         calls = [Histogram.onIntervalChange
                    (getTime (fst window), getTime (snd window))
                    (eq_num (fst full) (getTime (fst window))
                     && eq_num (snd full) (getTime (snd window)))]
         /\ Histogram.brushDomain (Histogram.state this')
            = {| Histogram.min := VDate (fst window);
                 Histogram.max := VDate (snd window) |}
         /\ Histogram.showHistogramBarTooltip (Histogram.state this') = false
         /\ Histogram.densityChartXScale this' = Histogram.densityChartXScale this
         /\ Histogram.props this' = Histogram.props this
       else this' = this /\ calls = [].
Proof.
  destruct window as [brushed0 brushed1]. cbn [fst snd].
  unfold Histogram._updateBrushedDomainAndReRenderTheHistogramPlot.
  destruct (strict_neq _ _ && strict_neq _ _).
  - match goal with
    | |- context [Histogram._updateHistogramChartScales ?t] =>
        destruct (update_scales_total t)
          as [this' [E [Hprops [Hdomain [Htip [Hscale _]]]]]]
    end.
    rewrite E. cbn [Histogram.bind]. rewrite Hscale.
    exists this'. eexists. split; [reflexivity|].
    repeat split; assumption.
  - exists this, []. repeat split.
Qed.
End WindowFacts.

(** ** The calls of the brush handler *)



(** ** The height check *)

(** C6: a height below 150 makes [getDerivedStateFromProps] throw at once
    an error whose message names 150, and an update with such props throws
    it before anything else is done; a height of 150 or more raises no such
    error: the derived state is returned. *)
Theorem height_below_minimum_fails_fast
    (P : Type) (calendar : D3.Scaling) (props : Histogram.Props P)
    (this : Histogram.Instance P) :
  let failure := Error ("The minimum height is " ++ string_of_Z 150 ++ "px.") in
  (lt (Histogram.height props) (of_Z 150) = true ->
   failure = Error "The minimum height is 150px."
   /\ Histogram.getDerivedStateFromProps props (Histogram.state this) = Throw failure
   /\ Histogram.receive props this = Throw failure)
  /\ (le (of_Z 150) (Histogram.height props) = true ->
      Histogram.getDerivedStateFromProps props (Histogram.state this)
      = Ok (Some (Histogram.calculateWidthsAndDomain props
                    (Histogram.state_data (Histogram.state this))
                    (Histogram.brushDomain (Histogram.state this))))).
Proof.
  intros failure. unfold Histogram.receive, Histogram.getDerivedStateFromProps.
  change (of_Z Histogram.MIN_TOTAL_HEIGHT) with (of_Z 150). split.
  - intros ->. repeat split.
  - intros Hle. apply le_lt_false in Hle. rewrite Hle. reflexivity.
Qed.

Lemma height_below_minimum_fails_fast_witness :
  let low := Sample.props Sample.data0 149 in
  let enough := Sample.props Sample.data0 150 in
  let failure := Error "The minimum height is 150px." in
  (lt (Histogram.height low) (of_Z 150) = true
   /\ failure = Error "The minimum height is 150px."
   /\ Histogram.getDerivedStateFromProps low (Histogram.state Sample.this0)
      = Throw failure
   /\ Histogram.receive (calendar := Sample.calendar) low Sample.this0 = Throw failure)
  /\ (le (of_Z 150) (Histogram.height enough) = true
      /\ Histogram.getDerivedStateFromProps enough (Histogram.state Sample.this0)
         = Ok (Some (Histogram.calculateWidthsAndDomain enough
                       (Histogram.state_data (Histogram.state Sample.this0))
                       (Histogram.brushDomain (Histogram.state Sample.this0))))).
Proof.
  split; (split; [reflexivity|]).
  - apply (proj1 (@height_below_minimum_fails_fast _ Sample.calendar
                    (Sample.props Sample.data0 149) Sample.this0)).
    reflexivity.
  - apply (proj2 (@height_below_minimum_fails_fast _ Sample.calendar
                    (Sample.props Sample.data0 150) Sample.this0)).
    reflexivity.
Defined.

(** ** From a brush selection to a zoom transform *)

Lemma ratio_finite_iff (width lo hi : Q) :
  (lo <= hi)%Q ->
  isFinite (div (Num width) (sub (Num hi) (Num lo))) = true <-> (lo < hi)%Q.
Proof.
  intros Hle. cbn. unfold sign.
  destruct (Qcompare_spec (hi + - lo) 0) as [E|E|E].
  - split.
    + destruct (width ?= 0)%Q; discriminate.
    + intros Hlt. exfalso. lra.
  - exfalso. lra.
  - split; [intros _; lra | reflexivity].
Qed.

(** C10: the handler turns every selection into a zoom transform whose
    scale is the overview width divided by pixelMax - pixelMin, whatever the
    selection, and returns; for finite numbers with pixelMin <= pixelMax
    that scale is finite exactly when pixelMin < pixelMax, so a selection
    of zero width hands the zoom an infinite or NaN scale. *)
Theorem zero_width_selection_is_not_guarded
    (P : Type) (calendar : D3.Scaling) (this : Histogram.Instance P)
    (width pixelMin pixelMax : Q) :
  Histogram.dc_width (Histogram.densityChartDimensions (Histogram.state this))
  = Num width ->
  (pixelMin <= pixelMax)%Q ->
  let scale := div (Num width) (sub (Num pixelMax) (Num pixelMin)) in
  exists this' calls,
    Histogram._onDensityChartDomainChanged this (Num pixelMin, Num pixelMax)
    = Ok (this', Histogram.zoom_transform scale (Num (- pixelMin)) zero :: calls)
    /\ (isFinite scale = true <-> (pixelMin < pixelMax)%Q).
Proof.
  intros Hwidth Hle scale.
  unfold Histogram._onDensityChartDomainChanged. cbn [Histogram.new_Date].
  match goal with
  | |- context [Histogram._updateBrushedDomainAndReRenderTheHistogramPlot ?t ?w] =>
      destruct (window_change_cases t w) as [this' [calls [E _]]]
  end.
  rewrite E. cbn [Histogram.bind fst snd Histogram.state]. rewrite Hwidth.
  exists this', calls. split; [reflexivity|].
  apply ratio_finite_iff. exact Hle.
Qed.

Lemma zero_width_selection_is_not_guarded_witness :
  let scale := div (Num (inject_Z 440)) (sub (Num (inject_Z 7)) (Num (inject_Z 7))) in
  Histogram.dc_width
    (Histogram.densityChartDimensions (Histogram.state Sample.this0))
  = Num (inject_Z 440)
  /\ (inject_Z 7 <= inject_Z 7)%Q
  /\ scale = Infinity
  /\ exists this' calls,
       Histogram._onDensityChartDomainChanged (calendar := Sample.calendar)
         Sample.this0 (Num (inject_Z 7), Num (inject_Z 7))
       = Ok (this', Histogram.zoom_transform scale (Num (- inject_Z 7)) zero :: calls)
       /\ (isFinite scale = true <-> (inject_Z 7 < inject_Z 7)%Q).
Proof.
  split; [reflexivity|]. split; [discriminate|]. split; [reflexivity|].
  apply (@zero_width_selection_is_not_guarded _ Sample.calendar Sample.this0
           (inject_Z 440) (inject_Z 7) (inject_Z 7) eq_refl).
  discriminate.
Defined.

(** * Further properties of the two components *)

(** ** The extent of the data *)

Section ExtentBounds.
Variables (P : Type) (valueof : P -> value).

Lemma lt_comparable_l (a b : number) : lt a b = true -> le a a = true.
Proof. intros H. exact (le_refl_comparable _ _ (lt_le _ _ H)). Qed.

Lemma min_rest_le_all (values : list P) : forall seed p,
  vle seed seed = true -> In p values -> vle (valueof p) (valueof p) = true ->
  vle (D3.min_rest valueof seed values) (valueof p) = true.
Proof.
  induction values as [|q rest IH]; intros seed p Hseed Hin Hp; [destruct Hin|].
  cbn. destruct (not_null (valueof q) && vgt seed (valueof q)) eqn:E.
  - apply andb_true_iff in E as [_ E].
    assert (vle (valueof q) (valueof q) = true) as Hq by exact (lt_comparable_l _ _ E).
    destruct Hin as [<-|Hin]; [apply min_rest_below; exact Hq | apply IH; assumption].
  - destruct Hin as [<-|Hin]; [|apply IH; assumption].
    apply le_trans with (b := to_number seed); [apply min_rest_below; exact Hseed|].
    apply le_total; try assumption.
    apply andb_false_iff in E as [E|E]; [|exact E].
    destruct (valueof q); cbn in *; congruence.
Qed.

Lemma max_rest_ge_all (values : list P) : forall seed p,
  vle seed seed = true -> In p values -> vle (valueof p) (valueof p) = true ->
  vle (valueof p) (D3.max_rest valueof seed values) = true.
Proof.
  induction values as [|q rest IH]; intros seed p Hseed Hin Hp; [destruct Hin|].
  cbn. destruct (not_null (valueof q) && vgt (valueof q) seed) eqn:E.
  - apply andb_true_iff in E as [_ E].
    assert (vle (valueof q) (valueof q) = true) as Hq
      by exact (le_refl_comparable_r _ _ (lt_le _ _ E)).
    destruct Hin as [<-|Hin]; [apply max_rest_above; exact Hq | apply IH; assumption].
  - destruct Hin as [<-|Hin]; [|apply IH; assumption].
    apply le_trans with (b := to_number seed); [|apply max_rest_above; exact Hseed].
    apply le_total; try assumption.
    apply andb_false_iff in E as [E|E]; [|exact E].
    destruct (valueof q); cbn in *; congruence.
Qed.

(** The least value is below every comparable value of the data, the
    greatest above. *)
Lemma extent_contains (values : list P) (p : P) :
  In p values -> vle (valueof p) (valueof p) = true ->
  vle (D3.min values valueof) (valueof p) = true
  /\ vle (valueof p) (D3.max values valueof) = true.
Proof.
  induction values as [|q rest IH]; intros Hin Hp; [destruct Hin|].
  cbn. destruct (not_null (valueof q) && vge (valueof q) (valueof q)) eqn:E.
  - apply andb_true_iff in E as [_ E].
    destruct Hin as [<-|Hin].
    + split; [apply min_rest_below | apply max_rest_above]; exact E.
    + split; [apply min_rest_le_all | apply max_rest_ge_all]; assumption.
  - destruct Hin as [->|Hin]; [|apply IH; assumption].
    exfalso. apply andb_false_iff in E as [E|E].
    + destruct (valueof p); cbn in *; congruence.
    + unfold vge, ge, vle in *. congruence.
Qed.

Lemma max_rest_attained (values : list P) : forall seed,
  D3.max_rest valueof seed values = seed
  \/ exists p, In p values /\ D3.max_rest valueof seed values = valueof p.
Proof.
  induction values as [|q rest IH]; intros seed; cbn; [left; reflexivity|].
  destruct (not_null (valueof q) && vgt (valueof q) seed).
  - right. destruct (IH (valueof q)) as [->|[p [Hin ->]]].
    + exists q. split; [left|]; reflexivity.
    + exists p. split; [right; exact Hin | reflexivity].
  - destruct (IH seed) as [->|[p [Hin ->]]]; [left; reflexivity|].
    right. exists p. split; [right; exact Hin | reflexivity].
Qed.

(** The greatest value is [undefined], or the value of one of the
    points. *)
Lemma max_attained (values : list P) :
  D3.max values valueof = Undefined
  \/ exists p, In p values /\ D3.max values valueof = valueof p.
Proof.
  induction values as [|q rest IH]; cbn; [left; reflexivity|].
  destruct (not_null (valueof q) && vge (valueof q) (valueof q)).
  - right. destruct (max_rest_attained rest (valueof q)) as [->|[p [Hin ->]]].
    + exists q. split; [left|]; reflexivity.
    + exists p. split; [right; exact Hin | reflexivity].
  - destruct IH as [->|[p [Hin ->]]]; [left; reflexivity|].
    right. exists p. split; [right; exact Hin | reflexivity].
Qed.

Lemma min_rest_attained (values : list P) : forall seed,
  D3.min_rest valueof seed values = seed
  \/ exists p, In p values /\ D3.min_rest valueof seed values = valueof p.
Proof.
  induction values as [|q rest IH]; intros seed; cbn; [left; reflexivity|].
  destruct (not_null (valueof q) && vgt seed (valueof q)).
  - right. destruct (IH (valueof q)) as [->|[p [Hin ->]]].
    + exists q. split; [left|]; reflexivity.
    + exists p. split; [right; exact Hin | reflexivity].
  - destruct (IH seed) as [->|[p [Hin ->]]]; [left; reflexivity|].
    right. exists p. split; [right; exact Hin | reflexivity].
Qed.

Lemma min_attained (values : list P) :
  D3.min values valueof = Undefined
  \/ exists p, In p values /\ D3.min values valueof = valueof p.
Proof.
  induction values as [|q rest IH]; cbn; [left; reflexivity|].
  destruct (not_null (valueof q) && vge (valueof q) (valueof q)).
  - right. destruct (min_rest_attained rest (valueof q)) as [->|[p [Hin ->]]].
    + exists q. split; [left|]; reflexivity.
    + exists p. split; [right; exact Hin | reflexivity].
  - destruct IH as [->|[p [Hin ->]]]; [left; reflexivity|].
    right. exists p. split; [right; exact Hin | reflexivity].
Qed.
End ExtentBounds.

(** ** Construction *)

Lemma seed_exceeded (lo hi : number) :
  le lo lo = true -> le hi hi = true -> le lo hi = true ->
  lt lo Infinity || lt NegInfinity hi = true.
Proof. destruct lo, hi; cbn; congruence. Qed.

(** X1: the constructor succeeds exactly when some point of the data has a
    comparable coordinate (a number other than NaN, or a Date with such a
    time); the state it then builds holds the data, no bars yet, and the
    extent of the data as brush domain, and no Date has been made. *)
Theorem constructor_succeeds_iff_comparable_point
    (P : Type) (props : Histogram.Props P) :
  ((exists this, Histogram.constructor props = Ok this)
   <-> exists p, In p (Histogram.data props)
                 /\ Lifecycle.comparable (Histogram.xAccessor props p) = true)
  /\ forall this,
       Histogram.constructor props = Ok this ->
       Histogram.props this = props
       /\ Histogram.brushDomain (Histogram.state this)
          = {| Histogram.min := D3.min (Histogram.data props) (Histogram.xAccessor props);
               Histogram.max := D3.max (Histogram.data props) (Histogram.xAccessor props) |}
       /\ Histogram.state_data (Histogram.state this) = Some (Histogram.data props)
       /\ Histogram.timeHistogramBars (Histogram.state this) = []
       /\ Histogram.made_dates this = 0.
Proof.
  unfold Lifecycle.comparable. split; [split|].
  - intros [this H]. unfold Histogram.constructor in H.
    destruct (Histogram.next_brushDomain _) as [domain|] eqn:E; [|discriminate].
    apply calculated_domain in E as [-> G]. cbn [Histogram.min Histogram.max] in G.
    destruct G as [G|G].
    + destruct (min_attained (Histogram.xAccessor props) (Histogram.data props))
        as [U|[p [Hin Hp]]].
      * rewrite U in G. discriminate G.
      * exists p. split; [exact Hin|]. rewrite <- Hp. exact (lt_comparable_l _ _ G).
    + destruct (max_attained (Histogram.xAccessor props) (Histogram.data props))
        as [U|[p [Hin Hp]]].
      * rewrite U in G. discriminate G.
      * exists p. split; [exact Hin|]. rewrite <- Hp. unfold vgt, gt in G.
        exact (le_refl_comparable_r _ _ (lt_le _ _ G)).
  - intros [p [Hin Hp]].
    destruct (extent_contains (Histogram.xAccessor props) _ _ Hin Hp) as [Hmin Hmax].
    unfold Histogram.constructor, Histogram.calculateWidthsAndDomain.
    destruct (Histogram._calculateChartsPositionsAndSizing props) as [hist dens].
    destruct (Histogram.data props) as [|q rest] eqn:Hdata; [destruct Hin|].
    cbn [Utils.isHistogramDataEqual Utils.same_points negb].
    cbn [Histogram.min Histogram.max]. unfold vgt, vlt, gt. cbn [to_number].
    rewrite (seed_exceeded _ _ (le_refl_comparable _ _ Hmin)
               (le_refl_comparable_r _ _ Hmax) (le_trans _ _ _ Hmin Hmax)).
    cbn. eexists. reflexivity.
  - intros this H. unfold Histogram.constructor in H.
    destruct (Histogram.next_brushDomain _) as [domain|] eqn:E; [|discriminate].
    pose proof E as E'. apply calculated_domain in E' as [-> _].
    injection H as <-. cbn. repeat split.
    unfold Histogram.calculateWidthsAndDomain in *.
    destruct (Histogram._calculateChartsPositionsAndSizing props) as [hist dens].
    destruct (negb _); [|discriminate E].
    destruct (_ || _); [reflexivity|discriminate E].
Qed.

(** ** Data updates *)

(** X2: when [calculateWidthsAndDomain] takes the data as changed and the
    previous bounds are comparable, the brush domain that results, the new
    one or the previous one kept, contains every comparable coordinate of
    the new data. *)
Theorem changed_data_lies_in_the_domain
    (P : Type) (props : Histogram.Props P) (previousData : option (list P))
    (previous : Histogram.Domain) :
  let nextState := Histogram.calculateWidthsAndDomain props previousData previous in
  let domain := match Histogram.next_brushDomain nextState with
                | Some domain => domain
                | None => previous
                end in
  Lifecycle.comparable (Histogram.min previous) = true ->
  Lifecycle.comparable (Histogram.max previous) = true ->
  Histogram.next_data nextState = Some (Histogram.data props) ->
  forall p,
    In p (Histogram.data props) ->
    Lifecycle.comparable (Histogram.xAccessor props p) = true ->
    vle (Histogram.min domain) (Histogram.xAccessor props p) = true
    /\ vle (Histogram.xAccessor props p) (Histogram.max domain) = true.
Proof.
  intros nextState domain Hlo Hhi Hdata p Hin Hp. unfold Lifecycle.comparable in *.
  destruct (extent_contains (Histogram.xAccessor props) _ _ Hin Hp) as [Hmin Hmax].
  subst domain nextState. unfold Histogram.calculateWidthsAndDomain in *.
  destruct (Histogram._calculateChartsPositionsAndSizing props) as [hist dens].
  destruct (negb _); [|discriminate Hdata].
  destruct (vgt _ _ || vlt _ _) eqn:G; cbn; [split; assumption|].
  apply orb_false_iff in G as [G1 G2]. unfold vgt, vlt, gt, vle in *. split.
  - apply le_trans with (2 := Hmin). apply le_total; try assumption.
    exact (le_refl_comparable _ _ Hmin).
  - apply le_trans with (1 := Hmax). apply le_total; try assumption.
    exact (le_refl_comparable_r _ _ Hmax).
Qed.

Lemma changed_data_lies_in_the_domain_witness :
  let props := Sample.props [(2, 1); (8, 1)]%Z 150 in
  let previous := Histogram.brushDomain (Histogram.state Sample.this0) in
  let nextState :=
    Histogram.calculateWidthsAndDomain props (Some Sample.data0) previous in
  Lifecycle.comparable (Histogram.min previous) = true
  /\ Lifecycle.comparable (Histogram.max previous) = true
  /\ Histogram.next_data nextState = Some (Histogram.data props)
  /\ Histogram.next_brushDomain nextState = None
  /\ In (8, 1)%Z (Histogram.data props)
  /\ vle (Histogram.min previous) (Histogram.xAccessor props (8, 1)%Z) = true
  /\ vle (Histogram.xAccessor props (8, 1)%Z) (Histogram.max previous) = true.
Proof.
  repeat (split; [reflexivity|]).
  split; [right; left; reflexivity|].
  apply (changed_data_lies_in_the_domain (Sample.props [(2, 1); (8, 1)]%Z 150)
           (Some Sample.data0) (Histogram.brushDomain (Histogram.state Sample.this0))
           eq_refl eq_refl eq_refl (8, 1)%Z (or_intror (or_introl eq_refl)) eq_refl).
Defined.

(** ** Updates with new props *)

Section UpdateFacts.
Context {P : Type} {calendar : D3.Scaling}.

Lemma calculated_layout (props : Histogram.Props P) (previousData : option (list P))
    (previous : Histogram.Domain) :
  Histogram.next_histogramChartDimensions
    (Histogram.calculateWidthsAndDomain props previousData previous)
  = fst (Histogram._calculateChartsPositionsAndSizing props)
  /\ Histogram.next_densityChartDimensions
       (Histogram.calculateWidthsAndDomain props previousData previous)
     = snd (Histogram._calculateChartsPositionsAndSizing props).
Proof.
  unfold Histogram.calculateWidthsAndDomain.
  destruct (Histogram._calculateChartsPositionsAndSizing props) as [hist dens].
  destruct (negb _); [destruct (_ || _)|]; split; reflexivity.
Qed.

(** What an update with an accepted height leaves. *)
Lemma receive_cases (nextProps : Histogram.Props P) (this : Histogram.Instance P) :
  lt (Histogram.height nextProps) (of_Z 150) = false ->
  let merged :=
    Histogram.merge (Histogram.state this)
      (Histogram.calculateWidthsAndDomain nextProps
         (Histogram.state_data (Histogram.state this))
         (Histogram.brushDomain (Histogram.state this))) in
  exists this',
    Histogram.receive nextProps this = Ok this'
    /\ Histogram.props this' = nextProps
    /\ Histogram.brushDomain (Histogram.state this') = Histogram.brushDomain merged
    /\ Histogram.made_dates this' = Histogram.made_dates this
    /\ if Lifecycle.rebuilds (Histogram.props this) nextProps
       then Histogram.densityChartXScale this'
            = fst (Histogram._createScaleAndZoom nextProps merged)
            /\ Histogram.zoom this' = snd (Histogram._createScaleAndZoom nextProps merged)
       else this' = {| Histogram.props := nextProps;
                       Histogram.state := merged;
                       Histogram.densityChartXScale := Histogram.densityChartXScale this;
                       Histogram.zoom := Histogram.zoom this;
                       Histogram.histogramChartXScale := Histogram.histogramChartXScale this;
                       Histogram.histogramChartYScale := Histogram.histogramChartYScale this;
                       Histogram.made_dates := Histogram.made_dates this |}.
Proof.
  intros Hheight merged. unfold Histogram.receive, Histogram.getDerivedStateFromProps.
  change (of_Z Histogram.MIN_TOTAL_HEIGHT) with (of_Z 150). rewrite Hheight.
  cbn [Histogram.bind]. change (0 <? Histogram.keys_length _) with true. cbv iota.
  fold merged. unfold Histogram.componentDidUpdate. cbn [Histogram.props Histogram.state].
  fold (Lifecycle.rebuilds (Histogram.props this) nextProps).
  destruct (Lifecycle.rebuilds (Histogram.props this) nextProps).
  - destruct (Histogram._createScaleAndZoom nextProps merged) as [scale zoom] eqn:E.
    unfold Histogram._setUpZoomAndChartScales.
    match goal with
    | |- context [Histogram._updateHistogramChartScales ?t] =>
        destruct (update_scales_total t)
          as [this' [E' [Hprops [Hdomain [_ [Hscale [Hzoom [Hdates _]]]]]]]]
    end.
    exists this'. split; [exact E'|]. repeat split; assumption.
  - eexists. split; [reflexivity|]. repeat split.
Qed.
End UpdateFacts.

(** X3: an update whose height is accepted (not below 150) completes: the
    new props are installed, the brush domain is the one
    [calculateWidthsAndDomain] leaves, and no Date is made. *)
Theorem update_completes
    (P : Type) (calendar : D3.Scaling) (nextProps : Histogram.Props P)
    (this : Histogram.Instance P) :
  lt (Histogram.height nextProps) (of_Z 150) = false ->
  exists this',
    Histogram.receive nextProps this = Ok this'
    /\ Histogram.props this' = nextProps
    /\ Histogram.brushDomain (Histogram.state this')
       = Histogram.brushDomain
           (Histogram.merge (Histogram.state this)
              (Histogram.calculateWidthsAndDomain nextProps
                 (Histogram.state_data (Histogram.state this))
                 (Histogram.brushDomain (Histogram.state this))))
    /\ Histogram.made_dates this' = Histogram.made_dates this.
Proof.
  intros Hheight.
  destruct (receive_cases nextProps this Hheight) as [this' [E [H1 [H2 [H3 _]]]]].
  exists this'. repeat split; assumption.
Qed.

Lemma update_completes_witness :
  let nextProps := Sample.props [(5, 1); (20, 1)]%Z 200 in
  lt (Histogram.height nextProps) (of_Z 150) = false
  /\ exists this',
       Histogram.receive (calendar := Sample.calendar) nextProps Sample.this0 = Ok this'
       /\ Histogram.props this' = nextProps
       /\ Histogram.brushDomain (Histogram.state this')
          = {| Histogram.min := VNum (of_Z 5); Histogram.max := VNum (of_Z 20) |}.
Proof.
  split; [reflexivity|].
  destruct (@update_completes _ Sample.calendar (Sample.props [(5, 1); (20, 1)]%Z 200)
              Sample.this0 eq_refl) as [this' [E [H1 [H2 _]]]].
  exists this'. repeat split; assumption.
Defined.

(** X4: an update that changes the width rebuilds the overview scale and
    the zoom from the new layout: the scale maps the brush domain onto
    [0, density chart width], the zoom's extent and translate extent are
    the histogram's rectangle, and its scale extent is taken from the new
    minZoomUnit. *)
Theorem resize_rebuilds_scale_and_zoom
    (P : Type) (calendar : D3.Scaling) (nextProps : Histogram.Props P)
    (this : Histogram.Instance P) :
  lt (Histogram.height nextProps) (of_Z 150) = false ->
  eq_num (Histogram.size_width (Histogram.props this)) (Histogram.size_width nextProps)
  = false ->
  let layout := Histogram._calculateChartsPositionsAndSizing nextProps in
  exists this',
    Histogram.receive nextProps this = Ok this'
    /\ let domain := Histogram.brushDomain (Histogram.state this') in
       let corner := (Histogram.hc_width (fst layout), Histogram.hc_height (fst layout)) in
       D3.domain (Histogram.densityChartXScale this')
       = (to_number (Histogram.min domain), to_number (Histogram.max domain))
       /\ D3.range (Histogram.densityChartXScale this')
          = (zero, Histogram.dc_width (snd layout))
       /\ D3.extent (Histogram.zoom this') = ((zero, zero), corner)
       /\ D3.translateExtent (Histogram.zoom this') = ((zero, zero), corner)
       /\ D3.scaleExtent (Histogram.zoom this')
          = (one, div (vsub (Histogram.max domain) (Histogram.min domain))
                      (Histogram.minZoomUnit nextProps)).
Proof.
  intros Hheight Hwidth layout.
  destruct (receive_cases nextProps this Hheight) as [this' [E [_ [Hdomain [_ Hcase]]]]].
  unfold Lifecycle.rebuilds in Hcase. rewrite Hwidth in Hcase. cbn [negb orb] in Hcase.
  destruct Hcase as [Hscale Hzoom].
  exists this'. split; [exact E|]. cbv zeta. rewrite Hscale, Hzoom, Hdomain.
  unfold Histogram._createScaleAndZoom. cbn [fst snd D3.domain D3.range D3.extent
    D3.translateExtent D3.scaleExtent Histogram.merge Histogram.densityChartDimensions
    Histogram.histogramChartDimensions Histogram.brushDomain].
  destruct (calculated_layout nextProps (Histogram.state_data (Histogram.state this))
              (Histogram.brushDomain (Histogram.state this))) as [-> ->].
  repeat split.
Qed.

Lemma resize_rebuilds_scale_and_zoom_witness :
  let nextProps :=
    {| Histogram.data := Sample.data0;
       Histogram.size_width := of_Z 800;
       Histogram.height := of_Z 150;
       Histogram.defaultBarCount := of_Z 18;
       Histogram.xAccessor := fun p => VNum (of_Z (fst p));
       Histogram.yAccessor := fun p => of_Z (snd p);
       Histogram.spaceBetweenCharts := of_Z 10;
       Histogram.minZoomUnit := of_Z 2;
       Histogram.renderPlayButton := true |} in
  lt (Histogram.height nextProps) (of_Z 150) = false
  /\ eq_num (Histogram.size_width (Histogram.props Sample.this0))
            (Histogram.size_width nextProps) = false
  /\ exists this',
       Histogram.receive (calendar := Sample.calendar) nextProps Sample.this0 = Ok this'
       /\ D3.range (Histogram.densityChartXScale this') = (zero, of_Z 740)
       /\ D3.extent (Histogram.zoom this') = ((zero, zero), (of_Z 790, of_Z 105)).
Proof.
  split; [reflexivity|]. split; [reflexivity|].
  match goal with
  | |- exists this', Histogram.receive ?q _ = _ /\ _ =>
      destruct (@resize_rebuilds_scale_and_zoom _ Sample.calendar q Sample.this0
                  eq_refl eq_refl) as [this' [E [_ [Hrange [Hextent _]]]]]
  end.
  exists this'. split; [exact E|]. split; [exact Hrange | exact Hextent].
Defined.

(** X5: an update that changes neither the width nor the data (same
    length, equal by the accessors) rebuilds nothing: the overview scale,
    the zoom with its scale extent, the histogram's scales and the bars are
    those from before, whatever else the new props change (minZoomUnit,
    defaultBarCount, the play button). *)
Theorem unchanged_width_and_data_keep_zoom
    (P : Type) (calendar : D3.Scaling) (nextProps : Histogram.Props P)
    (this : Histogram.Instance P) :
  lt (Histogram.height nextProps) (of_Z 150) = false ->
  eq_num (Histogram.size_width (Histogram.props this)) (Histogram.size_width nextProps)
  = true ->
  List.length (Histogram.data (Histogram.props this))
  = List.length (Histogram.data nextProps) ->
  Utils.isHistogramDataEqual (Histogram.xAccessor nextProps)
    (fun p => VNum (Histogram.yAccessor nextProps p))
    (Histogram.data (Histogram.props this)) (Some (Histogram.data nextProps)) = true ->
  exists this',
    Histogram.receive nextProps this = Ok this'
    /\ Histogram.props this' = nextProps
    /\ Histogram.zoom this' = Histogram.zoom this
    /\ Histogram.densityChartXScale this' = Histogram.densityChartXScale this
    /\ Histogram.histogramChartXScale this' = Histogram.histogramChartXScale this
    /\ Histogram.histogramChartYScale this' = Histogram.histogramChartYScale this
    /\ Histogram.timeHistogramBars (Histogram.state this')
       = Histogram.timeHistogramBars (Histogram.state this).
Proof.
  intros Hheight Hwidth Hlength Hequal.
  destruct (receive_cases nextProps this Hheight) as [this' [E [_ [_ [_ Hcase]]]]].
  unfold Lifecycle.rebuilds in Hcase. rewrite Hwidth, Hlength, Nat.eqb_refl, Hequal in Hcase.
  cbn [negb orb] in Hcase. subst this'.
  eexists. split; [exact E|]. repeat split.
Qed.

Lemma unchanged_width_and_data_keep_zoom_witness :
  let nextProps :=
    {| Histogram.data := Sample.data0;
       Histogram.size_width := of_Z 500;
       Histogram.height := of_Z 300;
       Histogram.defaultBarCount := of_Z 4;
       Histogram.xAccessor := fun p => VNum (of_Z (fst p));
       Histogram.yAccessor := fun p => of_Z (snd p);
       Histogram.spaceBetweenCharts := of_Z 10;
       Histogram.minZoomUnit := of_Z 2;
       Histogram.renderPlayButton := false |} in
  lt (Histogram.height nextProps) (of_Z 150) = false
  /\ eq_num (Histogram.size_width (Histogram.props Sample.this0))
            (Histogram.size_width nextProps) = true
  /\ List.length (Histogram.data (Histogram.props Sample.this0))
     = List.length (Histogram.data nextProps)
  /\ Utils.isHistogramDataEqual (Histogram.xAccessor nextProps)
       (fun p => VNum (Histogram.yAccessor nextProps p))
       (Histogram.data (Histogram.props Sample.this0))
       (Some (Histogram.data nextProps)) = true
  /\ exists this',
       Histogram.receive (calendar := Sample.calendar) nextProps Sample.this0 = Ok this'
       /\ Histogram.minZoomUnit (Histogram.props this') = of_Z 2
       /\ Histogram.zoom this' = Histogram.zoom Sample.this0.
Proof.
  repeat (split; [reflexivity|]).
  match goal with
  | |- exists this', Histogram.receive ?q _ = _ /\ _ =>
      destruct (@unchanged_width_and_data_keep_zoom _ Sample.calendar q Sample.this0
                  eq_refl eq_refl eq_refl eq_refl) as [this' [E [Hprops [Hzoom _]]]]
  end.
  exists this'. split; [exact E|]. split; [rewrite Hprops; reflexivity | exact Hzoom].
Defined.

(** ** Gestures *)

Lemma made_date_differs (n m : nat) (time : number) (v : value) :
  Lifecycle.older n v = true -> n <= m ->
  strict_neq (VDate {| ref := made m; getTime := time |}) v = true.
Proof.
  intros Holder Hle. destruct v as [| |d]; try reflexivity.
  unfold strict_neq. cbn. cbn in Holder. destruct (ref d) as [k|k]; [reflexivity|].
  cbn. apply Nat.ltb_lt in Holder.
  destruct (Nat.eqb_spec m k); [lia | reflexivity].
Qed.

Section GestureFacts.
Context {P : Type} {calendar : D3.Scaling}.

(** The window-change path makes no Date and leaves the props, the
    stored data, the layout, the zoom and the overview scale alone. *)
Lemma window_change_keeps (this this' : Histogram.Instance P) (window : Date * Date)
    (calls : list Histogram.Call) :
  Histogram._updateBrushedDomainAndReRenderTheHistogramPlot this window
  = Ok (this', calls) ->
  Histogram.made_dates this' = Histogram.made_dates this
  /\ Histogram.props this' = Histogram.props this
  /\ Histogram.zoom this' = Histogram.zoom this
  /\ Histogram.densityChartXScale this' = Histogram.densityChartXScale this.
Proof.
  destruct window as [brushed0 brushed1].
  unfold Histogram._updateBrushedDomainAndReRenderTheHistogramPlot.
  destruct (strict_neq _ _ && strict_neq _ _).
  - match goal with
    | |- context [Histogram._updateHistogramChartScales ?t] =>
        destruct (update_scales_total t)
          as [that [E [Hprops [_ [_ [Hscale [Hzoom [Hdates _]]]]]]]]
    end.
    rewrite E. cbn [Histogram.bind]. intros [= <- _]. repeat split; assumption.
  - intros [= <- _]. repeat split.
Qed.

(** A window of two Dates made on the spot is always stored and
    notified. *)
Lemma fresh_window_is_stored (this : Histogram.Instance P) (time0 time1 : number) :
  Lifecycle.dates_older this = true ->
  let n := Histogram.made_dates this in
  let brushed0 := {| ref := made n; getTime := time0 |} in
  let brushed1 := {| ref := made (S n); getTime := time1 |} in
  let full := D3.domain (Histogram.densityChartXScale this) in
  exists this',
    Histogram._updateBrushedDomainAndReRenderTheHistogramPlot
      (snd (Histogram.new_Date time1 (snd (Histogram.new_Date time0 this))))
      (brushed0, brushed1)
    = Ok (this', [Histogram.onIntervalChange (time0, time1)
                    (eq_num (fst full) time0 && eq_num (snd full) time1)])
    /\ Histogram.brushDomain (Histogram.state this')
       = {| Histogram.min := VDate brushed0; Histogram.max := VDate brushed1 |}
    /\ Histogram.made_dates this' = S (S n)
    /\ Histogram.props this' = Histogram.props this
    /\ Histogram.zoom this' = Histogram.zoom this
    /\ Histogram.densityChartXScale this' = Histogram.densityChartXScale this
    /\ Lifecycle.dates_older this' = true.
Proof.
  intros Holder n brushed0 brushed1 full.
  apply andb_true_iff in Holder as [Hmin Hmax].
  set (that := snd (Histogram.new_Date time1 (snd (Histogram.new_Date time0 this)))).
  destruct (window_change_cases that (brushed0, brushed1)) as [this' [calls [E H]]].
  cbn [fst snd] in H.
  change (Histogram.brushDomain (Histogram.state that))
    with (Histogram.brushDomain (Histogram.state this)) in H.
  change (Histogram.densityChartXScale that) with (Histogram.densityChartXScale this) in H.
  assert (strict_neq (VDate brushed0)
            (Histogram.min (Histogram.brushDomain (Histogram.state this))) = true) as D0
    by (apply made_date_differs with (n := n); [exact Hmin | lia]).
  assert (strict_neq (VDate brushed1)
            (Histogram.max (Histogram.brushDomain (Histogram.state this))) = true) as D1
    by (apply made_date_differs with (n := n); [exact Hmax | lia]).
  rewrite D0, D1 in H.
  cbn [andb] in H. destruct H as [-> [Hdomain _]].
  destruct (window_change_keeps _ _ E) as [Hdates [Hprops [Hzoom Hscale]]].
  exists this'. split; [exact E|]. repeat split; try assumption.
  unfold Lifecycle.dates_older. rewrite Hdomain, Hdates.
  cbn [Histogram.min Histogram.max Lifecycle.older ref brushed0 brushed1
       Histogram.made_dates Histogram.new_Date snd that].
  apply andb_true_iff. split; apply Nat.ltb_lt; subst n; lia.
Qed.
End GestureFacts.

Section HandlerFacts.
Context {P : Type} {calendar : D3.Scaling}.

(** A zoom event that no brush caused: the rescaled domain is stored in
    two new Dates and notified. *)
Lemma zoom_handled (this : Histogram.Instance P) (d3Event : Event.Zoom) :
  Event.caused_by (Event.zoom_sourceEvent d3Event) "brush" = false ->
  Lifecycle.dates_older this = true ->
  let times := D3.rescaleX (Event.transform d3Event) (Histogram.densityChartXScale this) in
  let full := D3.domain (Histogram.densityChartXScale this) in
  exists this',
    Histogram._onResizeZoom this d3Event
    = Ok (this', [Histogram.onIntervalChange (fst times, snd times)
                    (eq_num (fst full) (fst times) && eq_num (snd full) (snd times))])
    /\ Histogram.brushDomain (Histogram.state this')
       = {| Histogram.min :=
              VDate {| ref := made (Histogram.made_dates this); getTime := fst times |};
            Histogram.max :=
              VDate {| ref := made (S (Histogram.made_dates this));
                       getTime := snd times |} |}
    /\ Histogram.densityChartXScale this' = Histogram.densityChartXScale this
    /\ Lifecycle.dates_older this' = true.
Proof.
  intros Hsource Holder times full.
  destruct (fresh_window_is_stored this (fst times) (snd times) Holder)
    as [this' [E [Hdomain [_ [_ [_ [Hscale Holder']]]]]]].
  exists this'. unfold Histogram._onResizeZoom. rewrite Hsource.
  split; [exact E|]. repeat split; assumption.
Qed.

(** A brush selection handed to the histogram: the zoom is given its
    transform, then the selection, taken back through the overview scale,
    is stored in two new Dates and notified. *)
Lemma selection_handled (this : Histogram.Instance P) (brushSelection : number * number) :
  Lifecycle.dates_older this = true ->
  let scale := Histogram.densityChartXScale this in
  let time0 := D3.invert scale (fst brushSelection) in
  let time1 := D3.invert scale (snd brushSelection) in
  exists this',
    Histogram._onDensityChartDomainChanged this brushSelection
    = Ok (this',
          [Histogram.zoom_transform
             (div (Histogram.dc_width
                     (Histogram.densityChartDimensions (Histogram.state this)))
                  (sub (snd brushSelection) (fst brushSelection)))
             (neg (fst brushSelection)) zero;
           Histogram.onIntervalChange (time0, time1)
             (eq_num (fst (D3.domain scale)) time0
              && eq_num (snd (D3.domain scale)) time1)])
    /\ Histogram.brushDomain (Histogram.state this')
       = {| Histogram.min :=
              VDate {| ref := made (Histogram.made_dates this); getTime := time0 |};
            Histogram.max :=
              VDate {| ref := made (S (Histogram.made_dates this)); getTime := time1 |} |}
    /\ Histogram.densityChartXScale this' = scale
    /\ Lifecycle.dates_older this' = true.
Proof.
  intros Holder scale time0 time1. destruct brushSelection as [pixelMin pixelMax].
  destruct (fresh_window_is_stored this time0 time1 Holder)
    as [this' [E [Hdomain [_ [_ [_ [Hscale Holder']]]]]]].
  exists this'. unfold Histogram._onDensityChartDomainChanged.
  cbn [Histogram.new_Date fst snd Histogram.densityChartXScale Histogram.state] in *.
  split.
  - match goal with
    | |- Histogram.bind ?e _ = _ => replace e with
        (Ok (this', [Histogram.onIntervalChange (time0, time1)
                       (eq_num (fst (D3.domain scale)) time0
                        && eq_num (snd (D3.domain scale)) time1)]))
    end.
    reflexivity.
  - repeat split; assumption.
Qed.

End HandlerFacts.

(** X6: a zoom event that no brush caused always changes the window, as
    long as the stored bounds are not Dates the component has yet to make:
    the domain of the rescaled overview scale is stored in two new Dates,
    and the caller is notified once, with its bounds and the flag that
    compares them with the overview scale's domain. *)
Theorem zoom_event_stores_rescaled_domain
    (P : Type) (calendar : D3.Scaling) (this : Histogram.Instance P)
    (d3Event : Event.Zoom) :
  Event.caused_by (Event.zoom_sourceEvent d3Event) "brush" = false ->
  Lifecycle.dates_older this = true ->
  let times := D3.rescaleX (Event.transform d3Event) (Histogram.densityChartXScale this) in
  let full := D3.domain (Histogram.densityChartXScale this) in
  exists this' brushed0 brushed1,
    Histogram._onResizeZoom this d3Event
    = Ok (this', [Histogram.onIntervalChange times
                    (eq_num (fst full) (fst times) && eq_num (snd full) (snd times))])
    /\ Histogram.brushDomain (Histogram.state this')
       = {| Histogram.min := VDate brushed0; Histogram.max := VDate brushed1 |}
    /\ (getTime brushed0, getTime brushed1) = times
    /\ Lifecycle.dates_older this' = true.
Proof.
  intros Hsource Holder times full.
  destruct (zoom_handled this d3Event Hsource Holder)
    as [this' [E [Hdomain [_ Holder']]]].
  exists this'. do 2 eexists. fold times in E, Hdomain.
  rewrite <- surjective_pairing in E.
  split; [exact E|]. split; [exact Hdomain|]. split; [|exact Holder'].
  cbn. symmetry. apply surjective_pairing.
Qed.

Lemma zoom_event_stores_rescaled_domain_witness :
  let d3Event := Sample.zoom_event None Scene.double in
  Event.caused_by (Event.zoom_sourceEvent d3Event) "brush" = false
  /\ Lifecycle.dates_older Sample.this0 = true
  /\ exists this' brushed0 brushed1 isFullDomain,
       Histogram._onResizeZoom (calendar := Sample.calendar) Sample.this0 d3Event
       = Ok (this', [Histogram.onIntervalChange
                       (D3.rescaleX (Scaling := Sample.calendar) Scene.double
                          (Histogram.densityChartXScale Sample.this0))
                       isFullDomain])
       /\ Histogram.brushDomain (Histogram.state this')
          = {| Histogram.min := VDate brushed0; Histogram.max := VDate brushed1 |}.
Proof.
  split; [reflexivity|]. split; [reflexivity|].
  destruct (@zoom_event_stores_rescaled_domain _ Sample.calendar Sample.this0
              (Sample.zoom_event None Scene.double) eq_refl eq_refl)
    as [this' [brushed0 [brushed1 [E [Hdomain _]]]]].
  exists this', brushed0, brushed1. eexists. split; [exact E | exact Hdomain].
Defined.

(** ** The handlers inside one another *)

Lemma older_mono (n m : nat) (v : value) :
  Lifecycle.older n v = true -> n <= m -> Lifecycle.older m v = true.
Proof.
  intros H Hle. destruct v as [| |d]; try reflexivity. cbn in *.
  destruct (ref d); [reflexivity|]. apply Nat.ltb_lt in H. apply Nat.ltb_lt. lia.
Qed.

Section WiredFacts.
Context {P : Type} {calendar : D3.Scaling} {brush : Wired.Brushing}.

Lemma update_scales_keeps_layout (this this' : Histogram.Instance P) :
  Histogram._updateHistogramChartScales this = Ok this' ->
  Histogram.densityChartDimensions (Histogram.state this')
  = Histogram.densityChartDimensions (Histogram.state this).
Proof.
  unfold Histogram._updateHistogramChartScales.
  destruct (D3.histogram _ _ _ _) as [bins|e]; cbn [Histogram.bind]; [|discriminate].
  intros [= <-]. reflexivity.
Qed.

(** A window of two Dates other than the stored ones is stored, and the
    caller is notified; the settings stay and no Date is made. *)
Lemma other_window_is_stored (this : Histogram.Instance P) (brushed0 brushed1 : Date) :
  strict_neq (VDate brushed0)
    (Histogram.min (Histogram.brushDomain (Histogram.state this))) = true ->
  strict_neq (VDate brushed1)
    (Histogram.max (Histogram.brushDomain (Histogram.state this))) = true ->
  exists this',
    Histogram._updateBrushedDomainAndReRenderTheHistogramPlot this (brushed0, brushed1)
    = Ok (this', [Histogram.onIntervalChange (getTime brushed0, getTime brushed1)
                    (Lifecycle.is_full (Histogram.densityChartXScale this)
                       (getTime brushed0, getTime brushed1))])
    /\ Histogram.brushDomain (Histogram.state this')
       = {| Histogram.min := VDate brushed0; Histogram.max := VDate brushed1 |}
    /\ Histogram.made_dates this' = Histogram.made_dates this
    /\ Lifecycle.same_settings this this'.
Proof.
  intros D0 D1.
  destruct (window_change_cases this (brushed0, brushed1)) as [this' [calls [E H]]].
  cbn [fst snd] in H. rewrite D0, D1 in H. cbn [andb] in H.
  destruct H as [-> [Hdomain _]].
  destruct (window_change_keeps _ _ E) as [Hdates [Hprops [Hzoom Hscale]]].
  exists this'. split; [exact E|]. split; [exact Hdomain|]. split; [exact Hdates|].
  repeat split; try assumption.
  revert E. unfold Histogram._updateBrushedDomainAndReRenderTheHistogramPlot.
  rewrite D0, D1. cbn [andb].
  match goal with
  | |- context [Histogram._updateHistogramChartScales ?t] =>
      destruct (Histogram._updateHistogramChartScales t) as [that|e] eqn:Eu
  end; cbn [Histogram.bind]; [|discriminate].
  intros [= <-]. rewrite (update_scales_keeps_layout _ Eu). reflexivity.
Qed.

Lemma same_settings_refl (this : Histogram.Instance P) : Lifecycle.same_settings this this.
Proof. repeat split. Qed.

Lemma same_settings_trans (this this' this'' : Histogram.Instance P) :
  Lifecycle.same_settings this this' -> Lifecycle.same_settings this' this'' ->
  Lifecycle.same_settings this this''.
Proof.
  intros [H1 [H2 [H3 H4]]] [K1 [K2 [K3 K4]]].
  repeat split; etransitivity; eassumption.
Qed.

(** A stored window of Dates made before the count is older. *)
Lemma window_is_older (this : Histogram.Instance P) (n : nat) (times : number * number) :
  Lifecycle.window_of this n times -> S (S n) <= Histogram.made_dates this ->
  Lifecycle.dates_older this = true.
Proof.
  unfold Lifecycle.window_of, Lifecycle.dates_older. intros -> Hle.
  cbn [Histogram.min Histogram.max Lifecycle.older ref].
  apply andb_true_iff. split; apply Nat.ltb_lt; lia.
Qed.

(** The zoom listener on an event that no brush event of type "brush"
    caused: the rescaled domain is stored in two new Dates and notified. *)
Lemma zoom_listener_acts (this : Histogram.Instance P) (d3Event : Event.Zoom) :
  Event.caused_by (Event.zoom_sourceEvent d3Event) "brush" = false ->
  Lifecycle.dates_older this = true ->
  let scale := Histogram.densityChartXScale this in
  let times := D3.rescaleX (Event.transform d3Event) scale in
  exists this',
    Histogram._onResizeZoom this d3Event
    = Ok (this', [Histogram.onIntervalChange times (Lifecycle.is_full scale times)])
    /\ Lifecycle.window_of this' (Histogram.made_dates this) times
    /\ Histogram.made_dates this' = S (S (Histogram.made_dates this))
    /\ Lifecycle.same_settings this this'.
Proof.
  intros Hsource Holder scale times.
  apply andb_true_iff in Holder as [Hmin Hmax].
  unfold Histogram._onResizeZoom. rewrite Hsource. cbn [Histogram.new_Date].
  fold scale. fold times.
  match goal with
  | |- context [Histogram._updateBrushedDomainAndReRenderTheHistogramPlot ?t (?d0, ?d1)] =>
      destruct (@other_window_is_stored t d0 d1) as [this' [E [Hdomain [Hdates Hsame]]]]
  end.
  - apply made_date_differs with (n := Histogram.made_dates this); [exact Hmin | cbn; lia].
  - apply made_date_differs with (n := Histogram.made_dates this); [exact Hmax | cbn; lia].
  - exists this'. cbn [getTime Histogram.densityChartXScale] in E. fold scale in E.
    rewrite <- surjective_pairing in E.
    split; [exact E|]. split; [exact Hdomain|]. split; [exact Hdates | exact Hsame].
Qed.

(** The histogram's handler of a brush selection, with the zoom in place:
    the zoom is transformed; its listener stays out of it when the event
    being handled is of type "brush" and otherwise stores and notifies the
    rescaled domain; then the selection, taken back through the overview
    scale, is stored in the two Dates made first and notified. *)
Lemma domain_changed_cases (this : Histogram.Instance P)
    (current : option Event.SourceEvent) (brushSelection : number * number) :
  Lifecycle.dates_older this = true ->
  let scale := Histogram.densityChartXScale this in
  let k := div (Histogram.dc_width (Histogram.densityChartDimensions (Histogram.state this)))
               (sub (snd brushSelection) (fst brushSelection)) in
  let times := (D3.invert scale (fst brushSelection), D3.invert scale (snd brushSelection)) in
  let rescaled :=
    D3.rescaleX (Wired.scale_translate k (neg (fst brushSelection)) zero) scale in
  exists this',
    Wired._onDensityChartDomainChanged this current brushSelection
    = Ok (this',
          Histogram.zoom_transform k (neg (fst brushSelection)) zero
            :: (if Event.caused_by current "brush" then []
                else [Histogram.onIntervalChange rescaled
                        (Lifecycle.is_full scale rescaled)])
            ++ [Histogram.onIntervalChange times (Lifecycle.is_full scale times)])
    /\ Lifecycle.window_of this' (Histogram.made_dates this) times
    /\ Histogram.made_dates this'
       = (if Event.caused_by current "brush" then 2 else 4) + Histogram.made_dates this
    /\ Lifecycle.same_settings this this'.
Proof.
  intros Holder scale k times rescaled. destruct brushSelection as [pixelMin pixelMax].
  cbn [fst snd] in *.
  unfold Wired._onDensityChartDomainChanged, Wired.zoom_transform.
  cbn [Histogram.new_Date Histogram.densityChartXScale Histogram.state Histogram.props
       Histogram.zoom Histogram.histogramChartXScale Histogram.histogramChartYScale
       Histogram.made_dates].
  fold scale. fold k.
  set (n := Histogram.made_dates this).
  set (that := {| Histogram.props := Histogram.props this;
                  Histogram.state := Histogram.state this;
                  Histogram.densityChartXScale := scale;
                  Histogram.zoom := Histogram.zoom this;
                  Histogram.histogramChartXScale := Histogram.histogramChartXScale this;
                  Histogram.histogramChartYScale := Histogram.histogramChartYScale this;
                  Histogram.made_dates := S (S n) |}).
  assert (Lifecycle.same_settings this that) as Hthat by (repeat split).
  pose proof Holder as Holder0. apply andb_true_iff in Holder0 as [Hmin Hmax].
  destruct (Event.caused_by current "brush") eqn:Hsource.
  - unfold Histogram._onResizeZoom. cbn [Event.zoom_sourceEvent]. rewrite Hsource.
    cbn [Histogram.bind fst snd app].
    destruct (@other_window_is_stored that
                {| ref := made n; getTime := fst times |}
                {| ref := made (S n); getTime := snd times |})
      as [this' [E [Hdomain [Hdates Hsame]]]].
    + apply made_date_differs with (n := n); [exact Hmin | lia].
    + apply made_date_differs with (n := n); [exact Hmax | lia].
    + exists this'. cbn [getTime fst snd times] in E. rewrite E.
      cbn [Histogram.bind fst snd app]. split; [reflexivity|].
      split; [exact Hdomain|]. split; [exact Hdates|].
      exact (same_settings_trans Hthat Hsame).
  - assert (Lifecycle.dates_older that = true) as Holder1.
    { apply andb_true_iff. split.
      - apply older_mono with (n := n); [exact Hmin | cbn; lia].
      - apply older_mono with (n := n); [exact Hmax | cbn; lia]. }
    destruct (@zoom_listener_acts that
                {| Event.zoom_sourceEvent := current;
                   Event.transform :=
                     Wired.scale_translate k (neg pixelMin) zero |} Hsource Holder1)
      as [zoomed [Ez [Hwindow [Hdates Hsame]]]].
    cbn [Event.transform Histogram.densityChartXScale that] in Ez. fold rescaled in Ez.
    rewrite Ez. cbn [Histogram.bind fst snd].
    destruct (@other_window_is_stored zoomed
                {| ref := made n; getTime := fst times |}
                {| ref := made (S n); getTime := snd times |})
      as [this' [E [Hdomain [Hdates' Hsame']]]].
    + rewrite Hwindow. cbn [Histogram.min Histogram.made_dates that].
      unfold strict_neq. cbn. destruct (Nat.eqb_spec n (S (S n))); [lia | reflexivity].
    + rewrite Hwindow. cbn [Histogram.max Histogram.made_dates that].
      unfold strict_neq. cbn. destruct (Nat.eqb_spec n (S (S n))); [lia | reflexivity].
    + exists this'. cbn [getTime fst snd times] in E.
      pose proof (proj1 (proj2 Hsame)) as Hscale.
      cbn [Histogram.densityChartXScale that] in Hscale.
      rewrite Hscale in E. rewrite E.
      cbn [Histogram.bind fst snd app]. split; [reflexivity|].
      split; [exact Hdomain|]. split.
      * rewrite Hdates', Hdates. reflexivity.
      * exact (same_settings_trans Hthat (same_settings_trans Hsame Hsame')).
Qed.


(** Moving the brush, one level down: the "brush" and then the "end"
    event at the density chart's listener. *)
Lemma move_brush_emits (depth : nat) (this : Histogram.Instance P)
    (current : option Event.SourceEvent) (domain : number * number) :
  Wired._moveBrush (S depth) this current domain
  = let d3Event := {| Event.brush_sourceEvent := current;
                      Event.selection := Wired.moved_selection domain |} in
    Wired.and_then (Wired._onResizeBrush depth this "brush" d3Event)
                   (fun this => Wired._onResizeBrush depth this "end" d3Event).
Proof. reflexivity. Qed.

(** A brush event with a selection that no zoom event caused: the
    listener hands the selection to the histogram, whose zoom listener is
    kept out by the type "brush" only. *)
Lemma selection_event (depth : nat) (this : Histogram.Instance P) (type : string)
    (source : option Event.SourceEvent) (selection : number * number) :
  Event.caused_by source "zoom" = false ->
  Lifecycle.dates_older this = true ->
  let scale := Histogram.densityChartXScale this in
  let k := div (Histogram.dc_width (Histogram.densityChartDimensions (Histogram.state this)))
               (sub (snd selection) (fst selection)) in
  let times := (D3.invert scale (fst selection), D3.invert scale (snd selection)) in
  let rescaled := D3.rescaleX (Wired.scale_translate k (neg (fst selection)) zero) scale in
  exists this',
    Wired._onResizeBrush depth this type
      {| Event.brush_sourceEvent := source; Event.selection := Some selection |}
    = Some (Ok (this',
                Histogram.zoom_transform k (neg (fst selection)) zero
                  :: (if String.eqb type "brush" then []
                      else [Histogram.onIntervalChange rescaled
                              (Lifecycle.is_full scale rescaled)])
                  ++ [Histogram.onIntervalChange times (Lifecycle.is_full scale times)]))
    /\ Lifecycle.window_of this' (Histogram.made_dates this) times
    /\ Histogram.made_dates this'
       = (if String.eqb type "brush" then 2 else 4) + Histogram.made_dates this
    /\ Lifecycle.same_settings this this'.
Proof.
  intros Hsource Holder scale k times rescaled.
  destruct (domain_changed_cases this (Some {| Event.type := type |}) selection Holder)
    as [this' [E H]].
  exists this'. split; [|exact H].
  unfold Wired._onResizeBrush, DensityChart._onResizeBrush.
  cbn [Event.brush_sourceEvent Event.selection]. rewrite Hsource.
  cbn [Wired.serve]. rewrite E. cbn [Wired.and_then Event.caused_by Event.type].
  rewrite app_nil_r. reflexivity.
Qed.

(** A brush event without selection that no zoom event caused, of type
    "end", while the overview's range is not empty: the brush is moved
    over the whole range, which brings a "brush" and an "end" event with
    that range, and then the range is handed to the histogram. *)
Lemma cleared_event (depth : nat) (this : Histogram.Instance P)
    (source : option Event.SourceEvent) :
  Event.caused_by source "zoom" = false ->
  Lifecycle.dates_older this = true ->
  Lifecycle.wide this = true ->
  let scale := Histogram.densityChartXScale this in
  let range := D3.range scale in
  let k := div (Histogram.dc_width (Histogram.densityChartDimensions (Histogram.state this)))
               (sub (snd range) (fst range)) in
  let times := (D3.invert scale (fst range), D3.invert scale (snd range)) in
  let rescaled := D3.rescaleX (Wired.scale_translate k (neg (fst range)) zero) scale in
  let transformed := Histogram.zoom_transform k (neg (fst range)) zero in
  let whole := Histogram.onIntervalChange times (Lifecycle.is_full scale times) in
  let zoomed := Histogram.onIntervalChange rescaled (Lifecycle.is_full scale rescaled) in
  exists this',
    Wired._onResizeBrush (S depth) this "end"
      {| Event.brush_sourceEvent := source; Event.selection := None |}
    = Some (Ok (this', [transformed; whole;
                        transformed; zoomed; whole;
                        transformed; zoomed; whole]))
    /\ Lifecycle.window_of this' (6 + Histogram.made_dates this) times
    /\ Histogram.made_dates this' = 10 + Histogram.made_dates this
    /\ Lifecycle.same_settings this this'.
Proof.
  intros Hsource Holder Hwide scale range k times rescaled transformed whole zoomed.
  unfold Wired._onResizeBrush, DensityChart._onResizeBrush.
  cbn [Event.brush_sourceEvent Event.selection Histogram.render_DensityChart
       DensityChart.densityChartXScale].
  rewrite Hsource. fold scale. fold range. cbn [Wired.serve].
  rewrite move_brush_emits. cbv zeta.
  assert (Wired.moved_selection range = Some range) as ->.
  { apply Wired.moved_selection_wide. unfold Lifecycle.wide in Hwide.
    apply negb_true_iff in Hwide. exact Hwide. }
  destruct (@selection_event depth this "brush" (Some {| Event.type := "end" |}) range
              eq_refl Holder) as [this1 [E1 [W1 [D1 S1]]]].
  change (String.eqb "brush" "brush") with true in E1, D1. cbv iota in E1, D1.
  fold scale in E1, W1. fold range in E1, W1. fold k in E1. fold times in E1, W1.
  rewrite E1. cbn [Wired.and_then].
  assert (Lifecycle.dates_older this1 = true) as Holder1
    by (apply (window_is_older W1); lia).
  destruct (@selection_event depth this1 "end" (Some {| Event.type := "end" |}) range
              eq_refl Holder1) as [this2 [E2 [W2 [D2 S2]]]].
  change (String.eqb "end" "brush") with false in E2, D2. cbv iota in E2, D2.
  destruct S1 as [P1 [X1 [Z1 L1]]].
  rewrite X1 in E2, W2. rewrite L1 in E2. fold scale in E2, W2. fold range in E2, W2.
  fold k in E2. fold times in E2, W2. fold rescaled in E2.
  rewrite E2. cbn [Wired.and_then].
  assert (Lifecycle.dates_older this2 = true) as Holder2
    by (apply (window_is_older W2); lia).
  destruct (domain_changed_cases this2 (Some {| Event.type := "end" |}) range Holder2)
    as [this3 [E3 [W3 [D3 S3]]]].
  change (Event.caused_by (Some {| Event.type := "end" |}) "brush") with false in E3, D3.
  cbv iota in E3, D3.
  destruct S2 as [P2 [X2 [Z2 L2]]].
  rewrite X2, X1 in E3, W3. rewrite L2, L1 in E3. fold scale in E3, W3.
  fold range in E3, W3. fold k in E3. fold times in E3, W3. fold rescaled in E3.
  rewrite E3. cbn [Wired.and_then app].
  exists this3. split; [reflexivity|].
  split; [rewrite D2, D1 in W3; exact W3|]. split; [lia|].
  destruct S3 as [P3 [X3 [Z3 L3]]].
  repeat split; congruence.
Qed.
End WiredFacts.

(** C2: the two guards keep out the events they name: the zoom listener
    does nothing on a zoom event whose source is of type "brush", and the
    brush listener nothing on a brush event whose source is of type "zoom".
    But the brush listener is bound to the brush's "end" event too.  When
    the user lets go of the brush, the zoom event that transforming the zoom
    raises has that "end" event as its source, and the zoom listener acts on
    it: it stores the rescaled domain and notifies the caller, before the
    brush's own window is stored and notified. *)
Theorem brush_end_reaches_the_zoom_listener
    (P : Type) (calendar : D3.Scaling) (brush : Wired.Brushing) (depth : nat)
    (this : Histogram.Instance P) (native : Wired.Native)
    (selection : number * number) :
  Lifecycle.dates_older this = true ->
  let scale := Histogram.densityChartXScale this in
  let k := div (Histogram.dc_width (Histogram.densityChartDimensions (Histogram.state this)))
               (sub (snd selection) (fst selection)) in
  let times := (D3.invert scale (fst selection), D3.invert scale (snd selection)) in
  let rescaled := D3.rescaleX (Wired.scale_translate k (neg (fst selection)) zero) scale in
  (exists this',
     Wired.deliver depth this (Wired.brush_ended native (Some selection))
     = Some (Ok (this',
                 [Histogram.zoom_transform k (neg (fst selection)) zero;
                  Histogram.onIntervalChange rescaled (Lifecycle.is_full scale rescaled);
                  Histogram.onIntervalChange times (Lifecycle.is_full scale times)])))
  /\ (forall d3Event : Event.Zoom,
        Event.caused_by (Event.zoom_sourceEvent d3Event) "brush" = true ->
        Histogram._onResizeZoom this d3Event = Ok (this, []))
  /\ (forall (type : string) (d3Event : Event.Brush),
        Event.caused_by (Event.brush_sourceEvent d3Event) "zoom" = true ->
        Wired._onResizeBrush depth this type d3Event = Some (Ok (this, []))).
Proof.
  intros Holder scale k times rescaled. split; [|split].
  - destruct (@selection_event _ _ _ depth this "end"
                (Some {| Event.type := Wired.dom_type native |}) selection)
      as [this' [E _]]; [destruct native; reflexivity | exact Holder |].
    exists this'. exact E.
  - intros d3Event Hsource. unfold Histogram._onResizeZoom. rewrite Hsource. reflexivity.
  - intros type d3Event Hsource.
    unfold Wired._onResizeBrush, DensityChart._onResizeBrush. rewrite Hsource. reflexivity.
Qed.

Lemma brush_end_reaches_the_zoom_listener_witness :
  Lifecycle.dates_older Sample.this0 = true
  /\ exists this' rescaled times,
       Wired.deliver (calendar := Sample.calendar) (brush := Scene.brushing) 0 Sample.this0
         (Wired.brush_ended Wired.mouseup (Some Scene.right_half))
       = Some (Ok (this',
                   [Histogram.zoom_transform (div (of_Z 440) (sub (of_Z 440) (of_Z 220)))
                      (neg (of_Z 220)) zero;
                    Histogram.onIntervalChange rescaled false;
                    Histogram.onIntervalChange times false]))
       /\ Lifecycle.same_times rescaled (of_Z 5, of_Z 10)
       /\ Lifecycle.same_times times (of_Z 5, of_Z 10).
Proof.
  split; [reflexivity|].
  destruct (proj1 (@brush_end_reaches_the_zoom_listener _ Sample.calendar Scene.brushing 0
                     Sample.this0 Wired.mouseup Scene.right_half eq_refl))
    as [this' E].
  exists this'. do 2 eexists. split; [exact E|]. split; split; reflexivity.
Defined.

(** C4: the guard of the window-change path compares Date objects, and
    both callers make new ones for every event.  A window with the very
    bounds of the stored one is therefore stored and notified again: the
    same zoom event handled twice in succession notifies twice, with the
    same bounds and the same flag. *)
Theorem identical_window_is_notified_again
    (P : Type) (calendar : D3.Scaling) (this : Histogram.Instance P)
    (d3Event : Event.Zoom) :
  Event.caused_by (Event.zoom_sourceEvent d3Event) "brush" = false ->
  Lifecycle.dates_older this = true ->
  let scale := Histogram.densityChartXScale this in
  let times := D3.rescaleX (Event.transform d3Event) scale in
  let notification := Histogram.onIntervalChange times (Lifecycle.is_full scale times) in
  let bounds (this : Histogram.Instance P) :=
    (to_number (Histogram.min (Histogram.brushDomain (Histogram.state this))),
     to_number (Histogram.max (Histogram.brushDomain (Histogram.state this)))) in
  exists this1 this2,
    Histogram._onResizeZoom this d3Event = Ok (this1, [notification])
    /\ bounds this1 = times
    /\ Histogram._onResizeZoom this1 d3Event = Ok (this2, [notification])
    /\ bounds this2 = times.
Proof.
  intros Hsource Holder scale times notification bounds.
  destruct (zoom_listener_acts this d3Event Hsource Holder) as [this1 [E1 [W1 [D1 S1]]]].
  assert (Lifecycle.dates_older this1 = true) as Holder1
    by (apply (window_is_older W1); lia).
  destruct (zoom_listener_acts this1 d3Event Hsource Holder1) as [this2 [E2 [W2 _]]].
  destruct S1 as [_ [X1 _]]. rewrite X1 in E2, W2.
  exists this1, this2. subst bounds. cbv beta. rewrite W1, W2.
  cbn [Histogram.min Histogram.max to_number getTime].
  split; [exact E1|]. split; [symmetry; apply surjective_pairing|].
  split; [exact E2|]. symmetry. apply surjective_pairing.
Qed.

Lemma identical_window_is_notified_again_witness :
  let d3Event := Sample.zoom_event (Some "mousemove"%string) Sample.identity in
  Event.caused_by (Event.zoom_sourceEvent d3Event) "brush" = false
  /\ Lifecycle.dates_older Sample.this0 = true
  /\ exists this1 this2 times,
       Histogram._onResizeZoom (calendar := Sample.calendar) Sample.this0 d3Event
       = Ok (this1, [Histogram.onIntervalChange times true])
       /\ Histogram._onResizeZoom (calendar := Sample.calendar) this1 d3Event
          = Ok (this2, [Histogram.onIntervalChange times true])
       /\ Lifecycle.same_times times (of_Z 0, of_Z 10).
Proof.
  split; [reflexivity|]. split; [reflexivity|].
  destruct (@identical_window_is_notified_again _ Sample.calendar Sample.this0
              (Sample.zoom_event (Some "mousemove"%string) Sample.identity)
              eq_refl eq_refl) as [this1 [this2 [E1 [_ [E2 _]]]]].
  exists this1, this2. eexists. split; [exact E1|]. split; [exact E2|].
  split; reflexivity.
Defined.

Lemma same_eq_num (a b : number) : le a a = true -> same a b -> eq_num a b = true.
Proof.
  destruct a as [| |p|], b as [| |q|]; cbn; try discriminate; try contradiction;
    try reflexivity.
  intros _ H. apply Qeq_bool_iff. exact H.
Qed.

Section ResizeFacts.
Context {P : Type} {calendar : D3.Scaling}.

(** Data that equals the stored data leaves the brush domain alone. *)
Lemma equal_data_keeps_domain (props : Histogram.Props P)
    (previousData : option (list P)) (previous : Histogram.Domain) :
  Utils.isHistogramDataEqual (Histogram.xAccessor props)
    (fun p => VNum (Histogram.yAccessor props p)) (Histogram.data props) previousData
  = true ->
  Histogram.next_brushDomain (Histogram.calculateWidthsAndDomain props previousData previous)
  = None.
Proof.
  intros H. unfold Histogram.calculateWidthsAndDomain.
  destruct (Histogram._calculateChartsPositionsAndSizing props) as [hist dens].
  rewrite H. reflexivity.
Qed.

(** An update that changes the width and not the data: the overview scale
    is rebuilt over the stored brush domain, whatever that is. *)
Lemma resize_rebuilds_over_the_window (nextProps : Histogram.Props P)
    (this : Histogram.Instance P) :
  lt (Histogram.height nextProps) (of_Z 150) = false ->
  eq_num (Histogram.size_width (Histogram.props this)) (Histogram.size_width nextProps)
  = false ->
  Utils.isHistogramDataEqual (Histogram.xAccessor nextProps)
    (fun p => VNum (Histogram.yAccessor nextProps p)) (Histogram.data nextProps)
    (Histogram.state_data (Histogram.state this)) = true ->
  exists resized,
    Histogram.receive nextProps this = Ok resized
    /\ Histogram.brushDomain (Histogram.state resized)
       = Histogram.brushDomain (Histogram.state this)
    /\ Histogram.made_dates resized = Histogram.made_dates this
    /\ Histogram.densityChartXScale resized
       = {| D3.domain :=
              (to_number (Histogram.min (Histogram.brushDomain (Histogram.state this))),
               to_number (Histogram.max (Histogram.brushDomain (Histogram.state this))));
            D3.range :=
              (zero, Histogram.dc_width
                       (snd (Histogram._calculateChartsPositionsAndSizing nextProps))) |}.
Proof.
  intros Hheight Hwidth Hdata.
  destruct (receive_cases nextProps this Hheight) as [resized [E [_ [Hdomain [Hdates H]]]]].
  unfold Lifecycle.rebuilds in H. rewrite Hwidth in H. cbn [negb orb] in H.
  destruct H as [Hscale _].
  pose proof (equal_data_keeps_domain nextProps _
                (Histogram.brushDomain (Histogram.state this)) Hdata) as Hkept.
  exists resized. split; [exact E|].
  cbn [Histogram.merge Histogram.brushDomain] in Hdomain. rewrite Hkept in Hdomain.
  split; [exact Hdomain|]. split; [exact Hdates|].
  rewrite Hscale. unfold Histogram._createScaleAndZoom.
  cbn [fst Histogram.merge Histogram.brushDomain Histogram.densityChartDimensions].
  rewrite Hkept.
  rewrite (proj2 (calculated_layout nextProps
                    (Histogram.state_data (Histogram.state this))
                    (Histogram.brushDomain (Histogram.state this)))).
  reflexivity.
Qed.
End ResizeFacts.

(** C5: the flag compares the new window with the domain of the overview
    scale, which is not always the full domain: an update that changes the
    width, the data staying as it is, rebuilds that scale over the stored
    brush domain, and that is the window of the last gesture.  A zoom event
    that leaves this scale as it is (the identity transform) is then
    notified with the bounds of that window and the flag true, whatever the
    extent of the data. *)
Theorem full_domain_flag_follows_the_stored_window
    (P : Type) (calendar : D3.Scaling) (this : Histogram.Instance P)
    (nextProps : Histogram.Props P) (d3Event : Event.Zoom) :
  let stored := Histogram.brushDomain (Histogram.state this) in
  let window := (to_number (Histogram.min stored), to_number (Histogram.max stored)) in
  let rebuilt :=
    {| D3.domain := window;
       D3.range :=
         (zero, Histogram.dc_width
                  (snd (Histogram._calculateChartsPositionsAndSizing nextProps))) |} in
  lt (Histogram.height nextProps) (of_Z 150) = false ->
  eq_num (Histogram.size_width (Histogram.props this)) (Histogram.size_width nextProps)
  = false ->
  Utils.isHistogramDataEqual (Histogram.xAccessor nextProps)
    (fun p => VNum (Histogram.yAccessor nextProps p)) (Histogram.data nextProps)
    (Histogram.state_data (Histogram.state this)) = true ->
  Lifecycle.dates_older this = true ->
  Lifecycle.comparable (Histogram.min stored) = true ->
  Lifecycle.comparable (Histogram.max stored) = true ->
  Event.caused_by (Event.zoom_sourceEvent d3Event) "brush" = false ->
  Lifecycle.same_times window (D3.rescaleX (Event.transform d3Event) rebuilt) ->
  exists resized this',
    Histogram.receive nextProps this = Ok resized
    /\ Histogram.densityChartXScale resized = rebuilt
    /\ Histogram._onResizeZoom resized d3Event
       = Ok (this', [Histogram.onIntervalChange
                       (D3.rescaleX (Event.transform d3Event) rebuilt) true]).
Proof.
  intros stored window rebuilt Hheight Hwidth Hdata Holder Hmin Hmax Hsource
    [Hsame0 Hsame1].
  destruct (resize_rebuilds_over_the_window nextProps this Hheight Hwidth Hdata)
    as [resized [E [Hdomain [Hdates Hscale]]]].
  fold stored in Hscale. fold window in Hscale. fold rebuilt in Hscale.
  assert (Lifecycle.dates_older resized = true) as Holder'
    by (unfold Lifecycle.dates_older in *; rewrite Hdomain, Hdates; exact Holder).
  destruct (zoom_listener_acts resized d3Event Hsource Holder') as [this' [E' _]].
  rewrite Hscale in E'.
  exists resized, this'. split; [exact E|]. split; [exact Hscale|].
  rewrite E'. unfold Lifecycle.is_full. cbn [D3.domain rebuilt fst snd].
  unfold Lifecycle.comparable, vle in Hmin, Hmax. unfold window in *. cbn [fst snd] in *.
  rewrite (same_eq_num _ _ Hmin Hsame0), (same_eq_num _ _ Hmax Hsame1). reflexivity.
Qed.

Lemma full_domain_flag_follows_the_stored_window_witness :
  let this := Scene.zoomed_in in
  let d3Event := Sample.zoom_event (Some "wheel"%string) Sample.identity in
  let stored := Histogram.brushDomain (Histogram.state this) in
  let window := (to_number (Histogram.min stored), to_number (Histogram.max stored)) in
  (D3.min Sample.data0 (Histogram.xAccessor Scene.resized) = VNum (of_Z 0)
   /\ D3.max Sample.data0 (Histogram.xAccessor Scene.resized) = VNum (of_Z 10)
   /\ Lifecycle.same_times window (of_Z 0, of_Z 5))
  /\ exists resized this' interval,
       Histogram.receive (calendar := Sample.calendar) Scene.resized this = Ok resized
       /\ Histogram._onResizeZoom (calendar := Sample.calendar) resized d3Event
          = Ok (this', [Histogram.onIntervalChange interval true])
       /\ Lifecycle.same_times interval (of_Z 0, of_Z 5).
Proof.
  split; [repeat split; vm_compute; reflexivity|].
  destruct (@full_domain_flag_follows_the_stored_window _ Sample.calendar
              Scene.zoomed_in Scene.resized
              (Sample.zoom_event (Some "wheel"%string) Sample.identity))
    as [resized [this' [E [_ E']]]];
    [vm_compute; first [reflexivity | split; reflexivity] .. |].
  exists resized, this'. eexists. split; [exact E|]. split; [exact E'|].
  split; vm_compute; reflexivity.
Defined.

(** X7: while the user drags the brush, each "brush" event makes exactly
    two calls, in this order: the zoom is handed the transform of scale
    width / (pixelMax - pixelMin) translated by -pixelMin, to which the zoom
    listener does not react, and the caller is notified with the selection
    taken back through the overview scale, which is the window stored. *)
Theorem brush_drag_zooms_then_notifies
    (P : Type) (calendar : D3.Scaling) (brush : Wired.Brushing) (depth : nat)
    (this : Histogram.Instance P) (native : Wired.Native)
    (selection : number * number) :
  Lifecycle.dates_older this = true ->
  let scale := Histogram.densityChartXScale this in
  let times := (D3.invert scale (fst selection), D3.invert scale (snd selection)) in
  let bounds (this : Histogram.Instance P) :=
    (to_number (Histogram.min (Histogram.brushDomain (Histogram.state this))),
     to_number (Histogram.max (Histogram.brushDomain (Histogram.state this)))) in
  exists this',
    Wired.deliver depth this (Wired.brushed native selection)
    = Some (Ok (this',
                [Histogram.zoom_transform
                   (div (Histogram.dc_width
                           (Histogram.densityChartDimensions (Histogram.state this)))
                        (sub (snd selection) (fst selection)))
                   (neg (fst selection)) zero;
                 Histogram.onIntervalChange times (Lifecycle.is_full scale times)]))
    /\ bounds this' = times
    /\ Lifecycle.dates_older this' = true.
Proof.
  intros Holder scale times bounds.
  destruct (@selection_event _ _ _ depth this "brush"
              (Some {| Event.type := Wired.dom_type native |}) selection)
    as [this' [E [W [D _]]]]; [destruct native; reflexivity | exact Holder |].
  exists this'. split; [exact E|]. split.
  - unfold bounds. rewrite W. reflexivity.
  - apply (window_is_older W). rewrite D. cbn. lia.
Qed.

Lemma brush_drag_zooms_then_notifies_witness :
  Lifecycle.dates_older Sample.this0 = true
  /\ exists this' times,
       Wired.deliver (calendar := Sample.calendar) (brush := Scene.brushing) 0 Sample.this0
         (Wired.brushed Wired.mousemove Scene.right_half)
       = Some (Ok (this',
                   [Histogram.zoom_transform (div (of_Z 440) (sub (of_Z 440) (of_Z 220)))
                      (neg (of_Z 220)) zero;
                    Histogram.onIntervalChange times false]))
       /\ Lifecycle.same_times times (of_Z 5, of_Z 10).
Proof.
  split; [reflexivity|].
  destruct (@brush_drag_zooms_then_notifies _ Sample.calendar Scene.brushing 0
              Sample.this0 Wired.mousemove Scene.right_half eq_refl) as [this' [E _]].
  exists this'. eexists. split; [exact E|]. split; reflexivity.
Defined.

(** X8: clearing the brush, when the overview scale's range is [0, w]
    with w the density chart's width, finite and not zero.  The brush is
    moved over the whole range, and the "brush" and "end" events of that
    move are handled before the cleared selection itself: the zoom is handed
    the transform of scale 1 and translation 0 three times and the caller is
    notified five times, twice of them by the zoom listener. *)
Theorem cleared_brush_resets_the_zoom
    (P : Type) (calendar : D3.Scaling) (brush : Wired.Brushing) (depth : nat)
    (this : Histogram.Instance P) (native : Wired.Native) (w : Q) :
  Lifecycle.dates_older this = true ->
  Histogram.dc_width (Histogram.densityChartDimensions (Histogram.state this)) = Num w ->
  D3.range (Histogram.densityChartXScale this) = (zero, Num w) ->
  ~ (w == 0)%Q ->
  let scale := Histogram.densityChartXScale this in
  let k := div (Num w) (sub (Num w) zero) in
  let times := (D3.invert scale zero, D3.invert scale (Num w)) in
  let rescaled := D3.rescaleX (Wired.scale_translate k (neg zero) zero) scale in
  let transformed := Histogram.zoom_transform k (neg zero) zero in
  let whole := Histogram.onIntervalChange times (Lifecycle.is_full scale times) in
  let zoomed := Histogram.onIntervalChange rescaled (Lifecycle.is_full scale rescaled) in
  same k one
  /\ same (neg zero) zero
  /\ exists this',
       Wired.deliver (S depth) this (Wired.brush_ended native None)
       = Some (Ok (this', [transformed; whole;
                           transformed; zoomed; whole;
                           transformed; zoomed; whole])).
Proof.
  intros Holder Hwidth Hrange Hw scale k times rescaled transformed whole zoomed.
  split; [|split; [reflexivity|]].
  - subst k. cbn. unfold sign.
    destruct (Qcompare_spec (w + - 0) 0) as [H|H|H]; cbn.
    + exfalso. apply Hw. rewrite <- H. ring.
    + field. intros Hz. apply Hw. rewrite <- Hz. ring.
    + field. intros Hz. apply Hw. rewrite <- Hz. ring.
  - destruct (@cleared_event _ _ _ depth this
                (Some {| Event.type := Wired.dom_type native |}))
      as [this' [E _]]; [destruct native; reflexivity | exact Holder | |].
    + unfold Lifecycle.wide. rewrite Hrange. cbn [fst snd zero eq_num].
      apply negb_true_iff. apply not_true_iff_false. intros H.
      apply Qeq_bool_iff in H. apply Hw. symmetry. exact H.
    + exists this'. rewrite Hwidth, Hrange in E. exact E.
Qed.

Lemma cleared_brush_resets_the_zoom_witness :
  let transformed :=
    Histogram.zoom_transform (div (of_Z 440) (sub (of_Z 440) zero)) (neg zero) zero in
  Lifecycle.dates_older Sample.this0 = true
  /\ Histogram.dc_width (Histogram.densityChartDimensions (Histogram.state Sample.this0))
     = Num (inject_Z 440)
  /\ D3.range (Histogram.densityChartXScale Sample.this0) = (zero, Num (inject_Z 440))
  /\ ~ (inject_Z 440 == 0)%Q
  /\ same (div (of_Z 440) (sub (of_Z 440) zero)) one
  /\ exists this' whole zoomed,
       Wired.deliver (calendar := Sample.calendar) (brush := Scene.brushing) 1 Sample.this0
         (Wired.brush_ended Wired.mouseup None)
       = Some (Ok (this', [transformed; Histogram.onIntervalChange whole true;
                           transformed; Histogram.onIntervalChange zoomed true;
                           Histogram.onIntervalChange whole true;
                           transformed; Histogram.onIntervalChange zoomed true;
                           Histogram.onIntervalChange whole true]))
       /\ Lifecycle.same_times whole (of_Z 0, of_Z 10)
       /\ Lifecycle.same_times zoomed (of_Z 0, of_Z 10).
Proof.
  intros transformed. do 4 (split; [first [reflexivity | discriminate]|]).
  destruct (@cleared_brush_resets_the_zoom _ Sample.calendar Scene.brushing 0
              Sample.this0 Wired.mouseup (inject_Z 440) eq_refl eq_refl eq_refl)
    as [Hk [_ [this' E]]]; [discriminate|].
  split; [exact Hk|].
  exists this'. do 2 eexists. split; [exact E|]. split; split; reflexivity.
Defined.

(** ** Sequences of inputs *)

Lemma external_is_older (n : nat) (v : value) :
  Lifecycle.external v = true -> Lifecycle.older n v = true.
Proof.
  destruct v as [| |d]; try reflexivity. cbn. destruct (ref d); [reflexivity|discriminate].
Qed.

Section RunFacts.
Context {P : Type} {calendar : D3.Scaling} {brush : Wired.Brushing}.

Lemma extent_is_external (props : Histogram.Props P) :
  forallb (fun p => Lifecycle.external (Histogram.xAccessor props p))
          (Histogram.data props) = true ->
  Lifecycle.external (D3.min (Histogram.data props) (Histogram.xAccessor props)) = true
  /\ Lifecycle.external (D3.max (Histogram.data props) (Histogram.xAccessor props)) = true.
Proof.
  intros H. rewrite forallb_forall in H. split.
  - destruct (min_attained (Histogram.xAccessor props) (Histogram.data props))
      as [->|[p [Hin ->]]]; [reflexivity | exact (H p Hin)].
  - destruct (max_attained (Histogram.xAccessor props) (Histogram.data props))
      as [->|[p [Hin ->]]]; [reflexivity | exact (H p Hin)].
Qed.

Lemma wide_kept (this this' : Histogram.Instance P) :
  Lifecycle.same_settings this this' -> Lifecycle.wide this' = Lifecycle.wide this.
Proof. intros [_ [H _]]. unfold Lifecycle.wide. rewrite H. reflexivity. Qed.

(** An accepted update: it completes without a call, and leaves the
    stored bounds older and the overview's range not empty. *)
Lemma update_step (this : Histogram.Instance P) (nextProps : Histogram.Props P) :
  Lifecycle.acceptable (Lifecycle.update nextProps) = true ->
  Lifecycle.dates_older this = true ->
  Lifecycle.wide this = true ->
  exists this',
    Histogram.receive nextProps this = Ok this'
    /\ Lifecycle.dates_older this' = true
    /\ Lifecycle.wide this' = true.
Proof.
  intros Hok Holder Hwide. cbn in Hok.
  apply andb_true_iff in Hok as [Hok Hlayout]. apply andb_true_iff in Hok as [Hheight Hexternal].
  apply negb_true_iff in Hheight.
  destruct (receive_cases nextProps this Hheight) as [this' [E [_ [Hdomain [Hdates H]]]]].
  exists this'. split; [exact E|]. split.
  - unfold Lifecycle.dates_older in *. rewrite Hdomain, Hdates.
    cbn [Histogram.merge Histogram.brushDomain].
    destruct (Histogram.next_brushDomain _) as [domain|] eqn:D; [|exact Holder].
    apply calculated_domain in D as [-> _].
    destruct (extent_is_external nextProps Hexternal) as [Hmin Hmax].
    cbn [Histogram.min Histogram.max].
    rewrite (external_is_older _ _ Hmin), (external_is_older _ _ Hmax). reflexivity.
  - destruct (Lifecycle.rebuilds (Histogram.props this) nextProps).
    + destruct H as [Hscale _]. unfold Lifecycle.wide. rewrite Hscale.
      unfold Histogram._createScaleAndZoom.
      cbn [fst snd D3.range Histogram.merge Histogram.densityChartDimensions].
      rewrite (proj2 (calculated_layout nextProps
                        (Histogram.state_data (Histogram.state this))
                        (Histogram.brushDomain (Histogram.state this)))).
      exact Hlayout.
    + rewrite H. exact Hwide.
Qed.

(** One input: what it leaves and how many calls of each kind it makes. *)
Lemma step_cases (depth : nat) (this : Histogram.Instance P) (input : Lifecycle.Input) :
  Lifecycle.acceptable input = true ->
  Lifecycle.dates_older this = true ->
  Lifecycle.wide this = true ->
  exists this' calls,
    Lifecycle.step (S depth) this input = Some (Ok (this', calls))
    /\ Lifecycle.dates_older this' = true
    /\ Lifecycle.wide this' = true
    /\ List.length (filter Lifecycle.is_notification calls) = Lifecycle.notifications input
    /\ List.length (filter Lifecycle.is_zoom_transform calls) = Lifecycle.transforms input.
Proof.
  intros Hok Holder Hwide.
  destruct input as [nextProps|[native transform|native selection|native [selection|]]];
    cbn [Lifecycle.step Wired.deliver Lifecycle.notifications Lifecycle.transforms].
  - destruct (update_step this nextProps Hok Holder Hwide) as [this' [E [Holder' Hwide']]].
    rewrite E. exists this', []. repeat split; assumption.
  - destruct (zoom_listener_acts this
                {| Event.zoom_sourceEvent := Some {| Event.type := Wired.dom_type native |};
                   Event.transform := transform |})
      as [this' [E [W [D S]]]]; [destruct native; reflexivity | exact Holder |].
    rewrite E. do 2 eexists. split; [reflexivity|].
    split; [apply (window_is_older W); lia|].
    split; [rewrite (wide_kept S); exact Hwide|]. split; reflexivity.
  - destruct (@selection_event _ _ _ (S depth) this "brush"
                (Some {| Event.type := Wired.dom_type native |}) selection)
      as [this' [E [W [D S]]]]; [destruct native; reflexivity | exact Holder |].
    rewrite E. do 2 eexists. split; [reflexivity|].
    split; [apply (window_is_older W); rewrite D; cbn; lia|].
    split; [rewrite (wide_kept S); exact Hwide|]. split; reflexivity.
  - destruct (@selection_event _ _ _ (S depth) this "end"
                (Some {| Event.type := Wired.dom_type native |}) selection)
      as [this' [E [W [D S]]]]; [destruct native; reflexivity | exact Holder |].
    rewrite E. do 2 eexists. split; [reflexivity|].
    split; [apply (window_is_older W); rewrite D; cbn; lia|].
    split; [rewrite (wide_kept S); exact Hwide|]. split; reflexivity.
  - destruct (@cleared_event _ _ _ depth this
                (Some {| Event.type := Wired.dom_type native |}))
      as [this' [E [W [D S]]]]; [destruct native; reflexivity | exact Holder | exact Hwide |].
    rewrite E. do 2 eexists. split; [reflexivity|].
    split; [apply (window_is_older W); rewrite D; lia|].
    split; [rewrite (wide_kept S); exact Hwide|]. split; reflexivity.
Qed.
End RunFacts.

(** X9: over any sequence of gestures and accepted updates, starting with
    an overview whose range is not empty, nothing is thrown and every
    handler returns.  The caller is notified once for a zoom gesture and
    for each "brush" event of a drag, twice when the brush is let go with a
    selection, five times when it is let go cleared, and never for an
    update; the zoom is handed a transform once for each brush event with a
    selection and three times for a cleared brush. *)
Theorem gestures_are_notified_by_kind
    (P : Type) (calendar : D3.Scaling) (brush : Wired.Brushing) (depth : nat)
    (inputs : list (Lifecycle.Input (P := P))) :
  forall this : Histogram.Instance P,
    forallb Lifecycle.acceptable inputs = true ->
    Lifecycle.dates_older this = true ->
    Lifecycle.wide this = true ->
    exists this' calls,
      Lifecycle.run (S depth) this inputs = Some (Ok (this', calls))
      /\ List.length (filter Lifecycle.is_notification calls)
         = list_sum (map Lifecycle.notifications inputs)
      /\ List.length (filter Lifecycle.is_zoom_transform calls)
         = list_sum (map Lifecycle.transforms inputs).
Proof.
  induction inputs as [|input rest IH]; intros this Hok Holder Hwide.
  - exists this, []. repeat split.
  - cbn in Hok. apply andb_true_iff in Hok as [Hinput Hrest].
    destruct (step_cases depth this input Hinput Holder Hwide)
      as [this1 [calls1 [E1 [Holder1 [Hwide1 [Hn1 Hz1]]]]]].
    destruct (IH this1 Hrest Holder1 Hwide1) as [this' [calls [E [Hn Hz]]]].
    exists this', (calls1 ++ calls). cbn [Lifecycle.run]. rewrite E1.
    cbn [Wired.and_then]. rewrite E.
    split; [reflexivity|]. rewrite !filter_app, !length_app, Hn, Hz, Hn1, Hz1.
    split; reflexivity.
Qed.

Lemma gestures_are_notified_by_kind_witness :
  forallb Lifecycle.acceptable Scene.gestures = true
  /\ Lifecycle.dates_older Sample.this0 = true
  /\ Lifecycle.wide Sample.this0 = true
  /\ exists this' calls,
       Lifecycle.run (calendar := Sample.calendar) (brush := Scene.brushing) 1
         Sample.this0 Scene.gestures
       = Some (Ok (this', calls))
       /\ List.length (filter Lifecycle.is_notification calls) = 9
       /\ List.length (filter Lifecycle.is_zoom_transform calls) = 5.
Proof.
  split; [reflexivity|]. split; [reflexivity|]. split; [reflexivity|].
  exact (@gestures_are_notified_by_kind _ Sample.calendar Scene.brushing 0 Scene.gestures
           Sample.this0 eq_refl eq_refl eq_refl).
Defined.

(** X10: updates with new props keep the bounds of the brush domain in
    order, min <= max, and call no one: when a sequence of updates
    completes on a component whose bounds are in order, they still are, and
    neither the caller was notified nor the zoom transformed. *)
Theorem updates_keep_the_domain_ordered
    (P : Type) (calendar : D3.Scaling) (brush : Wired.Brushing) (depth : nat)
    (inputs : list (Lifecycle.Input (P := P))) :
  forall (this this' : Histogram.Instance P) (calls : list Histogram.Call),
    forallb Lifecycle.is_update inputs = true ->
    Spec.ordered (Histogram.brushDomain (Histogram.state this)) = true ->
    Lifecycle.run depth this inputs = Some (Ok (this', calls)) ->
    Spec.ordered (Histogram.brushDomain (Histogram.state this')) = true /\ calls = [].
Proof.
  induction inputs as [|input rest IH]; intros this this' calls Hupdates Hordered Hrun.
  - injection Hrun as <- <-. split; [exact Hordered | reflexivity].
  - cbn in Hupdates. apply andb_true_iff in Hupdates as [Hinput Hrest].
    destruct input as [nextProps|g]; [|discriminate Hinput].
    cbn [Lifecycle.run Lifecycle.step] in Hrun.
    destruct (lt (Histogram.height nextProps) (of_Z 150)) eqn:Hheight.
    + unfold Histogram.receive, Histogram.getDerivedStateFromProps in Hrun.
      change (of_Z Histogram.MIN_TOTAL_HEIGHT) with (of_Z 150) in Hrun.
      rewrite Hheight in Hrun. discriminate Hrun.
    + destruct (receive_cases nextProps this Hheight) as [this1 [E [_ [Hdomain _]]]].
      rewrite E in Hrun. cbn [Histogram.bind Wired.and_then] in Hrun.
      destruct (Lifecycle.run depth this1 rest) as [[[this2 calls2]|]|] eqn:Erest;
        try discriminate Hrun.
      injection Hrun as <- <-.
      apply (IH this1 this2 calls2 Hrest); [|exact Erest].
      rewrite Hdomain. apply update_keeps_order. exact Hordered.
Qed.

Lemma updates_keep_the_domain_ordered_witness :
  forallb Lifecycle.is_update Scene.updates = true
  /\ Spec.ordered (Histogram.brushDomain (Histogram.state Sample.this0)) = true
  /\ Lifecycle.run (calendar := Sample.calendar) (brush := Scene.brushing) 0
       Sample.this0 Scene.updates
     = Some (Ok (Scene.updated, []))
  /\ Spec.ordered (Histogram.brushDomain (Histogram.state Scene.updated)) = true
  /\ @nil Histogram.Call = [].
Proof.
  assert (Lifecycle.run (calendar := Sample.calendar) (brush := Scene.brushing) 0
            Sample.this0 Scene.updates = Some (Ok (Scene.updated, []))) as E
    by (vm_compute; reflexivity).
  split; [reflexivity|]. split; [reflexivity|]. split; [exact E|].
  exact (@updates_keep_the_domain_ordered _ Sample.calendar Scene.brushing 0
           Scene.updates Sample.this0 Scene.updated [] eq_refl eq_refl E).
Defined.

(** ** The bars and their scales *)

Lemma add_same_comm (a b : number) : same (add a b) (add b a).
Proof. destruct a, b; cbn; try exact I. ring. Qed.

Lemma total_app (P : Type) (yAccessor : P -> number) (l l' : list P) :
  same (Spec.total yAccessor (l ++ l'))
       (add (Spec.total yAccessor l) (Spec.total yAccessor l')).
Proof.
  induction l as [|p l IH]; cbn [app Spec.total].
  - apply same_sym, add_zero_l.
  - eapply same_trans; [apply add_same_compat; [apply same_refl | exact IH]|].
    apply same_sym, add_same_assoc.
Qed.

Lemma total_permutation (P : Type) (yAccessor : P -> number) (l l' : list P) :
  Permutation l l' -> same (Spec.total yAccessor l) (Spec.total yAccessor l').
Proof.
  induction 1 as [|p l l' _ IH|p q l|l l' l'' _ IH1 _ IH2]; cbn [Spec.total].
  - apply same_refl.
  - apply add_same_compat; [apply same_refl | exact IH].
  - eapply same_trans; [apply same_sym, add_same_assoc|].
    eapply same_trans; [|apply add_same_assoc].
    apply add_same_compat; [apply add_same_comm | apply same_refl].
  - eapply same_trans; eassumption.
Qed.

Lemma bars_total_counted (P : Type) (yAccessor : P -> number)
    (bars : list (Histogram.Bar P)) :
  Forall (fun bar => same (Histogram.yValue bar)
                          (Spec.total yAccessor (Histogram.points bar))) bars ->
  same (Lifecycle.bars_total bars) (Spec.total yAccessor (Spec.counted bars)).
Proof.
  induction 1 as [|bar rest Hbar _ IH]; cbn; [reflexivity|].
  eapply same_trans; [|apply same_sym, total_app].
  apply add_same_compat; assumption.
Qed.

Lemma drop_while_length (f : number -> bool) (l : list number) :
  List.length (D3.drop_while f l) <= List.length l.
Proof. induction l as [|t l IH]; cbn; [lia|]. destruct (f t); cbn; lia. Qed.

Lemma trim_length (lo hi : number) (thresholds : list number) :
  List.length (D3.trim lo hi thresholds) <= List.length thresholds.
Proof.
  unfold D3.trim. rewrite length_rev.
  eapply Nat.le_trans; [apply drop_while_length|]. rewrite length_rev.
  apply drop_while_length.
Qed.

(** X11: for weights on which the code's sums are exact (whole numbers
    whose magnitudes add up to 2^53 at most), the bars carry the whole
    weight of the rounded domain: summed over all bars, yValue is the sum of
    yAccessor over the points of the data whose coordinate lies in the
    histogram's domain, points outside of it weighing nothing. *)
Theorem bars_carry_the_weight_of_the_domain
    (P : Type) (calendar : D3.Scaling) (this : Histogram.Instance P) :
  Lifecycle.exact_weights (Histogram.yAccessor (Histogram.props this))
    (Histogram.data (Histogram.props this)) = true ->
  exists this',
    Histogram._updateHistogramChartScales this = Ok this'
    /\ same (Lifecycle.bars_total (Histogram.timeHistogramBars (Histogram.state this')))
            (Spec.total (Histogram.yAccessor (Histogram.props this))
               (filter (Spec.within (Histogram.xAccessor (Histogram.props this))
                                    (fst (Spec.niced this)) (snd (Spec.niced this)))
                       (Histogram.data (Histogram.props this)))).
Proof.
  intros _.
  destruct (update_scales_total this)
    as [this' [E [_ [_ [_ [_ [_ [_ [Hsum [_ Hperm]]]]]]]]]].
  exists this'. split; [exact E|].
  eapply same_trans; [apply bars_total_counted; exact Hsum|].
  apply total_permutation. exact Hperm.
Qed.

Lemma bars_carry_the_weight_of_the_domain_witness :
  Lifecycle.exact_weights (Histogram.yAccessor (Histogram.props Sample.this0))
    (Histogram.data (Histogram.props Sample.this0)) = true
  /\ exists this',
       Histogram._updateHistogramChartScales (calendar := Sample.calendar) Sample.this0
       = Ok this'
       /\ same (Lifecycle.bars_total (Histogram.timeHistogramBars (Histogram.state this')))
               (of_Z 2).
Proof.
  split; [reflexivity|].
  destruct (@bars_carry_the_weight_of_the_domain _ Sample.calendar Sample.this0 eq_refl)
    as [this' [E H]].
  exists this'. split; [exact E|].
  eapply same_trans; [exact H|]. reflexivity.
Defined.

(** X12: recomputing the bars always leaves at least one bar, and at most
    one more than the scale has ticks, whatever the data, an empty data set
    included. *)
Theorem at_least_one_bar
    (P : Type) (calendar : D3.Scaling) (this : Histogram.Instance P) :
  exists this',
    Histogram._updateHistogramChartScales this = Ok this'
    /\ 1 <= List.length (Histogram.timeHistogramBars (Histogram.state this'))
       <= S (List.length (D3.ticks (Spec.niced this)
                            (Histogram.defaultBarCount (Histogram.props this)))).
Proof.
  unfold Histogram._updateHistogramChartScales. fold (Spec.niced this).
  destruct (histogram_partition (Histogram.xAccessor (Histogram.props this))
              (Spec.niced this)
              (D3.ticks (Spec.niced this) (Histogram.defaultBarCount (Histogram.props this)))
              (Histogram.data (Histogram.props this)))
    as [bins [E [Hb _]]].
  rewrite E. cbn [Histogram.bind]. eexists. split; [reflexivity|]. cbn.
  rewrite length_map.
  apply (f_equal (@List.length _)) in Hb. unfold D3.bounds in Hb.
  rewrite !length_map, init_bins_length in Hb. rewrite Hb.
  pose proof (trim_length (fst (Spec.niced this)) (snd (Spec.niced this))
                (D3.ticks (Spec.niced this)
                   (Histogram.defaultBarCount (Histogram.props this)))).
  lia.
Qed.

(** X13: after the bars are recomputed the two scales of the histogram
    are set: the x scale maps the rounded domain onto the width less 2% on
    either side, the y scale maps [0, greatest yValue] onto
    [heightForBars, 0], and no bar with a comparable yValue exceeds the y
    scale's domain. *)
Theorem histogram_scales_cover_the_bars
    (P : Type) (calendar : D3.Scaling) (this : Histogram.Instance P) :
  let dimensions := Histogram.histogramChartDimensions (Histogram.state this) in
  exists this' xScale yScale,
    Histogram._updateHistogramChartScales this = Ok this'
    /\ Histogram.histogramChartXScale this' = Some xScale
    /\ Histogram.histogramChartYScale this' = Some yScale
    /\ D3.domain xScale = Spec.niced this
    /\ D3.range xScale
       = (mul (Histogram.hc_width dimensions) (Num (2 # 100)),
          mul (Histogram.hc_width dimensions) (sub one (Num (2 # 100))))
    /\ fst (D3.domain yScale) = zero
    /\ D3.range yScale = (Histogram.heightForBars dimensions, zero)
    /\ forall bar,
         In bar (Histogram.timeHistogramBars (Histogram.state this')) ->
         le (Histogram.yValue bar) (Histogram.yValue bar) = true ->
         le (Histogram.yValue bar) (snd (D3.domain yScale)) = true.
Proof.
  intros dimensions. unfold Histogram._updateHistogramChartScales. fold (Spec.niced this).
  destruct (histogram_partition (Histogram.xAccessor (Histogram.props this))
              (Spec.niced this)
              (D3.ticks (Spec.niced this) (Histogram.defaultBarCount (Histogram.props this)))
              (Histogram.data (Histogram.props this)))
    as [bins [E _]].
  rewrite E. cbn [Histogram.bind]. do 3 eexists.
  split; [reflexivity|]. cbn.
  repeat (split; [reflexivity|]).
  intros bar Hin Hbar. cbn [snd D3.domain].
  match goal with
  | |- le _ (to_number (D3.max ?bars ?f)) = true =>
      exact (proj2 (extent_contains f bars bar Hin Hbar))
  end.
Qed.

(** ** The layout *)

Lemma le_Num (p q : Q) : le (Num p) (Num q) = true <-> (p <= q)%Q.
Proof.
  cbn. destruct (Qcompare_spec p q) as [H|H|H]; split; intros; try reflexivity;
    try discriminate; try lra.
Qed.

Lemma lt_Num (p q : Q) : lt (Num p) (Num q) = true <-> (p < q)%Q.
Proof.
  cbn. destruct (Qcompare_spec p q) as [H|H|H]; split; intros; try reflexivity;
    try discriminate; try lra.
Qed.

Lemma lt_of_Z (a b : Z) : lt (of_Z a) (of_Z b) = (a <? b)%Z.
Proof.
  cbn. unfold Qcompare, inject_Z. cbn [Qnum Qden]. rewrite !Z.mul_1_r.
  unfold Z.ltb. reflexivity.
Qed.

(** X14: for sizes in whole pixels (integers of magnitude 2^50 at most,
    on which the code's additions and subtractions are exact), the layout
    shares the height out exactly: the histogram, the 35px density chart and
    the space between them add up to the height; the bars get the
    histogram's height less 18px for the axis, so a height that passes the
    check (150 or more) leaves them at least 97px less the space between the
    charts; the histogram is 10px narrower than the component and the
    density chart 40px, or 60px when the play button is rendered and the
    width exceeds 20px. *)
Theorem layout_shares_out_the_size
    (P : Type) (props : Histogram.Props P) (w h s : Z) :
  Histogram.size_width props = of_Z w ->
  Histogram.height props = of_Z h ->
  Histogram.spaceBetweenCharts props = of_Z s ->
  (Z.abs w <= 2 ^ 50)%Z ->
  (Z.abs h <= 2 ^ 50)%Z ->
  (Z.abs s <= 2 ^ 50)%Z ->
  let histogram := fst (Histogram._calculateChartsPositionsAndSizing props) in
  let density := snd (Histogram._calculateChartsPositionsAndSizing props) in
  same (add (add (Histogram.hc_height histogram) (Histogram.dc_height density)) (of_Z s))
       (of_Z h)
  /\ same (Histogram.heightForBars histogram) (of_Z (h - 53 - s))
  /\ ((150 <= h)%Z -> le (of_Z (97 - s)) (Histogram.heightForBars histogram) = true)
  /\ same (Histogram.hc_width histogram) (of_Z (w - 10))
  /\ same (Histogram.dc_width density)
          (if Histogram.renderPlayButton props && (20 <? w)%Z
           then of_Z (w - 60) else of_Z (w - 40)).
Proof.
  intros Hw Hh Hs _ _ _ histogram density. subst histogram density.
  unfold Histogram._calculateChartsPositionsAndSizing. rewrite Hw, Hh, Hs.
  cbn [fst snd Histogram.hc_height Histogram.dc_height Histogram.heightForBars
       Histogram.hc_width Histogram.dc_width].
  unfold Histogram.DENSITY_CHART_HEIGHT_PX, Histogram.X_AXIS_HEIGHT, Histogram.PADDING,
    Histogram.BUTTON_PADDING, gt.
  change (add (of_Z 10) (of_Z 10)) with (Num (inject_Z 10 + inject_Z 10)).
  assert (lt (Num (inject_Z 10 + inject_Z 10)) (of_Z w) = (20 <? w)%Z) as ->
    by (rewrite <- lt_of_Z; reflexivity).
  unfold of_Z, zero. cbn [sub add neg mul same].
  assert (forall a b : Z, (inject_Z a + - inject_Z b == inject_Z (a - b))%Q) as Hsub
    by (intros a b; unfold Qeq, Qplus, Qopp, inject_Z; cbn [Qnum Qden Pos.mul]; lia).
  split; [rewrite !Hsub; unfold Qeq, Qplus, inject_Z; cbn [Qnum Qden Pos.mul]; lia|].
  split; [rewrite !Hsub; unfold Qeq, inject_Z; cbn [Qnum Qden]; lia|].
  split; [intros Hmin; apply le_Num; rewrite !Hsub;
          unfold Qle, inject_Z; cbn [Qnum Qden]; lia|].
  split; [rewrite Hsub; reflexivity|].
  assert (inject_Z 10 * inject_Z 4 == inject_Z 40)%Q as Hforty by reflexivity.
  destruct (Histogram.renderPlayButton props); cbn [andb].
  - destruct (20 <? w)%Z; cbn [sub add neg mul same]; rewrite Hforty, !Hsub;
      unfold Qeq, Qplus, Qopp, inject_Z; cbn [Qnum Qden Pos.mul]; lia.
  - cbn [sub add neg mul same]. rewrite Hforty, !Hsub.
    unfold Qeq, Qplus, Qopp, inject_Z. cbn [Qnum Qden Pos.mul]. lia.
Qed.

Lemma layout_shares_out_the_size_witness :
  let props := Sample.props Sample.data0 150 in
  let histogram := fst (Histogram._calculateChartsPositionsAndSizing props) in
  let density := snd (Histogram._calculateChartsPositionsAndSizing props) in
  Histogram.size_width props = of_Z 500
  /\ Histogram.height props = of_Z 150
  /\ Histogram.spaceBetweenCharts props = of_Z 10
  /\ (Z.abs 500 <= 2 ^ 50)%Z
  /\ (Z.abs 150 <= 2 ^ 50)%Z
  /\ (Z.abs 10 <= 2 ^ 50)%Z
  /\ (150 <= 150)%Z
  /\ le (of_Z (97 - 10)) (Histogram.heightForBars histogram) = true
  /\ same (Histogram.dc_width density) (of_Z (500 - 60)).
Proof.
  do 3 (split; [reflexivity|]). do 4 (split; [lia|]).
  destruct (@layout_shares_out_the_size _ (Sample.props Sample.data0 150)
              500%Z 150%Z 10%Z eq_refl eq_refl eq_refl)
    as [_ [_ [Hbars [_ Hdensity]]]]; try lia.
  split; [apply Hbars; lia | exact Hdensity].
Defined.

(** ** What is drawn *)

Section ViewFacts.
Context {P E : Type} {mapping : Pixels.Mapping}.

Lemma render_from_nth (xScale yScale : D3.Scale) (heightForBars : number)
    (display : HistogramView.Display P E) (bars : list (Histogram.Bar P)) :
  forall start i,
    nth_error (HistogramView.render_from xScale yScale heightForBars display start bars) i
    = option_map (fun bar => HistogramView.render_bar xScale yScale heightForBars display
                               bar (start + i))
                 (nth_error bars i).
Proof.
  induction bars as [|bar rest IH]; intros start i; cbn.
  - destruct i; reflexivity.
  - destruct i as [|i]; cbn.
    + rewrite Nat.add_0_r. reflexivity.
    + rewrite IH. rewrite Nat.add_succ_r. reflexivity.
Qed.

Lemma render_from_length (xScale yScale : D3.Scale) (heightForBars : number)
    (display : HistogramView.Display P E) (bars : list (Histogram.Bar P)) :
  forall start,
    List.length (HistogramView.render_from xScale yScale heightForBars display start bars)
    = List.length bars.
Proof. induction bars as [|bar rest IH]; intros start; cbn; [|rewrite IH]; reflexivity. Qed.
End ViewFacts.

(** X15: once the two scales are set, rendering the bars never throws and
    gives one entry per bar, in order; an entry is a rect exactly when the
    bar's width, its span on the x scale less the margin, is not <= 0; a
    rect carries the index of its bar, and entering it with the mouse shows
    the tooltip with that very bar as the current one. *)
Theorem rendered_rect_leads_back_to_its_bar
    (P E : Type) (mapping : Pixels.Mapping) (this : Histogram.Instance P)
    (display : HistogramView.Display P E) (xScale yScale : D3.Scale) :
  Histogram.histogramChartXScale this = Some xScale ->
  Histogram.histogramChartYScale this = Some yScale ->
  let bars := Histogram.timeHistogramBars (Histogram.state this) in
  exists rects,
    HistogramView._renderHistogramBars this display bars = Ok rects
    /\ List.length rects = List.length bars
    /\ forall i bar,
         nth_error bars i = Some bar ->
         let barWidth :=
           sub (sub (Pixels.apply xScale (Histogram.x1 bar))
                    (Pixels.apply xScale (Histogram.x0 bar)))
               (HistogramView.margin display) in
         if le barWidth zero
         then nth_error rects i = Some None
         else exists rect,
                nth_error rects i = Some (Some rect)
                /\ HistogramView.dataindex rect = i
                /\ HistogramView.width rect = barWidth
                /\ HistogramView.key rect = Histogram.x0 bar
                /\ forall box,
                     let entered :=
                       HistogramView._onMouseEnterHistogramBar this
                         {| HistogramView.target_dataindex := HistogramView.dataindex rect;
                            HistogramView.target_box := box |} in
                     HistogramView.currentBar (snd entered) = Some bar
                     /\ HistogramView.selectedBarPosition (snd entered) = box
                     /\ Histogram.showHistogramBarTooltip (Histogram.state (fst entered))
                        = true.
Proof.
  intros Hx Hy bars.
  exists (HistogramView.render_from xScale yScale
            (Histogram.heightForBars
               (Histogram.histogramChartDimensions (Histogram.state this)))
            display 0 bars).
  split; [|split].
  - unfold HistogramView._renderHistogramBars. rewrite Hx, Hy.
    destruct bars; reflexivity.
  - apply render_from_length.
  - intros i bar Hbar barWidth. rewrite render_from_nth, Hbar. cbn [option_map Nat.add].
    unfold HistogramView.render_bar. fold barWidth.
    destruct (le barWidth zero); [reflexivity|].
    eexists. split; [reflexivity|]. cbn. repeat split.
    + exact Hbar.
    + destruct box; reflexivity.
Qed.

Lemma rendered_rect_leads_back_to_its_bar_witness :
  exists xScale yScale rects rect,
    Histogram.histogramChartXScale Scene.mounted = Some xScale
    /\ Histogram.histogramChartYScale Scene.mounted = Some yScale
    /\ HistogramView._renderHistogramBars (mapping := Scene.pixels) Scene.mounted
         Scene.display (Histogram.timeHistogramBars (Histogram.state Scene.mounted))
       = Ok rects
    /\ nth_error rects 1 = Some (Some rect)
    /\ HistogramView.currentBar
         (snd (HistogramView._onMouseEnterHistogramBar Scene.mounted
                 {| HistogramView.target_dataindex := HistogramView.dataindex rect;
                    HistogramView.target_box := Scene.box |}))
       = nth_error (Histogram.timeHistogramBars (Histogram.state Scene.mounted)) 1.
Proof.
  do 2 eexists.
  assert (Histogram.histogramChartXScale Scene.mounted = Some _) as Hx by reflexivity.
  assert (Histogram.histogramChartYScale Scene.mounted = Some _) as Hy by reflexivity.
  destruct (@rendered_rect_leads_back_to_its_bar _ string Scene.pixels Scene.mounted
              Scene.display _ _ Hx Hy) as [rects [E [_ Hrects]]].
  destruct (nth_error (Histogram.timeHistogramBars (Histogram.state Scene.mounted)) 1)
    as [bar|] eqn:Hbar; [|discriminate Hbar].
  specialize (Hrects 1 bar Hbar). cbv zeta in Hrects.
  match type of Hrects with
  | if ?c then _ else _ => replace c with false in Hrects
      by (vm_compute in Hbar; injection Hbar as <-; vm_compute; reflexivity)
  end.
  destruct Hrects as [rect [Hnth [_ [_ [_ Hhover]]]]].
  exists rects, rect. split; [exact Hx|]. split; [exact Hy|]. split; [exact E|].
  split; [exact Hnth|]. exact (proj1 (Hhover Scene.box)).
Defined.

(** X16: without a tooltip customization the hover feature is off
    throughout: no rendered rect has a mouse handler attached and no tooltip
    is rendered, whatever bar is current and even when the state asks for
    one. *)
Theorem no_customization_no_tooltip
    (P E : Type) (mapping : Pixels.Mapping) (this : Histogram.Instance P)
    (display : HistogramView.Display P E) (hover : HistogramView.Hover P) :
  HistogramView.tooltipBarCustomization display = None ->
  forall tooltip rects,
    HistogramView.render this display hover = Ok (tooltip, rects) ->
    tooltip = None
    /\ forall rect,
         In (Some rect) rects ->
         HistogramView.onMouseEnter rect = false /\ HistogramView.onMouseLeave rect = false.
Proof.
  intros Hnone tooltip rects. unfold HistogramView.render, HistogramView._renderBarTooltip.
  rewrite Hnone.
  destruct (HistogramView._renderHistogramBars this display _) as [bars|] eqn:Erender;
    [|discriminate].
  cbn [Histogram.bind]. intros [= <- <-]. split.
  - destruct (Histogram.showHistogramBarTooltip _); reflexivity.
  - intros rect Hin. unfold HistogramView._renderHistogramBars in Erender.
    destruct (Histogram.timeHistogramBars (Histogram.state this)) as [|bar rest] eqn:Hbars.
    + injection Erender as <-. destruct Hin.
    + destruct (Histogram.histogramChartXScale this) as [xScale|]; [|discriminate].
      destruct (Histogram.histogramChartYScale this) as [yScale|]; [|discriminate].
      injection Erender as <-.
      change (In (Some rect)
                (HistogramView.render_from xScale yScale
                   (Histogram.heightForBars
                      (Histogram.histogramChartDimensions (Histogram.state this)))
                   display 0 (bar :: rest))) in Hin.
      apply In_nth_error in Hin as [i Hi]. rewrite render_from_nth in Hi.
      destruct (nth_error (bar :: rest) i) as [b|]; [|discriminate].
      cbn [option_map] in Hi. injection Hi as Hi.
      unfold HistogramView.render_bar in Hi. rewrite Hnone in Hi.
      destruct (le _ zero); [discriminate|]. injection Hi as <-. split; reflexivity.
Qed.

Lemma no_customization_no_tooltip_witness :
  let display :=
    {| HistogramView.margin := of_Z 1;
       HistogramView.tooltipBarCustomization :=
         @None (option (Histogram.Bar Sample.Point) -> string) |} in
  let hover := {| HistogramView.currentBar := None;
                  HistogramView.selectedBarPosition := Scene.box |} in
  HistogramView.tooltipBarCustomization display = None
  /\ exists rects,
       HistogramView.render (mapping := Scene.pixels) Scene.mounted display hover
       = Ok (None, rects)
       /\ forall rect,
            In (Some rect) rects ->
            HistogramView.onMouseEnter rect = false
            /\ HistogramView.onMouseLeave rect = false.
Proof.
  split; [reflexivity|].
  eexists. split; [vm_compute; reflexivity|].
  apply (@no_customization_no_tooltip _ string Scene.pixels Scene.mounted
           {| HistogramView.margin := of_Z 1;
              HistogramView.tooltipBarCustomization := None |}
           {| HistogramView.currentBar := None;
              HistogramView.selectedBarPosition := Scene.box |}
           eq_refl None).
  vm_compute. reflexivity.
Defined.

Lemma not_comparable_is_NaN (a : number) : le a a = false -> a = NaN.
Proof.
  destruct a as [| |q|]; cbn; try congruence.
  destruct (Qcompare_spec q q); try congruence. exfalso. lra.
Qed.

Section ConstructedFacts.
Context {P : Type}.

Lemma constructed_fields (props : Histogram.Props P) (this : Histogram.Instance P) :
  Histogram.constructor props = Ok this ->
  Histogram.props this = props
  /\ Histogram.brushDomain (Histogram.state this)
     = {| Histogram.min := D3.min (Histogram.data props) (Histogram.xAccessor props);
          Histogram.max := D3.max (Histogram.data props) (Histogram.xAccessor props) |}
  /\ Histogram.densityChartDimensions (Histogram.state this)
     = snd (Histogram._calculateChartsPositionsAndSizing props)
  /\ Spec.ordered (Histogram.brushDomain (Histogram.state this)) = true.
Proof.
  intros H. pose proof (constructed_in_order _ H) as Hordered.
  unfold Histogram.constructor in H.
  destruct (Histogram.next_brushDomain _) as [domain|] eqn:E; [|discriminate].
  apply calculated_domain in E as [-> _]. injection H as <-. cbn in *.
  repeat split; try assumption.
  apply (proj2 (calculated_layout props (Some [])
                  {| Histogram.min := VNum Infinity; Histogram.max := VNum NegInfinity |})).
Qed.

Lemma constructed_greatest_attained (props : Histogram.Props P)
    (this : Histogram.Instance P) :
  Histogram.constructor props = Ok this ->
  exists p, In p (Histogram.data props)
            /\ Histogram.xAccessor props p
               = D3.max (Histogram.data props) (Histogram.xAccessor props)
            /\ vle (Histogram.xAccessor props p) (Histogram.xAccessor props p) = true.
Proof.
  intros H. destruct (constructed_fields _ H) as [_ [Hdomain [_ Hordered]]].
  rewrite Hdomain in Hordered. unfold Spec.ordered in Hordered. cbn in Hordered.
  apply le_refl_comparable_r in Hordered.
  destruct (max_attained (Histogram.xAccessor props) (Histogram.data props))
    as [U|[p [Hin Hp]]].
  - rewrite U in Hordered. discriminate Hordered.
  - exists p. rewrite Hp in Hordered. repeat split; try assumption. symmetry. exact Hp.
Qed.
End ConstructedFacts.

(** X17: in the view a freshly constructed component gives, the density
    chart clears the canvas and then marks every point once, in the order
    of the data, 2px wide and of the chart's height; a point is in the
    brush colour exactly when its coordinate is below the greatest one, so
    the points at the greatest coordinate are drawn faded although the
    whole extent is selected. *)
Theorem greatest_point_is_drawn_faded
    (P : Type) (mapping : Pixels.Mapping) (props : Histogram.Props P)
    (this : Histogram.Instance P) (color faded : string) :
  Histogram.constructor props = Ok this ->
  let chart := Histogram.render_DensityChart this in
  let rest := render_DensityChart_rest this color faded in
  let greatest := D3.max (Histogram.data props) (Histogram.xAccessor props) in
  let mark := fun p fillStyle =>
    DensityChartView.drawRect
      (Pixels.apply (Histogram.densityChartXScale this)
                    (to_number (Histogram.xAccessor props p)))
      zero (of_Z 2) (of_Z 35) fillStyle in
  DensityChartView._renderDensityChart chart rest
  = DensityChartView.clearCanvas (DensityChart.width chart) (of_Z 35)
    :: map (fun p => mark p (if vlt (Histogram.xAccessor props p) greatest
                             then color else faded))
           (Histogram.data props)
  /\ exists p,
       In p (Histogram.data props)
       /\ Histogram.xAccessor props p = greatest
       /\ In (mark p faded) (DensityChartView._renderDensityChart chart rest).
Proof.
  intros H chart rest greatest mark.
  destruct (constructed_fields _ H) as [Hprops [Hdomain [Hdims _]]].
  assert (DensityChartView._renderDensityChart chart rest
          = DensityChartView.clearCanvas (DensityChart.width chart) (of_Z 35)
            :: map (fun p => mark p (if vlt (Histogram.xAccessor props p) greatest
                                     then color else faded))
                   (Histogram.data props)) as Hdraws.
  { unfold DensityChartView._renderDensityChart, chart, rest, render_DensityChart_rest,
      Histogram.render_DensityChart, DensityChartView.isInsideOfBrushDomain.
    cbn [DensityChart.width DensityChart.height DensityChart.densityChartXScale
         DensityChart.brushDomainMin DensityChart.brushDomainMax
         DensityChartView.data DensityChartView.xAccessor
         DensityChartView.brushDensityChartColor
         DensityChartView.brushDensityChartFadedColor].
    rewrite Hprops, Hdomain, Hdims. cbn [Histogram.min Histogram.max].
    unfold Histogram._calculateChartsPositionsAndSizing.
    cbn [snd Histogram.dc_height Histogram.dc_width].
    f_equal. apply map_ext_in. intros p Hin. unfold mark. f_equal. fold greatest.
    destruct (vle (Histogram.xAccessor props p) (Histogram.xAccessor props p)) eqn:Hp.
    - destruct (extent_contains (Histogram.xAccessor props) _ _ Hin Hp) as [Hmin _].
      unfold vge, ge. unfold vle in Hmin. rewrite Hmin. reflexivity.
    - apply not_comparable_is_NaN in Hp. unfold vge, ge, vlt. rewrite Hp.
      destruct (to_number (D3.min _ _)), (to_number greatest); reflexivity. }
  split; [exact Hdraws|].
  destruct (constructed_greatest_attained _ H) as [p [Hin [Hp Hcomparable]]].
  exists p. split; [exact Hin|]. split; [exact Hp|].
  rewrite Hdraws. right. apply in_map_iff. exists p. split; [|exact Hin].
  fold greatest in Hp. rewrite <- Hp. unfold vlt.
  rewrite (le_lt_false _ _ Hcomparable). reflexivity.
Qed.

Lemma greatest_point_is_drawn_faded_witness :
  Histogram.constructor (Sample.props Sample.data0 150) = Ok Sample.this0
  /\ In (DensityChartView.drawRect
           (Pixels.apply (Mapping := Scene.pixels)
              (Histogram.densityChartXScale Sample.this0) (of_Z 10))
           zero (of_Z 2) (of_Z 35) "faded")
        (DensityChartView._renderDensityChart (mapping := Scene.pixels)
           (Histogram.render_DensityChart Sample.this0)
           (render_DensityChart_rest Sample.this0 "blue" "faded")).
Proof.
  split; [reflexivity|].
  destruct (@greatest_point_is_drawn_faded _ Scene.pixels (Sample.props Sample.data0 150)
              Sample.this0 "blue"%string "faded"%string eq_refl)
    as [Hdraws _].
  rewrite Hdraws. right. right. left. reflexivity.
Defined.

(** X18: when the density chart's size in the state is the one the layout
    gives for the props, of finite width w, the canvas the density chart
    renders, pushed right by 20px when no play button is rendered (none is
    asked for, or there is no data), ends at most at w - 20, and sits
    spaceBetweenCharts below the top. *)
Theorem density_canvas_fits
    (P : Type) (mapping : Pixels.Mapping) (this : Histogram.Instance P)
    (color faded : string) (w : Q) :
  Histogram.densityChartDimensions (Histogram.state this)
  = snd (Histogram._calculateChartsPositionsAndSizing (Histogram.props this)) ->
  Histogram.size_width (Histogram.props this) = Num w ->
  let canvas :=
    DensityChartView.render_canvas (Histogram.render_DensityChart this)
      (render_DensityChart_rest this color faded) in
  le (add (DensityChartView.canvas_left canvas) (DensityChartView.canvas_width canvas))
     (Num (w - 20)) = true
  /\ DensityChartView.canvas_top canvas
     = Histogram.spaceBetweenCharts (Histogram.props this)
  /\ DensityChartView.canvas_height canvas = of_Z 35.
Proof.
  intros Hdims Hw canvas. subst canvas.
  unfold DensityChartView.render_canvas, Histogram.render_DensityChart,
    render_DensityChart_rest.
  cbn [DensityChart.renderPlayButton DensityChart.width DensityChart.height
       DensityChartView.padding DensityChartView.spaceBetweenCharts
       DensityChartView.canvas_left DensityChartView.canvas_width
       DensityChartView.canvas_top DensityChartView.canvas_height].
  rewrite Hdims. unfold Histogram._calculateChartsPositionsAndSizing. rewrite Hw.
  cbn [snd Histogram.dc_width Histogram.dc_height].
  split; [|split; reflexivity].
  unfold Histogram.PADDING, Histogram.BUTTON_PADDING, of_Z, zero, gt.
  destruct (Histogram.renderPlayButton (Histogram.props this));
    destruct (0 <? List.length (Histogram.data (Histogram.props this)));
    cbn [andb negb];
    repeat match goal with
           | |- context [if ?c then _ else _] => destruct c
           end;
    cbn [sub add neg mul]; apply le_Num; unfold inject_Z; lra.
Qed.

Lemma density_canvas_fits_witness :
  let canvas :=
    DensityChartView.render_canvas (Histogram.render_DensityChart Sample.this0)
      (render_DensityChart_rest Sample.this0 "blue" "faded") in
  Histogram.densityChartDimensions (Histogram.state Sample.this0)
  = snd (Histogram._calculateChartsPositionsAndSizing (Histogram.props Sample.this0))
  /\ Histogram.size_width (Histogram.props Sample.this0) = Num (inject_Z 500)
  /\ le (add (DensityChartView.canvas_left canvas) (DensityChartView.canvas_width canvas))
        (Num (inject_Z 500 - 20)) = true
  /\ DensityChartView.canvas_top canvas = of_Z 10
  /\ DensityChartView.canvas_height canvas = of_Z 35.
Proof.
  split; [reflexivity|]. split; [reflexivity|].
  apply (@density_canvas_fits _ Scene.pixels Sample.this0 "blue"%string "faded"%string
           (inject_Z 500) eq_refl eq_refl).
Defined.

(** ** Mounting *)


Section MountFacts.
Context {P : Type} {calendar : D3.Scaling} {brush : Wired.Brushing}.

End MountFacts.


